(** * Position ledger of the board/task API

    A shallow embedding of [src/models/Task.js] (the [Task] entity and the
    [TaskRepository]), of the SQL statements the repository sends to the
    [Task] table created in [src/database/init.js], and of the
    [reorderByPosition] handler of [src/controllers/taskController.js]
    together with its route in [src/routes/taskRoutes.js].

    The callbacks of the repository are modelled by explicit state passing:
    an operation takes the table and gives back what it hands to its
    callback together with the table it leaves behind.  The statements of
    the database are total here (no I/O failure is modelled). *)

From Stdlib Require Import ZArith List Bool String Ascii QArith Lia Permutation Sorted.
Import ListNotations.
Local Open Scope string_scope.
Local Open Scope Z_scope.

(* ------------------------------------------------------------------ *)
(** ** JavaScript values reaching the handlers *)

Module JS.

(** A string is the sequence of its UTF-16 code units, each below 2^16:
    ["A"] is [[65]], a no-break space is [[160]], and a character outside the
    basic plane is a lead surrogate followed by a trail surrogate. *)
Definition jsstring : Type := list N.

(** The string of a literal of the source, one code unit per character. *)
Definition lit (s : string) : jsstring :=
  map N_of_ascii (list_ascii_of_string s).

(** [s === ""], which for a string is [!s]. *)
Definition is_empty (s : jsstring) : bool :=
  match s with
  | [] => true
  | _ :: _ => false
  end.

(** A string without unpaired surrogates.  These are the strings that keep
    their code units when the driver hands them to the database as UTF-8
    text and reads them back. *)
Definition is_lead_surrogate (c : N) : bool :=
  ((55296 <=? c) && (c <=? 56319))%N.

Definition is_trail_surrogate (c : N) : bool :=
  ((56320 <=? c) && (c <=? 57343))%N.

Fixpoint well_formed (s : jsstring) : bool :=
  match s with
  | [] => true
  | c :: s' =>
    if is_lead_surrogate c then
      match s' with
      | d :: s'' => is_trail_surrogate d && well_formed s''
      | [] => false
      end
    else negb (is_trail_surrogate c) && (c <? 65536)%N && well_formed s'
  end.

(** What a request can carry: [req.params] holds strings, a JSON body holds
    null, booleans, numbers, strings, and objects or arrays; a field that
    is missing reads as [undefined]. *)
Inductive jsval : Type :=
| JUndefined
| JNull
| JBool (b : bool)
| JNum (q : Q)
| JStr (s : jsstring)
| JObject.

(** [!v] is [negb (truthy v)]. *)
Definition truthy (v : jsval) : bool :=
  match v with
  | JUndefined | JNull => false
  | JBool b => b
  | JNum q => negb (Qnum q =? 0)
  | JStr s => negb (is_empty s)
  | JObject => true
  end.

(** [v === undefined] *)
Definition is_undefined (v : jsval) : bool :=
  match v with JUndefined => true | _ => false end.

(** [Number.isInteger(v)]: false for everything that is not a number. *)
Definition Number_isInteger (v : jsval) : bool :=
  match v with
  | JNum q => Qnum q mod Zpos (Qden q) =? 0
  | _ => false
  end.

(** The integer a number that passed [Number.isInteger] stands for. *)
Definition integer_value (v : jsval) : Z :=
  match v with
  | JNum q => Qnum q / Zpos (Qden q)
  | _ => 0
  end.

(** The integer [z] as a JavaScript number. *)
Definition of_integer (z : Z) : jsval := JNum (inject_Z z).

(** [Number.MAX_SAFE_INTEGER], [2^53 - 1]: between its opposite and itself
    the numbers of JavaScript are the integers and [n + 1] is exact. *)
Definition MAX_SAFE_INTEGER : Z := 9007199254740991.

(** A parsed JSON object, and [body.k]. *)
Definition object := list (string * jsval).

Fixpoint get_field (o : object) (k : string) : jsval :=
  match o with
  | [] => JUndefined
  | (k', v) :: o' => if String.eqb k' k then v else get_field o' k
  end.

(** [String.prototype.trim] strips the code units of WhiteSpace and
    LineTerminator from both ends: U+0009 to U+000D, U+0020, U+00A0,
    U+1680, U+2000 to U+200A, U+2028, U+2029, U+202F, U+205F, U+3000 and
    U+FEFF.  Each of them is one code unit. *)
Definition is_white_space (c : N) : bool :=
  (((9 <=? c) && (c <=? 13))
   || (c =? 32) || (c =? 160) || (c =? 5760)
   || ((8192 <=? c) && (c <=? 8202))
   || (c =? 8232) || (c =? 8233) || (c =? 8239) || (c =? 8287)
   || (c =? 12288) || (c =? 65279))%N.

Fixpoint trimStart (s : jsstring) : jsstring :=
  match s with
  | [] => []
  | c :: s' => if is_white_space c then trimStart s' else s
  end.

Definition trimEnd (s : jsstring) : jsstring := rev (trimStart (rev s)).

Definition trim (s : jsstring) : jsstring := trimEnd (trimStart s).

End JS.

(** A literal written where a JavaScript string is expected stands for
    its code units: ["A"] for [[65]]. *)
Coercion JS.lit : string >-> JS.jsstring.

(* ------------------------------------------------------------------ *)
(** ** The Task table *)

Module Db.

(** A row of
    [Task (id INTEGER PRIMARY KEY AUTOINCREMENT, title TEXT NOT NULL,
           position INTEGER NOT NULL, board_id INTEGER NOT NULL)]. *)
Record row : Type := mkRow {
  row_id : Z;
  row_title : JS.jsstring;
  row_position : Z;
  row_board_id : Z
}.

(** The table: its rows in rowid order of insertion, and the largest id
    ever handed out (what AUTOINCREMENT remembers in sqlite_sequence). *)
Record store : Type := mkStore {
  rows : list row;
  seq_id : Z
}.

Definition set_position (p : Z) (r : row) : row :=
  mkRow (row_id r) (row_title r) p (row_board_id r).

Definition set_board_position (b p : Z) (r : row) : row :=
  mkRow (row_id r) (row_title r) p b.

Definition has_id (i : Z) (r : row) : bool := row_id r =? i.
Definition in_board (b : Z) (r : row) : bool := row_board_id r =? b.

Definition with_rows (s : store) (rs : list row) : store :=
  mkStore rs (seq_id s).

(** [SELECT * FROM Task WHERE id = ?] through [db.get]: the first row
    found, or nothing. *)
Definition select_by_id (i : Z) (s : store) : option row :=
  find (has_id i) (rows s).

(** The id AUTOINCREMENT gives to the next inserted row: one more than the
    largest id in the table and the largest id ever used. *)
Definition max_id (rs : list row) : Z :=
  fold_right (fun r m => Z.max (row_id r) m) 0 rs.

Definition next_id (s : store) : Z := Z.max (max_id (rows s)) (seq_id s) + 1.

(** [INSERT INTO Task (title, position, board_id) VALUES (?, ?, ?)];
    gives [this.lastID] and the new table. *)
Definition insert_task (t : JS.jsstring) (p b : Z) (s : store) : Z * store :=
  let i := next_id s in
  (i, mkStore (rows s ++ [mkRow i t p b]) i).

(** [UPDATE Task SET title = ?, position = ?, board_id = ? WHERE id = ?] *)
Definition update_task (t : JS.jsstring) (p b i : Z) (s : store) : store :=
  with_rows s
    (map (fun r => if has_id i r then mkRow (row_id r) t p b else r) (rows s)).

(** [DELETE FROM Task WHERE id = ?] *)
Definition delete_by_id (i : Z) (s : store) : store :=
  with_rows s (filter (fun r => negb (has_id i r)) (rows s)).

(** [UPDATE Task SET position = ? WHERE id = ?], on one row and on the
    table. *)
Definition write_position (p i : Z) (r : row) : row :=
  if has_id i r then set_position p r else r.

Definition update_position (p i : Z) (s : store) : store :=
  with_rows s (map (write_position p i) (rows s)).

(** [UPDATE Task SET board_id = ?, position = ? WHERE id = ?] *)
Definition update_board_position (b p i : Z) (s : store) : store :=
  with_rows s
    (map (fun r => if has_id i r then set_board_position b p r else r) (rows s)).

(** [UPDATE Task SET position = position + 1
     WHERE board_id = ? AND position >= ? AND position < ?] *)
Definition increment_row (b lo hi : Z) (r : row) : row :=
  if in_board b r && (lo <=? row_position r) && (row_position r <? hi)
  then set_position (row_position r + 1) r else r.

Definition increment_range (b lo hi : Z) (s : store) : store :=
  with_rows s (map (increment_row b lo hi) (rows s)).

(** [UPDATE Task SET position = position - 1
     WHERE board_id = ? AND position > ? AND position <= ?] *)
Definition decrement_row (b lo hi : Z) (r : row) : row :=
  if in_board b r && (lo <? row_position r) && (row_position r <=? hi)
  then set_position (row_position r - 1) r else r.

Definition decrement_range (b lo hi : Z) (s : store) : store :=
  with_rows s (map (decrement_row b lo hi) (rows s)).

(** [SELECT COALESCE(MAX(position), 0) as maxPos FROM Task WHERE board_id = ?] *)
Definition max_position (rs : list row) : option Z :=
  fold_right (fun r m => match m with
                         | None => Some (row_position r)
                         | Some m' => Some (Z.max (row_position r) m')
                         end) None rs.

Definition coalesce (m : option Z) (d : Z) : Z :=
  match m with Some v => v | None => d end.

Definition select_coalesce_max_position (b : Z) (s : store) : Z :=
  coalesce (max_position (filter (in_board b) (rows s))) 0.

(** [ORDER BY position ASC]: rows of equal position stay in table order. *)
Fixpoint insert_by_position (r : row) (l : list row) : list row :=
  match l with
  | [] => [r]
  | r' :: l' => if row_position r <=? row_position r'
                then r :: l
                else r' :: insert_by_position r l'
  end.

Definition order_by_position (l : list row) : list row :=
  fold_right insert_by_position [] l.

(** [SELECT * FROM Task WHERE board_id = ? ORDER BY position ASC] and
    [SELECT id FROM Task WHERE board_id = ? ORDER BY position ASC] *)
Definition select_by_board (b : Z) (s : store) : list row :=
  order_by_position (filter (in_board b) (rows s)).

Definition select_ids_by_board (b : Z) (s : store) : list Z :=
  map row_id (select_by_board b s).

End Db.

(* ------------------------------------------------------------------ *)
(** ** The Task entity of [src/models/Task.js] *)

Inductive result (A : Type) : Type :=
| Ok (a : A)
| Err (message : string).
Arguments Ok {A} a.
Arguments Err {A} message.

Module Task.

(** The fields the class keeps ([createdAt] and [updatedAt] never reach
    the table); [_id] is [null] until the row is inserted. *)
Record t : Type := mkTask {
  _id : option Z;
  _title : JS.jsstring;
  _position : Z;
  _board_id : Z
}.

(** [new Task(id, title, position, board_id)]: the constructor stores its
    arguments as they are. *)
Definition new (id : option Z) (title : JS.jsstring) (position board_id : Z) : t :=
  mkTask id title position board_id.

Definition getTitle (task : t) : JS.jsstring := _title task.
Definition getPosition (task : t) : Z := _position task.
Definition getBoardId (task : t) : Z := _board_id task.

Definition setId (id : Z) (task : t) : t :=
  mkTask (Some id) (_title task) (_position task) (_board_id task).

(** [setTitle]: the only place that stores a trimmed title; it throws on
    a blank one. *)
Definition setTitle (title : JS.jsstring) (task : t) : result t :=
  if JS.is_empty (JS.trim title)
  then Err "Title must be a non-empty string"
  else Ok (mkTask (_id task) (JS.trim title) (_position task) (_board_id task)).

(** [validate()]:
    [_title && _title.trim() !== "" && typeof _position === "number" &&
     _position >= 0 && _board_id > 0]. *)
Definition validate (task : t) : bool :=
  negb (JS.is_empty (_title task))
  && negb (JS.is_empty (JS.trim (_title task)))
  && (0 <=? _position task)
  && (0 <? _board_id task).

End Task.

(* ------------------------------------------------------------------ *)
(** ** The repository of [src/models/Task.js] *)

Module TaskRepository.
Import Db.

(** The payload of [create] and [update],
    [{ title: string, position: number, board_id: number }];
    [None] is a field that is not there. *)
Record task_data : Type := mkData {
  title : option JS.jsstring;
  position : option Z;
  board_id : option Z
}.

Definition required_message : string :=
  "title, position, and board_id are required".

(** [create(data, callback)] *)
Definition create (data : option task_data) (s : store)
  : result Task.t * store :=
  match data with
  | None => (Err required_message, s)
  | Some d =>
    match title d, position d, board_id d with
    | Some ti, Some p, Some b =>
      if JS.is_empty ti || (b =? 0) then (Err required_message, s)
      else
        let task := Task.new None ti p b in
        if negb (Task.validate task) then (Err "Invalid task data", s)
        else
          let '(lastID, s') :=
            insert_task (Task.getTitle task) (Task.getPosition task)
                        (Task.getBoardId task) s in
          (Ok (Task.setId lastID task), s')
    | _, _, _ => (Err required_message, s)
    end
  end.

(** [getById(id, callback)] *)
Definition getById (id : Z) (s : store) : result (option Task.t) :=
  match select_by_id id s with
  | None => Ok None
  | Some row =>
    Ok (Some (Task.new (Some (row_id row)) (row_title row)
                       (row_position row) (row_board_id row)))
  end.

(** [getByBoardId(board_id, callback)] *)
Definition getByBoardId (b : Z) (s : store) : result (list Task.t) :=
  Ok (map (fun row => Task.new (Some (row_id row)) (row_title row)
                               (row_position row) (row_board_id row))
          (select_by_board b s)).

(** [update(id, data, callback)] *)
Definition update (id : Z) (data : option task_data) (s : store)
  : result Task.t * store :=
  match data with
  | None => (Err required_message, s)
  | Some d =>
    match title d, position d, board_id d with
    | Some ti, Some p, Some b =>
      if JS.is_empty ti || (b =? 0) then (Err required_message, s)
      else
        let task := Task.new (Some id) ti p b in
        if negb (Task.validate task) then (Err "Invalid task data", s)
        else
          (Ok task,
           update_task (Task.getTitle task) (Task.getPosition task)
                       (Task.getBoardId task) id s)
    | _, _, _ => (Err required_message, s)
    end
  end.

(** [delete(id, callback)]: one [DELETE] statement and nothing else. *)
Definition delete (id : Z) (s : store) : result unit * store :=
  (Ok tt, delete_by_id id s).

(** [reorder(taskId1, taskId2, callback)] *)
Definition reorder (taskId1 taskId2 : Z) (s : store) : result unit * store :=
  if (taskId1 =? 0) || (taskId2 =? 0)
  then (Err "Both task IDs are required", s)
  else
    match select_by_id taskId1 s with
    | None => (Err "Task 1 not found", s)
    | Some task1 =>
      match select_by_id taskId2 s with
      | None => (Err "Task 2 not found", s)
      | Some task2 =>
        let tempPosition := row_position task1 in
        let s1 := update_position (row_position task2) taskId1 s in
        let s2 := update_position tempPosition taskId2 s1 in
        (Ok tt, s2)
      end
    end.

(** [reorderByPosition(taskId, newPosition, callback)];
    [None] is [newPosition === undefined]. *)
Definition reorderByPosition (taskId : Z) (newPosition : option Z) (s : store)
  : result unit * store :=
  match newPosition with
  | None => (Err "Task ID and new position are required", s)
  | Some newPosition =>
    if taskId =? 0 then (Err "Task ID and new position are required", s)
    else
      match select_by_id taskId s with
      | None => (Err "Task not found", s)
      | Some task =>
        let boardId := row_board_id task in
        let oldPosition := row_position task in
        if oldPosition =? newPosition then (Ok tt, s)
        else if newPosition <? oldPosition then
          let s1 := increment_range boardId newPosition oldPosition s in
          (Ok tt, update_position newPosition taskId s1)
        else
          let s1 := decrement_range boardId oldPosition newPosition s in
          (Ok tt, update_position newPosition taskId s1)
      end
  end.

(** [rows.forEach((row, index) => UPDATE Task SET position = index + 1
                                   WHERE id = row.id)] *)
Fixpoint forEach_renumber (ids : list Z) (index : Z) (s : store) : store :=
  match ids with
  | [] => s
  | id :: ids' =>
    forEach_renumber ids' (index + 1) (update_position (index + 1) id s)
  end.

(** The tail both branches of [moveToBoard] share: move the row, then
    renumber what is left in the old board. *)
Definition move_and_renumber (taskId : Z) (task : row)
  (newBoardId position : Z) (s : store) : result Task.t * store :=
  let s1 := update_board_position newBoardId position taskId s in
  let rows := select_ids_by_board (row_board_id task) s1 in
  let updatedTask :=
    Task.new (Some (row_id task)) (row_title task) position newBoardId in
  match rows with
  | [] => (Ok updatedTask, s1)
  | _ => (Ok updatedTask, forEach_renumber rows 0 s1)
  end.

(** [moveToBoard(taskId, newBoardId, newPosition, callback)];
    [None] is [newPosition === undefined] and [Some p] an integer ([null]
    is not a value of this type).  [maxPos + 1] is the sum of integers, as
    it is in the source while [maxPos] is below [2^53].  The value
    [positionToUse] the source computes first is never read and its query
    writes nothing. *)
Definition moveToBoard (taskId newBoardId : Z) (newPosition : option Z)
  (s : store) : result Task.t * store :=
  if (taskId =? 0) || (newBoardId =? 0)
  then (Err "Task ID and new board ID are required", s)
  else
    match select_by_id taskId s with
    | None => (Err "Task not found", s)
    | Some task =>
      let oldBoardId := row_board_id task in
      if oldBoardId =? newBoardId
      then (Err "Task is already in this board", s)
      else
        match newPosition with
        | None =>
          let maxPos := select_coalesce_max_position newBoardId s in
          let finalPosition := maxPos + 1 in
          move_and_renumber taskId task newBoardId finalPosition s
        | Some newPosition =>
          move_and_renumber taskId task newBoardId newPosition s
        end
    end.

End TaskRepository.

(* ------------------------------------------------------------------ *)
(** ** The handler of [PUT /:id/reorder-position] *)

Module TaskController.
Import JS.

(** What [res.status(code).json(...)] sends. *)
Inductive payload : Type :=
| ErrorBody (error : string)
| MessageBody (message : string).

Record response : Type := mkResponse {
  status : Z;
  json : payload
}.

Definition sendError (statusCode : Z) (message : string) : response :=
  mkResponse statusCode (ErrorBody message).

Definition sendSuccess (statusCode : Z) (message : string) : response :=
  mkResponse statusCode (MessageBody message).

(** The handler either answers at once or hands over to the repository. *)
Inductive action : Type :=
| Respond (r : response)
| InvokeReorderByPosition (id newPosition : Z).

(** The three guards of [reorderByPosition(req, res)], with
    [id = req.params.id] and [newPosition = req.body.newPosition]. *)
Definition reorderByPosition_guards (id newPosition : jsval) : action :=
  if negb (truthy id) || is_undefined newPosition
  then Respond (sendError 400 "Task ID dan newPosition harus disediakan")
  else if negb (Number_isInteger id) || negb (Number_isInteger newPosition)
  then Respond (sendError 400 "Task ID dan newPosition harus berupa angka")
  else if integer_value newPosition <? 0
  then Respond (sendError 400 "newPosition harus non-negatif")
  else InvokeReorderByPosition (integer_value id) (integer_value newPosition).

(** [reorderByPosition(req, res)] *)
Definition reorderByPosition (id newPosition : jsval) (s : Db.store)
  : response * Db.store :=
  match reorderByPosition_guards id newPosition with
  | Respond r => (r, s)
  | InvokeReorderByPosition i n =>
    match TaskRepository.reorderByPosition i (Some n) s with
    | (Err message, s') => (sendError 400 message, s')
    | (Ok _, s') => (sendSuccess 200 "Task position updated successfully", s')
    end
  end.

(** [router.put("/:id/reorder-position", taskController.reorderByPosition)]:
    Express hands the path segment over as a string, and [express.json()]
    the parsed body. *)
Record request : Type := mkRequest {
  params_id : jsstring;
  body : object
}.

Definition put_reorder_position_action (req : request) : action :=
  reorderByPosition_guards (JStr (params_id req))
                           (get_field (body req) "newPosition").

Definition put_reorder_position (req : request) (s : Db.store)
  : response * Db.store :=
  reorderByPosition (JStr (params_id req))
                    (get_field (body req) "newPosition") s.

End TaskController.

(* ------------------------------------------------------------------ *)
(** ** Positions of a board, density, well-formed tables *)

Import Db.

(** The positions held by the rows of board [b], in table order. *)
Definition positions_of (b : Z) (rs : list row) : list Z :=
  map row_position (filter (in_board b) rs).

(** The number of rows of board [b]. *)
Definition count_of (b : Z) (rs : list row) : Z :=
  Z.of_nat (List.length (filter (in_board b) rs)).

(** Board [b] is dense: the set of its positions is [{0, ..., n-1}] for
    [n] its number of rows. *)
Definition dense_board (rs : list row) (b : Z) : Prop :=
  forall p, In p (positions_of b rs) <-> 0 <= p < count_of b rs.

Definition dense (s : store) : Prop := forall b, dense_board (rows s) b.

(** The same, as a test that computes. *)
Definition dense_boardb (rs : list row) (b : Z) : bool :=
  let ps := positions_of b rs in
  forallb (fun p => (0 <=? p) && (p <? count_of b rs)) ps
  && forallb (fun i => existsb (Z.eqb (Z.of_nat i)) ps)
             (seq 0 (List.length ps)).

(** Every board that has a row passes the test. *)
Definition denseb (s : store) : bool :=
  forallb (dense_boardb (rows s)) (map row_board_id (rows s)).

(** What the schema and AUTOINCREMENT guarantee of the ids: a primary key
    is unique, and a handed-out id is positive. *)
Definition wf_store (s : store) : Prop :=
  NoDup (map row_id (rows s)) /\ Forall (fun r => 0 < row_id r) (rows s).

(** The title, position and board stored under an id. *)
Definition position_at (i : Z) (s : store) : option Z :=
  option_map row_position (select_by_id i s).

Definition title_at (i : Z) (s : store) : option JS.jsstring :=
  option_map row_title (select_by_id i s).

Definition board_at (i : Z) (s : store) : option Z :=
  option_map row_board_id (select_by_id i s).

(** The items left in board [b] once item [t] is gone, in ascending order
    of the positions they hold. *)
Definition remaining (b t : Z) (s : store) : list Z :=
  map row_id
    (order_by_position
       (filter (fun r => in_board b r && negb (has_id t r)) (rows s))).

(** What the renumbering of [moveToBoard] makes of one row. *)
Fixpoint renumber_row (ids : list Z) (index : Z) (r : row) : row :=
  match ids with
  | [] => r
  | id :: ids' =>
    renumber_row ids' (index + 1) (write_position (index + 1) id r)
  end.

(** What [moveToBoard] makes of one row: the move, then the renumbering
    of the board left behind. *)
Definition relocate_row (old q p t : Z) (s : store) (r : row) : row :=
  renumber_row (remaining old t s) 0
    (if has_id t r then set_board_position q p r else r).

(** One call of the repository, whatever its arguments. *)
Inductive repository_call (s : store) : store -> Prop :=
| call_create (data : option TaskRepository.task_data) :
    repository_call s (snd (TaskRepository.create data s))
| call_update (id : Z) (data : option TaskRepository.task_data) :
    repository_call s (snd (TaskRepository.update id data s))
| call_delete (id : Z) :
    repository_call s (snd (TaskRepository.delete id s))
| call_reorder (a b : Z) :
    repository_call s (snd (TaskRepository.reorder a b s))
| call_reorderByPosition (id : Z) (newPosition : option Z) :
    repository_call s (snd (TaskRepository.reorderByPosition id newPosition s))
| call_moveToBoard (t q : Z) (newPosition : option Z) :
    repository_call s (snd (TaskRepository.moveToBoard t q newPosition s)).

Inductive repository_calls : store -> store -> Prop :=
| calls_nil (s : store) : repository_calls s s
| calls_cons (s s1 s2 : store) :
    repository_call s s1 -> repository_calls s1 s2 -> repository_calls s s2.

(** The operations of the ledger under which density is kept. *)
Inductive ledger_step (s : store) : store -> Prop :=
| step_create (ti : JS.jsstring) (b : Z) :
    (* append: the position given is the number of items of the board *)
    ledger_step s
      (snd (TaskRepository.create
              (Some (TaskRepository.mkData (Some ti)
                       (Some (count_of b (rows s))) (Some b))) s))
| step_delete (id : Z) (r : row) :
    (* the item deleted is the last one of its board *)
    select_by_id id s = Some r ->
    row_position r = count_of (row_board_id r) (rows s) - 1 ->
    ledger_step s (snd (TaskRepository.delete id s))
| step_swap (a b : Z) (ra rb : row) :
    (* the two items are in one board *)
    select_by_id a s = Some ra -> select_by_id b s = Some rb ->
    row_board_id ra = row_board_id rb ->
    ledger_step s (snd (TaskRepository.reorder a b s))
| step_move (id p : Z) (r : row) :
    (* the new position is below the number of items of the board *)
    select_by_id id s = Some r ->
    0 <= p < count_of (row_board_id r) (rows s) ->
    ledger_step s (snd (TaskRepository.reorderByPosition id (Some p) s))
| step_relocate (t q : Z) (np : option Z) (task : row) :
    (* the item is alone in its board and goes to the tail of the target *)
    select_by_id t s = Some task -> q <> 0 -> row_board_id task <> q ->
    remaining (row_board_id task) t s = [] ->
    match np with
    | Some p => p = count_of q (rows s)
    | None => 0 < count_of q (rows s)
    end ->
    ledger_step s (snd (TaskRepository.moveToBoard t q np s)).

(** Any sequence of such operations. *)
Inductive ledger_steps : store -> store -> Prop :=
| steps_nil (s : store) : ledger_steps s s
| steps_cons (s s1 s2 : store) :
    ledger_step s s1 -> ledger_steps s1 s2 -> ledger_steps s s2.

(** A list of positions is dense. *)
Definition dense_list (P : list Z) : Prop :=
  forall p, In p P <-> 0 <= p < Z.of_nat (List.length P).

(** The board of the scenarios: A, B and C at positions 0, 1 and 2 of
    board 1; board 2 is empty. *)
Definition abc : store :=
  mkStore [mkRow 1 "A" 0 1; mkRow 2 "B" 1 1; mkRow 3 "C" 2 1] 3.

(* ------------------------------------------------------------------ *)
(** ** The other setters of the Task entity *)

Module TaskSetters.

(** [setPosition(position)] for an integer argument: it throws on a
    negative one. *)
Definition setPosition (position : Z) (task : Task.t) : result Task.t :=
  if position <? 0
  then Err "Position must be a non-negative integer"
  else Ok (Task.mkTask (Task._id task) (Task._title task) position
             (Task._board_id task)).

(** [setBoardId(board_id)] for an integer argument: it throws unless the
    id is positive. *)
Definition setBoardId (board_id : Z) (task : Task.t) : result Task.t :=
  if board_id <=? 0
  then Err "Board ID must be a positive number"
  else Ok (Task.mkTask (Task._id task) (Task._title task)
             (Task._position task) board_id).

End TaskSetters.

(* ------------------------------------------------------------------ *)
(** ** The other handlers of [src/controllers/taskController.js] *)

Module TaskHandlers.
Import JS.

(** [typeof v] *)
Definition typeof (v : jsval) : string :=
  match v with
  | JUndefined => "undefined"
  | JNull => "object"
  | JBool _ => "boolean"
  | JNum _ => "number"
  | JStr _ => "string"
  | JObject => "object"
  end.

(** [v === null] *)
Definition is_null (v : jsval) : bool :=
  match v with JNull => true | _ => false end.

(** What [validateRequest] returns, [{ valid, errors }]. *)
Record validation : Type := mkValidation {
  valid : bool;
  errors : list string
}.

(** [BaseController.validateRequest(data)]; [None] is a body that is not
    there. *)
Definition base_validateRequest (data : option object) : validation :=
  match data with
  | None => mkValidation false ["Request body is required"]
  | Some _ => mkValidation true []
  end.

(** The three tests of [TaskController.validateRequest]; each reads its
    field in the order of the source, so that [trim] and the comparisons
    meet a string or a number only. *)
Definition title_rejected (title : jsval) : bool :=
  negb (truthy title)
  || negb (String.eqb (typeof title) "string")
  || match title with
     | JStr s => is_empty (trim s)
     | _ => false
     end.

Definition position_rejected (position : jsval) : bool :=
  is_undefined position
  || negb (Number_isInteger position)
  || (integer_value position <? 0).

Definition board_id_rejected (board_id : jsval) : bool :=
  negb (truthy board_id)
  || negb (String.eqb (typeof board_id) "number")
  || match board_id with
     | JNum q => Qnum q <=? 0
     | _ => false
     end.

(** [TaskController.validateRequest(data)] *)
Definition validateRequest (data : option object) : validation :=
  let baseValidation := base_validateRequest data in
  if negb (valid baseValidation) then baseValidation
  else
    match data with
    | None => baseValidation
    | Some o =>
      let errors :=
        ((if title_rejected (get_field o "title")
          then ["Title harus berupa string yang tidak kosong"] else [])
         ++ (if position_rejected (get_field o "position")
             then ["Position harus berupa angka non-negatif"] else [])
         ++ (if board_id_rejected (get_field o "board_id")
             then ["Board ID harus berupa angka positif"] else []))%list in
      mkValidation (Nat.eqb (List.length errors) 0) errors
    end.

(** [create(req, res)] and [update(req, res)] up to the call of the
    handler of the base class: answer 400 with the joined messages, or
    hand the body over. *)
Inductive create_action : Type :=
| RespondInvalid (r : TaskController.response)
| InvokeSuper (body : option object).

Definition create (body : option object) : create_action :=
  let validation := validateRequest body in
  if negb (valid validation)
  then RespondInvalid
         (TaskController.sendError 400 (String.concat ", " (errors validation)))
  else InvokeSuper body.

(** [reorder(req, res)], with [taskId1] and [taskId2] read from the body. *)
Definition reorder (taskId1 taskId2 : jsval) (s : Db.store)
  : TaskController.response * Db.store :=
  if negb (truthy taskId1) || negb (truthy taskId2)
  then (TaskController.sendError 400 "taskId1 dan taskId2 harus disediakan", s)
  else if negb (Number_isInteger taskId1) || negb (Number_isInteger taskId2)
  then (TaskController.sendError 400 "taskId1 dan taskId2 harus berupa angka", s)
  else
    match TaskRepository.reorder (integer_value taskId1)
                                 (integer_value taskId2) s with
    | (Err message, s') => (TaskController.sendError 400 message, s')
    | (Ok _, s') =>
      (TaskController.sendSuccess 200 "Tasks reordered successfully", s')
    end.

(** [router.post("/reorder", taskController.reorder)] *)
Definition post_reorder (body : object) (s : Db.store)
  : TaskController.response * Db.store :=
  reorder (get_field body "taskId1") (get_field body "taskId2") s.

(** [move(req, res)] up to the call of the repository: answer 400, or hand
    over the two ids and [newPosition] as it came. *)
Inductive move_action : Type :=
| RespondMove (r : TaskController.response)
| InvokeMoveToBoard (taskId newBoardId : Z) (newPosition : jsval).

Definition move (taskId newBoardId newPosition : jsval) : move_action :=
  if negb (truthy taskId) || negb (truthy newBoardId)
  then RespondMove
         (TaskController.sendError 400 "taskId dan newBoardId harus disediakan")
  else if negb (Number_isInteger taskId) || (integer_value taskId <=? 0)
  then RespondMove
         (TaskController.sendError 400 "taskId harus berupa angka positif")
  else if negb (Number_isInteger newBoardId) || (integer_value newBoardId <=? 0)
  then RespondMove
         (TaskController.sendError 400 "newBoardId harus berupa angka positif")
  else
    let invoke := InvokeMoveToBoard (integer_value taskId)
                                    (integer_value newBoardId) newPosition in
    if negb (is_undefined newPosition) && negb (is_null newPosition)
    then
      if negb (Number_isInteger newPosition) || (integer_value newPosition <? 0)
      then RespondMove
             (TaskController.sendError 400
                "newPosition harus berupa angka non-negatif")
      else invoke
    else invoke.

End TaskHandlers.

(** Case analysis on the comparisons of a goal, closed by arithmetic. *)
Ltac case_cmp :=
  repeat (match goal with
          | |- context [?a =? ?b] => destruct (Z.eqb_spec a b)
          | |- context [?a <=? ?b] => destruct (Z.leb_spec a b)
          | |- context [?a <? ?b] => destruct (Z.ltb_spec a b)
          end; cbn [andb] in *);
  try lia.

(* ------------------------------------------------------------------ *)
(** ** Lemmas on the statements of the table *)

Section TableLemmas.

Lemma has_id_true (i : Z) (r : row) : has_id i r = true <-> row_id r = i.
Proof. unfold has_id. apply Z.eqb_eq. Qed.

Lemma has_id_false (i : Z) (r : row) : has_id i r = false <-> row_id r <> i.
Proof. unfold has_id. apply Z.eqb_neq. Qed.

Lemma in_board_true (b : Z) (r : row) : in_board b r = true <-> row_board_id r = b.
Proof. unfold in_board. apply Z.eqb_eq. Qed.

(** A row-wise update that keeps the ids commutes with the lookup by id. *)
Lemma find_map_keep_id (f : row -> row) (i : Z) (l : list row) :
  (forall r, row_id (f r) = row_id r) ->
  find (has_id i) (map f l) = option_map f (find (has_id i) l).
Proof.
  intros Hid. induction l as [|r l IH]; simpl; [reflexivity|].
  unfold has_id at 1 3. rewrite Hid.
  destruct (row_id r =? i); [reflexivity | exact IH].
Qed.

(** Deleting by id leaves no row under that id and every other lookup as
    it was. *)
Lemma find_delete_same (i : Z) (l : list row) :
  find (has_id i) (filter (fun r => negb (has_id i r)) l) = None.
Proof.
  induction l as [|r l IH]; simpl; [reflexivity|].
  destruct (has_id i r) eqn:E; simpl; [exact IH|].
  rewrite E. exact IH.
Qed.

Lemma find_delete_other (i j : Z) (l : list row) :
  j <> i ->
  find (has_id j) (filter (fun r => negb (has_id i r)) l) = find (has_id j) l.
Proof.
  intros Hne. induction l as [|r l IH]; simpl; [reflexivity|].
  destruct (has_id i r) eqn:E; simpl.
  - apply has_id_true in E.
    destruct (has_id j r) eqn:E'; [|exact IH].
    apply has_id_true in E'. congruence.
  - destruct (has_id j r); [reflexivity | exact IH].
Qed.

(** A lookup that succeeds gives a row of the table with the id asked for. *)
Lemma select_by_id_some (i : Z) (s : store) (r : row) :
  select_by_id i s = Some r -> In r (rows s) /\ row_id r = i.
Proof.
  unfold select_by_id. intros H. apply find_some in H.
  destruct H as [Hin Hid]. apply has_id_true in Hid. auto.
Qed.

(** Under a unique key two rows with one id are one row. *)
Lemma unique_id (l : list row) (r r' : row) :
  NoDup (map row_id l) -> In r l -> In r' l -> row_id r = row_id r' -> r = r'.
Proof.
  induction l as [|x l IH]; simpl; intros Hnd Hr Hr' Heq; [contradiction|].
  inversion Hnd as [|? ? Hnotin Hnd']; subst.
  destruct Hr as [->|Hr], Hr' as [->|Hr'].
  - reflexivity.
  - exfalso. apply Hnotin. rewrite Heq. now apply in_map.
  - exfalso. apply Hnotin. rewrite <- Heq. now apply in_map.
  - now apply IH.
Qed.

Lemma select_by_id_in (s : store) (r : row) :
  NoDup (map row_id (rows s)) -> In r (rows s) ->
  select_by_id (row_id r) s = Some r.
Proof.
  intros Hnd Hin. unfold select_by_id.
  destruct (find (has_id (row_id r)) (rows s)) as [r'|] eqn:E.
  - apply find_some in E. destruct E as [Hin' Hid]. apply has_id_true in Hid.
    f_equal. now apply (unique_id (rows s)).
  - exfalso. apply (find_none _ _ E) in Hin.
    unfold has_id in Hin. now rewrite Z.eqb_refl in Hin.
Qed.

(** A row-wise update that is the identity on the rows of the table. *)
Lemma map_id_on (f : row -> row) (l : list row) :
  (forall r, In r l -> f r = r) -> map f l = l.
Proof.
  intros H. rewrite <- (map_id l) at 2. apply map_ext_in. exact H.
Qed.

End TableLemmas.

(* ------------------------------------------------------------------ *)
(** ** Density: the test that computes is sound *)

Section DenseTest.

Lemma positions_of_length (b : Z) (rs : list row) :
  Z.of_nat (List.length (positions_of b rs)) = count_of b rs.
Proof. unfold positions_of, count_of. now rewrite length_map. Qed.

Lemma dense_boardb_sound (rs : list row) (b : Z) :
  dense_boardb rs b = true -> dense_board rs b.
Proof.
  unfold dense_boardb, dense_board. intros H p.
  apply andb_true_iff in H. destruct H as [Hrange Hall].
  rewrite forallb_forall in Hrange, Hall. split.
  - intros Hin. apply Hrange in Hin. lia.
  - intros Hp. rewrite <- positions_of_length in Hp.
    specialize (Hall (Z.to_nat p)).
    rewrite in_seq in Hall.
    assert (Hex : existsb (Z.eqb (Z.of_nat (Z.to_nat p))) (positions_of b rs) = true)
      by (apply Hall; lia).
    apply existsb_exists in Hex. destruct Hex as [x [Hx Heq]].
    apply Z.eqb_eq in Heq. rewrite Z2Nat.id in Heq by lia. now subst.
Qed.

Lemma positions_of_absent (b : Z) (rs : list row) :
  ~ In b (map row_board_id rs) -> positions_of b rs = [].
Proof.
  unfold positions_of. induction rs as [|r rs IH]; simpl; intros H; [reflexivity|].
  destruct (in_board b r) eqn:E.
  - apply in_board_true in E. exfalso. apply H. now left.
  - apply IH. intros Hin. apply H. now right.
Qed.

Lemma denseb_sound (s : store) : denseb s = true -> dense s.
Proof.
  unfold denseb, dense. intros H b.
  destruct (in_dec Z.eq_dec b (map row_board_id (rows s))) as [Hin|Hout].
  - apply dense_boardb_sound. rewrite forallb_forall in H. now apply H.
  - unfold dense_board. rewrite <- positions_of_length.
    rewrite (positions_of_absent _ _ Hout). simpl. intros p. split; [tauto | lia].
Qed.

Lemma abc_dense : dense abc.
Proof. apply denseb_sound. reflexivity. Qed.

Lemma abc_wf : wf_store abc.
Proof.
  split.
  - simpl. repeat constructor; simpl; intuition lia.
  - simpl. repeat constructor; simpl; lia.
Qed.

End DenseTest.

(* ------------------------------------------------------------------ *)
(** ** Deleting an item *)

Section Delete.

(** C2, as the specification words it, fails on the scenario it names:
    board 1 is dense with A, B, C at 0, 1, 2; after [delete] of B (position
    1) item C, whose position 2 was greater, still holds position 2 and
    the board holds the positions 0 and 2. *)
Lemma delete_renumbering_counterexample :
  dense abc /\
  position_at 2 abc = Some 1 /\ board_at 2 abc = Some 1 /\
  position_at 3 abc = Some 2 /\ board_at 3 abc = Some 1 /\
  position_at 3 (snd (TaskRepository.delete 2 abc)) <> Some (2 - 1) /\
  positions_of 1 (rows (snd (TaskRepository.delete 2 abc))) <> [0; 1].
Proof.
  split; [exact abc_dense|].
  repeat split; try reflexivity; vm_compute; discriminate.
Qed.

(** C2 (amended): [delete] succeeds, removes the row of the given id and
    leaves every other row as it was, those of the same board with a
    greater position included: no position is decremented.  Deleting B
    from A, B, C at 0, 1, 2 leaves A and C, in that order, at 0 and 2. *)
Theorem delete_removes_row_only (id : Z) (s : store) :
  fst (TaskRepository.delete id s) = Ok tt /\
  select_by_id id (snd (TaskRepository.delete id s)) = None /\
  (forall j, j <> id ->
     select_by_id j (snd (TaskRepository.delete id s)) = select_by_id j s) /\
  rows (snd (TaskRepository.delete 2 abc))
  = [mkRow 1 "A" 0 1; mkRow 3 "C" 2 1].
Proof.
  repeat split.
  - apply find_delete_same.
  - intros j Hj. now apply find_delete_other.
Qed.

Lemma delete_removes_row_only_witness :
  1 <> 2 /\
  select_by_id 1 (snd (TaskRepository.delete 2 abc)) = select_by_id 1 abc.
Proof.
  split; [lia|].
  apply (proj1 (proj2 (proj2 (delete_removes_row_only 2 abc)))). lia.
Defined.

End Delete.

(* ------------------------------------------------------------------ *)
(** ** Creating and updating an item *)

Section Create.

Lemma is_empty_true (s : JS.jsstring) : JS.is_empty s = true <-> s = [].
Proof. destruct s; simpl; split; congruence. Qed.

Lemma is_empty_false (s : JS.jsstring) : JS.is_empty s = false <-> s <> [].
Proof. destruct s; simpl; split; congruence. Qed.

Lemma is_empty_spec (s : JS.jsstring) : reflect (s = []) (JS.is_empty s).
Proof. destruct s; simpl; constructor; congruence. Qed.

Lemma trim_empty : JS.trim [] = [].
Proof. reflexivity. Qed.

(** A no-break space, a line separator and a byte order mark are stripped
    like a space; a next line (U+0085) and a zero width space (U+200B) are
    not. *)
Lemma trim_white_space :
  JS.trim [160%N; 32%N; 68%N; 8232%N; 65279%N] = JS.lit "D" /\
  JS.trim [160%N] = [] /\
  JS.trim [133%N; 68%N; 8203%N] = [133%N; 68%N; 8203%N].
Proof. repeat split. Qed.

(** The code units [trim] strips, and some it leaves: backspace, U+000E,
    next line, the Mongolian vowel separator, zero width space, word
    joiner, U+FFFE. *)
Lemma white_space_code_units :
  forallb JS.is_white_space
    [9; 10; 11; 12; 13; 32; 160; 5760; 8192; 8193; 8194; 8195; 8196; 8197;
     8198; 8199; 8200; 8201; 8202; 8232; 8233; 8239; 8287; 12288; 65279]%N
  = true /\
  existsb JS.is_white_space
    [8; 14; 31; 33; 133; 159; 161; 5759; 5761; 6158; 8191; 8203; 8231; 8234;
     8238; 8240; 8286; 8288; 12287; 12289; 65278; 65280]%N
  = false.
Proof. split; reflexivity. Qed.

Lemma not_blank_not_empty (ti : JS.jsstring) : JS.trim ti <> [] -> ti <> [].
Proof. intros H ->. now apply H. Qed.

Lemma validate_true (id : option Z) (ti : JS.jsstring) (p b : Z) :
  JS.trim ti <> [] -> 0 <= p -> 0 < b ->
  Task.validate (Task.new id ti p b) = true.
Proof.
  intros Hti Hp Hb. unfold Task.validate, Task.new. simpl.
  apply not_blank_not_empty in Hti as Hne.
  apply is_empty_false in Hti, Hne. rewrite Hti, Hne. simpl.
  apply andb_true_iff. split; [apply Z.leb_le | apply Z.ltb_lt]; lia.
Qed.

(** What [create] does with a payload that passes its checks. *)
Lemma create_valid (ti : JS.jsstring) (p b : Z) (s : store) :
  JS.trim ti <> [] -> 0 <= p -> 0 < b ->
  TaskRepository.create
    (Some (TaskRepository.mkData (Some ti) (Some p) (Some b))) s
  = (Ok (Task.mkTask (Some (next_id s)) ti p b),
     mkStore (rows s ++ [mkRow (next_id s) ti p b]) (next_id s)).
Proof.
  intros Hti Hp Hb. unfold TaskRepository.create. simpl.
  apply not_blank_not_empty in Hti as Hne. apply is_empty_false in Hne.
  rewrite Hne. simpl.
  assert (Hb0 : (b =? 0) = false) by (apply Z.eqb_neq; lia). rewrite Hb0.
  rewrite (validate_true None ti p b Hti Hp Hb). reflexivity.
Qed.

Lemma max_id_bound (l : list row) (r : row) : In r l -> row_id r <= max_id l.
Proof.
  induction l as [|x l IH]; simpl; [contradiction|].
  unfold max_id. simpl. fold (max_id l).
  intros [->|Hin]; [lia|]. apply IH in Hin. lia.
Qed.

(** The id an insertion hands out is not in the table. *)
Lemma next_id_fresh (s : store) : find (has_id (next_id s)) (rows s) = None.
Proof.
  destruct (find (has_id (next_id s)) (rows s)) as [r|] eqn:E; [|reflexivity].
  apply find_some in E. destruct E as [Hin Hid]. apply has_id_true in Hid.
  apply max_id_bound in Hin. unfold next_id in Hid. lia.
Qed.

Lemma find_app_some (f : row -> bool) (l l' : list row) (r : row) :
  find f l = Some r -> find f (l ++ l') = Some r.
Proof.
  induction l as [|x l IH]; simpl; [discriminate|].
  destruct (f x); [trivial | exact IH].
Qed.

Lemma find_app_none (f : row -> bool) (l l' : list row) :
  find f l = None -> find f (l ++ l') = find f l'.
Proof.
  induction l as [|x l IH]; simpl; [reflexivity|].
  destruct (f x); [discriminate | exact IH].
Qed.

(** C3, as the specification words it, fails on the scenario it names:
    creating D at position 1 in the dense board A, B, C leaves B at 1 and
    C at 2, so that the board holds the positions 0, 1, 2, 1. *)
Lemma create_shift_counterexample :
  dense abc /\ count_of 1 (rows abc) = 3 /\
  position_at 2 abc = Some 1 /\ position_at 3 abc = Some 2 /\
  let s' := snd (TaskRepository.create
                   (Some (TaskRepository.mkData (Some (JS.lit "D")) (Some 1) (Some 1)))
                   abc) in
  position_at 2 s' <> Some (1 + 1) /\ position_at 3 s' <> Some (2 + 1) /\
  positions_of 1 (rows s') = [0; 1; 2; 1].
Proof.
  split; [exact abc_dense|].
  repeat split; try reflexivity; vm_compute; discriminate.
Qed.

(** C3 (amended): [create] with a title that is not blank, a position
    [p >= 0] (not compared with the number of items of the board) and a
    board [b > 0] appends one row holding [p] to the table and shifts
    nothing: every item there was keeps its row.  (The row holds the title
    given when that has no unpaired surrogate.)  Creating D at position 1
    in A, B, C at 0, 1, 2 gives A at 0, B at 1, C at 2 and D at 1. *)
Theorem create_inserts_without_shift (ti : JS.jsstring) (p b : Z) (s : store) :
  JS.trim ti <> [] -> 0 <= p -> 0 < b ->
  let out := TaskRepository.create
               (Some (TaskRepository.mkData (Some ti) (Some p) (Some b))) s in
  fst out = Ok (Task.mkTask (Some (next_id s)) ti p b) /\
  (exists t, rows (snd out) = (rows s ++ [mkRow (next_id s) t p b])%list /\
             (JS.well_formed ti = true -> t = ti)) /\
  position_at (next_id s) (snd out) = Some p /\
  (forall j r, select_by_id j s = Some r -> select_by_id j (snd out) = Some r) /\
  rows (snd (TaskRepository.create
               (Some (TaskRepository.mkData (Some (JS.lit "D")) (Some 1) (Some 1))) abc))
  = [mkRow 1 "A" 0 1; mkRow 2 "B" 1 1; mkRow 3 "C" 2 1; mkRow 4 "D" 1 1].
Proof.
  intros Hti Hp Hb out. subst out. rewrite (create_valid ti p b s Hti Hp Hb).
  simpl. split; [reflexivity|]. split; [exists ti; split; reflexivity|].
  repeat split.
  - unfold position_at, select_by_id. simpl.
    rewrite (find_app_none _ _ _ (next_id_fresh s)). simpl.
    unfold has_id. simpl. now rewrite Z.eqb_refl.
  - intros j r Hj. unfold select_by_id in *. simpl. now apply find_app_some.
Qed.

Lemma create_inserts_without_shift_witness :
  position_at (next_id abc)
    (snd (TaskRepository.create
            (Some (TaskRepository.mkData (Some (JS.lit "E")) (Some 7) (Some 1)))
            abc))
  = Some 7.
Proof.
  refine (proj1 (proj2 (proj2 (create_inserts_without_shift "E" 7 1 abc _ _ _)))).
  - vm_compute. discriminate.
  - lia.
  - lia.
Defined.

(** C9, as the specification words it, fails: the title [" D "] has
    whitespace at both ends and is not blank, and the title stored by
    [create] and by [update] is [" D "], not its trimmed form ["D"]. *)
Lemma trimmed_title_counterexample :
  JS.trim " D " = "D" /\
  title_at 4 (snd (TaskRepository.create
                     (Some (TaskRepository.mkData (Some (JS.lit " D ")) (Some 3) (Some 1)))
                     abc)) = Some (JS.lit " D ") /\
  title_at 4 (snd (TaskRepository.create
                     (Some (TaskRepository.mkData (Some (JS.lit " D ")) (Some 3) (Some 1)))
                     abc)) <> Some (JS.trim " D ") /\
  title_at 2 (snd (TaskRepository.update 2
                     (Some (TaskRepository.mkData (Some (JS.lit " D ")) (Some 1) (Some 1)))
                     abc)) <> Some (JS.trim " D ").
Proof. repeat split; try reflexivity; vm_compute; discriminate. Qed.

(** C9 (amended): for every title that is not blank after trimming (and
    has no unpaired surrogate), [create] and [update] store the title as
    it was given, whitespace included; trimming serves the validity test
    only.  (The setter [setTitle], which neither of them calls, is what
    keeps a trimmed title.) *)
Theorem title_persisted_as_given (ti : JS.jsstring) (p b : Z) (s : store) :
  JS.trim ti <> [] -> JS.well_formed ti = true -> 0 <= p -> 0 < b ->
  let data := Some (TaskRepository.mkData (Some ti) (Some p) (Some b)) in
  title_at (next_id s) (snd (TaskRepository.create data s)) = Some ti /\
  (forall id r, select_by_id id s = Some r ->
     fst (TaskRepository.update id data s) = Ok (Task.mkTask (Some id) ti p b) /\
     title_at id (snd (TaskRepository.update id data s)) = Some ti) /\
  (forall task, Task.setTitle ti task
                = Ok (Task.mkTask (Task._id task) (JS.trim ti)
                        (Task._position task) (Task._board_id task))).
Proof.
  intros Hti _ Hp Hb data. subst data. split; [|split].
  - rewrite (create_valid ti p b s Hti Hp Hb). simpl.
    unfold title_at, select_by_id. simpl.
    rewrite (find_app_none _ _ _ (next_id_fresh s)). simpl.
    unfold has_id. simpl. now rewrite Z.eqb_refl.
  - intros id r Hsel. unfold TaskRepository.update. simpl.
    apply not_blank_not_empty in Hti as Hne. apply is_empty_false in Hne.
    rewrite Hne. simpl.
    assert (Hb0 : (b =? 0) = false) by (apply Z.eqb_neq; lia). rewrite Hb0.
    rewrite (validate_true (Some id) ti p b Hti Hp Hb). simpl.
    split; [reflexivity|].
    unfold title_at, select_by_id, update_task. simpl.
    rewrite find_map_keep_id
      by (intros x; destruct (has_id id x); reflexivity).
    unfold select_by_id in Hsel. rewrite Hsel. simpl.
    apply find_some in Hsel. destruct Hsel as [_ Hid]. now rewrite Hid.
  - intros task. unfold Task.setTitle.
    apply is_empty_false in Hti. now rewrite Hti.
Qed.

Lemma title_persisted_as_given_witness :
  title_at (next_id abc)
    (snd (TaskRepository.create
            (Some (TaskRepository.mkData (Some (JS.lit " D ")) (Some 3) (Some 1))) abc))
  = Some (JS.lit " D ").
Proof.
  refine (proj1 (title_persisted_as_given " D " 3 1 abc _ _ _ _)).
  - vm_compute. discriminate.
  - reflexivity.
  - lia.
  - lia.
Defined.

End Create.

(* ------------------------------------------------------------------ *)
(** ** The endpoint [PUT /:id/reorder-position] *)

Section ReorderPositionEndpoint.
Import TaskController.

(** C10, as worded, fails on the message: a request whose body has no
    [newPosition] is answered 400 with the message of the first guard,
    not with ["Task ID dan newPosition harus berupa angka"]. *)
Lemma reorder_endpoint_counterexample :
  put_reorder_position (mkRequest "3" []) abc
  = (sendError 400 "Task ID dan newPosition harus disediakan", abc) /\
  fst (put_reorder_position (mkRequest "3" []) abc)
  <> sendError 400 "Task ID dan newPosition harus berupa angka".
Proof. split; [reflexivity | vm_compute; discriminate]. Qed.

(** C10 (amended): the endpoint never succeeds.  For every path parameter
    and every body the handler answers 400, never hands over to the
    repository and leaves the table as it was; the message is
    ["Task ID dan newPosition harus disediakan"] when the body has no
    [newPosition] (or the parameter is empty), and
    ["Task ID dan newPosition harus berupa angka"] otherwise. *)
Theorem reorder_endpoint_never_succeeds (req : request) (s : store) :
  let message :=
    if JS.is_empty (params_id req)
       || JS.is_undefined (JS.get_field (body req) "newPosition")
    then "Task ID dan newPosition harus disediakan"
    else "Task ID dan newPosition harus berupa angka" in
  put_reorder_position_action req = Respond (sendError 400 message) /\
  put_reorder_position req s = (sendError 400 message, s).
Proof.
  unfold put_reorder_position, put_reorder_position_action, reorderByPosition,
    reorderByPosition_guards.
  simpl. destruct (JS.is_empty (params_id req)); simpl.
  - split; reflexivity.
  - destruct (JS.is_undefined (JS.get_field (body req) "newPosition"));
      split; reflexivity.
Qed.

End ReorderPositionEndpoint.

(* ------------------------------------------------------------------ *)
(** ** Moving an item inside its board *)

Section MoveWithinBoard.

Lemma of_integer_is_integer (z : Z) : JS.Number_isInteger (JS.of_integer z) = true.
Proof. simpl. rewrite Z.mod_1_r. reflexivity. Qed.

Lemma integer_value_of_integer (z : Z) : JS.integer_value (JS.of_integer z) = z.
Proof. simpl. apply Z.div_1_r. Qed.

(** C6, as the specification words it, fails: item A exists in a board of
    three items, 5 is not below that count, and yet [reorderByPosition]
    succeeds and rewrites the positions of the board. *)
Lemma move_range_check_counterexample :
  select_by_id 1 abc = Some (mkRow 1 "A" 0 1) /\
  count_of 1 (rows abc) = 3 /\ ~ (0 <= 5 < 3) /\
  fst (TaskRepository.reorderByPosition 1 (Some 5) abc) = Ok tt /\
  positions_of 1 (rows (snd (TaskRepository.reorderByPosition 1 (Some 5) abc)))
  = [5; 0; 1].
Proof. repeat split; try reflexivity. lia. Qed.

(** C6 (amended): [newPosition] is never compared with the number of
    items of the board.  For every existing item and every integer
    [newPosition] the repository's [reorderByPosition] succeeds; it fails
    only for a missing id, an undefined [newPosition] or an item that does
    not exist, and then leaves the table as it was. *)
Theorem reorderByPosition_has_no_range_check
  (taskId newPosition : Z) (task : row) (s : store) :
  taskId <> 0 -> select_by_id taskId s = Some task ->
  fst (TaskRepository.reorderByPosition taskId (Some newPosition) s) = Ok tt /\
  (forall (i : Z) (n : option Z) (s0 : store) (e : string),
     fst (TaskRepository.reorderByPosition i n s0) = Err e ->
     snd (TaskRepository.reorderByPosition i n s0) = s0 /\
     (i = 0 \/ n = None \/ select_by_id i s0 = None)).
Proof.
  intros Hid Hsel. split.
  - unfold TaskRepository.reorderByPosition.
    apply Z.eqb_neq in Hid. rewrite Hid, Hsel.
    destruct (row_position task =? newPosition); [reflexivity|].
    destruct (newPosition <? row_position task); reflexivity.
  - intros i n s0 e. unfold TaskRepository.reorderByPosition.
    destruct n as [n|]; [|simpl; auto].
    destruct (i =? 0) eqn:Ei; [apply Z.eqb_eq in Ei; simpl; auto|].
    destruct (select_by_id i s0) as [r|]; [|simpl; auto].
    destruct (row_position r =? n); [simpl; discriminate|].
    destruct (n <? row_position r); simpl; discriminate.
Qed.

Lemma reorderByPosition_has_no_range_check_witness :
  fst (TaskRepository.reorderByPosition 1 (Some 5) abc) = Ok tt.
Proof.
  refine (proj1 (reorderByPosition_has_no_range_check 1 5 (mkRow 1 "A" 0 1) abc _ _)).
  - lia.
  - reflexivity.
Defined.

End MoveWithinBoard.

Lemma row_id_write_position (p i : Z) (r : row) :
  row_id (write_position p i r) = row_id r.
Proof. unfold write_position. destruct (has_id i r); reflexivity. Qed.


Section MoveShift.

(** Each statement that rewrites positions maps the row found under an id
    to its rewritten row. *)
Lemma has_id_write_position (p i j : Z) (r : row) :
  has_id j (write_position p i r) = has_id j r.
Proof. unfold write_position. destruct (has_id i r); reflexivity. Qed.

Lemma write_position_hit (p i : Z) (r : row) :
  row_id r = i -> write_position p i r = set_position p r.
Proof.
  intros H. unfold write_position. apply has_id_true in H. now rewrite H.
Qed.

Lemma write_position_miss (p i : Z) (r : row) :
  row_id r <> i -> write_position p i r = r.
Proof.
  intros H. unfold write_position. apply has_id_false in H. now rewrite H.
Qed.

Lemma select_update_position (p i j : Z) (s : store) :
  select_by_id j (update_position p i s)
  = option_map (write_position p i) (select_by_id j s).
Proof.
  unfold select_by_id, update_position. simpl.
  apply find_map_keep_id. intros r.
  unfold write_position. destruct (has_id i r); reflexivity.
Qed.

Lemma row_id_increment_row (b lo hi : Z) (r : row) :
  row_id (increment_row b lo hi r) = row_id r.
Proof.
  unfold increment_row.
  destruct (in_board b r && (lo <=? row_position r) && (row_position r <? hi));
    reflexivity.
Qed.

Lemma row_id_decrement_row (b lo hi : Z) (r : row) :
  row_id (decrement_row b lo hi r) = row_id r.
Proof.
  unfold decrement_row.
  destruct (in_board b r && (lo <? row_position r) && (row_position r <=? hi));
    reflexivity.
Qed.

Lemma select_increment_range (b lo hi j : Z) (s : store) :
  select_by_id j (increment_range b lo hi s)
  = option_map (increment_row b lo hi) (select_by_id j s).
Proof.
  unfold select_by_id, increment_range. simpl.
  apply find_map_keep_id. apply row_id_increment_row.
Qed.

Lemma select_decrement_range (b lo hi j : Z) (s : store) :
  select_by_id j (decrement_range b lo hi s)
  = option_map (decrement_row b lo hi) (select_by_id j s).
Proof.
  unfold select_by_id, decrement_range. simpl.
  apply find_map_keep_id. apply row_id_decrement_row.
Qed.

(** The test of the range statements, read as a proposition. *)
Lemma in_range_incr (b lo hi : Z) (r : row) :
  in_board b r && (lo <=? row_position r) && (row_position r <? hi) = true
  <-> row_board_id r = b /\ lo <= row_position r < hi.
Proof.
  rewrite !andb_true_iff, in_board_true, Z.leb_le, Z.ltb_lt. tauto.
Qed.

Lemma in_range_decr (b lo hi : Z) (r : row) :
  in_board b r && (lo <? row_position r) && (row_position r <=? hi) = true
  <-> row_board_id r = b /\ lo < row_position r <= hi.
Proof.
  rewrite !andb_true_iff, in_board_true, Z.leb_le, Z.ltb_lt. tauto.
Qed.

(** The two paths of [reorderByPosition] that write. *)
Lemma reorderByPosition_up (taskId newPosition : Z) (task : row) (s : store) :
  taskId <> 0 -> select_by_id taskId s = Some task ->
  newPosition < row_position task ->
  TaskRepository.reorderByPosition taskId (Some newPosition) s
  = (Ok tt,
     update_position newPosition taskId
       (increment_range (row_board_id task) newPosition (row_position task) s)).
Proof.
  intros Hid Hsel Hlt. unfold TaskRepository.reorderByPosition.
  apply Z.eqb_neq in Hid. rewrite Hid, Hsel.
  assert (E1 : (row_position task =? newPosition) = false) by (apply Z.eqb_neq; lia).
  assert (E2 : (newPosition <? row_position task) = true) by (apply Z.ltb_lt; lia).
  now rewrite E1, E2.
Qed.

Lemma reorderByPosition_down (taskId newPosition : Z) (task : row) (s : store) :
  taskId <> 0 -> select_by_id taskId s = Some task ->
  row_position task < newPosition ->
  TaskRepository.reorderByPosition taskId (Some newPosition) s
  = (Ok tt,
     update_position newPosition taskId
       (decrement_range (row_board_id task) (row_position task) newPosition s)).
Proof.
  intros Hid Hsel Hlt. unfold TaskRepository.reorderByPosition.
  apply Z.eqb_neq in Hid. rewrite Hid, Hsel.
  assert (E1 : (row_position task =? newPosition) = false) by (apply Z.eqb_neq; lia).
  assert (E2 : (newPosition <? row_position task) = false) by (apply Z.ltb_ge; lia).
  now rewrite E1, E2.
Qed.

Lemma reorderByPosition_same (taskId : Z) (task : row) (s : store) :
  taskId <> 0 -> select_by_id taskId s = Some task ->
  TaskRepository.reorderByPosition taskId (Some (row_position task)) s = (Ok tt, s).
Proof.
  intros Hid Hsel. unfold TaskRepository.reorderByPosition.
  apply Z.eqb_neq in Hid. now rewrite Hid, Hsel, Z.eqb_refl.
Qed.

(** C7: for every existing item, [reorderByPosition] succeeds and leaves
    the moved item at [newPosition]; every item of its board whose
    position was in [[newPosition, oldPosition)] holds one more, every item
    whose position was in [(oldPosition, newPosition]] holds one less, and
    every other item keeps its row.  With A, B, C at 0, 1, 2, moving C to 0
    gives A at 1, B at 2 and C at 0. *)
Theorem reorderByPosition_shifts
  (taskId newPosition : Z) (task : row) (s : store) :
  taskId <> 0 -> select_by_id taskId s = Some task ->
  let oldPosition := row_position task in
  let boardId := row_board_id task in
  let out := TaskRepository.reorderByPosition taskId (Some newPosition) s in
  fst out = Ok tt /\
  position_at taskId (snd out) = Some newPosition /\
  (forall j r, select_by_id j s = Some r -> row_board_id r = boardId ->
     newPosition <= row_position r < oldPosition ->
     position_at j (snd out) = Some (row_position r + 1)) /\
  (forall j r, select_by_id j s = Some r -> row_board_id r = boardId ->
     oldPosition < row_position r <= newPosition ->
     position_at j (snd out) = Some (row_position r - 1)) /\
  (forall j r, select_by_id j s = Some r -> j <> taskId ->
     ~ (row_board_id r = boardId /\ newPosition <= row_position r < oldPosition) ->
     ~ (row_board_id r = boardId /\ oldPosition < row_position r <= newPosition) ->
     select_by_id j (snd out) = Some r) /\
  rows (snd (TaskRepository.reorderByPosition 3 (Some 0) abc))
  = [mkRow 1 "A" 1 1; mkRow 2 "B" 2 1; mkRow 3 "C" 0 1].
Proof.
  intros Hid Hsel oldPosition boardId out.
  destruct (select_by_id_some _ _ _ Hsel) as [_ Htid].
  assert (Hother : forall j r, select_by_id j s = Some r ->
                     row_position r <> oldPosition -> row_id r <> taskId).
  { intros j r Hj Hp Hr.
    destruct (select_by_id_some _ _ _ Hj) as [_ Hjid].
    assert (j = taskId) by congruence. subst j.
    assert (r = task) by congruence. subst r. now apply Hp. }
  destruct (Z.lt_trichotomy newPosition oldPosition) as [Hlt|[Heq|Hgt]].
  - (* moving to a smaller position *)
    subst out. rewrite (reorderByPosition_up _ _ _ _ Hid Hsel Hlt). simpl.
    fold oldPosition boardId.
    split; [reflexivity|]. split; [|split; [|split; [|split]]].
    + unfold position_at. rewrite select_update_position, select_increment_range.
      rewrite Hsel. simpl. rewrite write_position_hit; [reflexivity|].
      now rewrite ?row_id_increment_row, ?row_id_decrement_row.
    + intros j r Hj Hb Hr.
      unfold position_at. rewrite select_update_position, select_increment_range.
      rewrite Hj. simpl. unfold increment_row.
      rewrite (proj2 (in_range_incr boardId newPosition oldPosition r)) by tauto.
      rewrite write_position_miss by (simpl; apply (Hother j r Hj); lia).
      reflexivity.
    + intros; lia.
    + intros j r Hj Hne Hn1 Hn2.
      rewrite select_update_position, select_increment_range, Hj. simpl.
      unfold increment_row.
      destruct (in_board boardId r && (newPosition <=? row_position r)
                && (row_position r <? oldPosition)) eqn:Ec.
      * apply in_range_incr in Ec. contradiction.
      * destruct (select_by_id_some _ _ _ Hj) as [_ Hjid].
        rewrite write_position_miss by congruence. reflexivity.
    + reflexivity.
  - (* the position it has already *)
    subst out newPosition. unfold oldPosition.
    rewrite (reorderByPosition_same _ _ _ Hid Hsel). simpl.
    split; [reflexivity|]. split; [|split; [|split; [|split]]].
    + unfold position_at. now rewrite Hsel.
    + intros; lia.
    + intros; lia.
    + intros; assumption.
    + reflexivity.
  - (* moving to a larger position *)
    subst out. rewrite (reorderByPosition_down _ _ _ _ Hid Hsel Hgt). simpl.
    fold oldPosition boardId.
    split; [reflexivity|]. split; [|split; [|split; [|split]]].
    + unfold position_at. rewrite select_update_position, select_decrement_range.
      rewrite Hsel. simpl. rewrite write_position_hit; [reflexivity|].
      now rewrite ?row_id_increment_row, ?row_id_decrement_row.
    + intros; lia.
    + intros j r Hj Hb Hr.
      unfold position_at. rewrite select_update_position, select_decrement_range.
      rewrite Hj. simpl. unfold decrement_row.
      rewrite (proj2 (in_range_decr boardId oldPosition newPosition r)) by tauto.
      rewrite write_position_miss by (simpl; apply (Hother j r Hj); lia).
      reflexivity.
    + intros j r Hj Hne Hn1 Hn2.
      rewrite select_update_position, select_decrement_range, Hj. simpl.
      unfold decrement_row.
      destruct (in_board boardId r && (oldPosition <? row_position r)
                && (row_position r <=? newPosition)) eqn:Ec.
      * apply in_range_decr in Ec. contradiction.
      * destruct (select_by_id_some _ _ _ Hj) as [_ Hjid].
        rewrite write_position_miss by congruence. reflexivity.
    + reflexivity.
Qed.

Lemma reorderByPosition_shifts_witness :
  position_at 3 (snd (TaskRepository.reorderByPosition 3 (Some 0) abc)) = Some 0 /\
  position_at 1 (snd (TaskRepository.reorderByPosition 3 (Some 0) abc))
  = Some (0 + 1).
Proof.
  assert (H3 : 3 <> 0) by lia.
  assert (Hsel : select_by_id 3 abc = Some (mkRow 3 "C" 2 1)) by reflexivity.
  destruct (reorderByPosition_shifts 3 0 (mkRow 3 "C" 2 1) abc H3 Hsel)
    as [_ [Hmoved [Hup _]]].
  split; [exact Hmoved|].
  apply (Hup 1 (mkRow 1 "A" 0 1)); [reflexivity | reflexivity | simpl; lia].
Defined.

End MoveShift.

(* ------------------------------------------------------------------ *)
(** ** Swapping the positions of two items *)

Section Swap.

Lemma set_position_same (r : row) : set_position (row_position r) r = r.
Proof. destruct r; reflexivity. Qed.

Lemma set_position_twice (p q : Z) (r : row) :
  set_position p (set_position q r) = set_position p r.
Proof. reflexivity. Qed.

Lemma with_rows_same (s : store) : with_rows s (rows s) = s.
Proof. destruct s; reflexivity. Qed.

(** The path of [reorder] that writes. *)
Lemma reorder_found (a b : Z) (ra rb : row) (s : store) :
  a <> 0 -> b <> 0 -> select_by_id a s = Some ra -> select_by_id b s = Some rb ->
  TaskRepository.reorder a b s
  = (Ok tt,
     update_position (row_position ra) b (update_position (row_position rb) a s)).
Proof.
  intros Ha Hb Hsa Hsb. unfold TaskRepository.reorder.
  apply Z.eqb_neq in Ha, Hb. now rewrite Ha, Hb, Hsa, Hsb.
Qed.

(** An item of a well-formed table has a non-zero id. *)
Lemma wf_id_nonzero (s : store) (i : Z) (r : row) :
  wf_store s -> select_by_id i s = Some r -> i <> 0.
Proof.
  intros [_ Hpos] Hsel. apply select_by_id_some in Hsel. destruct Hsel as [Hin Hid].
  rewrite Forall_forall in Hpos. apply Hpos in Hin. lia.
Qed.

(** The rows found under [a] and [b] after one swap. *)
Lemma select_after_swap (a b j : Z) (ra rb : row) (s : store) :
  select_by_id a s = Some ra -> select_by_id b s = Some rb ->
  select_by_id j
    (update_position (row_position ra) b (update_position (row_position rb) a s))
  = if j =? a then Some (set_position (row_position rb) ra)
    else if j =? b then Some (set_position (row_position ra) rb)
    else select_by_id j s.
Proof.
  intros Hsa Hsb. rewrite !select_update_position.
  destruct (select_by_id_some _ _ _ Hsa) as [_ Haid].
  destruct (select_by_id_some _ _ _ Hsb) as [_ Hbid].
  destruct (Z.eqb_spec j a) as [->|Hja].
  - rewrite Hsa. simpl. rewrite (write_position_hit _ a ra Haid).
    destruct (Z.eq_dec a b) as [Eab|Nab].
    + assert (ra = rb) by (rewrite Eab in Hsa; congruence). subst rb.
      rewrite write_position_hit by (simpl; congruence). reflexivity.
    + rewrite write_position_miss by (simpl; congruence). reflexivity.
  - destruct (Z.eqb_spec j b) as [->|Hjb].
    + rewrite Hsb. simpl.
      rewrite (write_position_miss _ a rb) by congruence.
      rewrite write_position_hit by assumption. reflexivity.
    + destruct (select_by_id j s) as [r|] eqn:Hsj; [|reflexivity].
      simpl. destruct (select_by_id_some _ _ _ Hsj) as [_ Hjid].
      rewrite (write_position_miss _ a r) by congruence.
      rewrite write_position_miss by congruence. reflexivity.
Qed.

(** C8: for every two existing items, [reorder] succeeds, gives each the
    position the other had and changes nothing else (titles, boards and
    every other row stay); a second [reorder] of the same two items gives
    back the table it started from. *)
Theorem reorder_swaps_and_restores (a b : Z) (ra rb : row) (s : store) :
  wf_store s -> select_by_id a s = Some ra -> select_by_id b s = Some rb ->
  let s1 := snd (TaskRepository.reorder a b s) in
  fst (TaskRepository.reorder a b s) = Ok tt /\
  position_at a s1 = Some (row_position rb) /\
  position_at b s1 = Some (row_position ra) /\
  select_by_id a s1
  = Some (mkRow a (row_title ra) (row_position rb) (row_board_id ra)) /\
  select_by_id b s1
  = Some (mkRow b (row_title rb) (row_position ra) (row_board_id rb)) /\
  (forall j, j <> a -> j <> b -> select_by_id j s1 = select_by_id j s) /\
  TaskRepository.reorder a b s1 = (Ok tt, s).
Proof.
  intros Hwf Hsa Hsb s1.
  pose proof (wf_id_nonzero _ _ _ Hwf Hsa) as Ha.
  pose proof (wf_id_nonzero _ _ _ Hwf Hsb) as Hb.
  destruct (select_by_id_some _ _ _ Hsa) as [Hina Haid].
  destruct (select_by_id_some _ _ _ Hsb) as [Hinb Hbid].
  subst s1. rewrite (reorder_found a b ra rb s Ha Hb Hsa Hsb). simpl.
  set (s1 := update_position (row_position ra) b
               (update_position (row_position rb) a s)).
  assert (Hsel : forall j, select_by_id j s1
                 = if j =? a then Some (set_position (row_position rb) ra)
                   else if j =? b then Some (set_position (row_position ra) rb)
                   else select_by_id j s)
    by (intros j; apply select_after_swap; assumption).
  assert (Hsa1 : select_by_id a s1 = Some (set_position (row_position rb) ra))
    by (rewrite Hsel, Z.eqb_refl; reflexivity).
  assert (Hsb1 : select_by_id b s1 = Some (set_position (row_position ra) rb)).
  { rewrite Hsel. destruct (Z.eqb_spec b a) as [E|N]; [|now rewrite Z.eqb_refl].
    assert (ra = rb) by (rewrite E in Hsb; congruence). now subst rb. }
  split; [reflexivity|].
  split; [unfold position_at; now rewrite Hsa1|].
  split; [unfold position_at; now rewrite Hsb1|].
  split; [rewrite Hsa1; unfold set_position; now rewrite Haid|].
  split; [rewrite Hsb1; unfold set_position; now rewrite Hbid|].
  split.
  - intros j Hja Hjb. rewrite Hsel.
    apply Z.eqb_neq in Hja, Hjb. now rewrite Hja, Hjb.
  - rewrite (reorder_found a b _ _ s1 Ha Hb Hsa1 Hsb1). simpl. f_equal.
    unfold s1, update_position. simpl. unfold with_rows. simpl.
    rewrite !map_map. rewrite map_id_on; [now destruct s|].
    intros r Hin. destruct Hwf as [Hnd _]. simpl.
    destruct (Z.eq_dec (row_id r) a) as [Era|Nra].
    + assert (r = ra) by (apply (unique_id (rows s)); congruence). subst r.
      rewrite (write_position_hit (row_position rb) a ra Era).
      destruct (Z.eq_dec a b) as [Eab|Nab].
      * assert (ra = rb) by (rewrite Eab in Hsa; congruence). subst rb.
        rewrite set_position_same.
        rewrite (write_position_hit _ b ra Hbid), set_position_same.
        rewrite (write_position_hit _ a ra Era), set_position_same.
        rewrite (write_position_hit _ b ra Hbid). apply set_position_same.
      * rewrite write_position_miss by (rewrite ?row_id_write_position; simpl; congruence).
        rewrite write_position_hit by (rewrite ?row_id_write_position; simpl; congruence).
        rewrite write_position_miss by (rewrite ?row_id_write_position; simpl; congruence).
        rewrite set_position_twice. apply set_position_same.
    + rewrite (write_position_miss _ a r) by assumption.
      destruct (Z.eq_dec (row_id r) b) as [Erb|Nrb].
      * assert (r = rb) by (apply (unique_id (rows s)); congruence). subst r.
        rewrite (write_position_hit _ b rb Erb).
        rewrite write_position_hit by (rewrite ?row_id_write_position; simpl; congruence).
        rewrite write_position_miss by (rewrite ?row_id_write_position; simpl; congruence).
        rewrite set_position_twice. apply set_position_same.
      * rewrite (write_position_miss _ b r) by assumption.
        rewrite (write_position_miss _ a r) by assumption.
        now apply write_position_miss.
Qed.

Lemma reorder_swaps_and_restores_witness :
  let s1 := snd (TaskRepository.reorder 1 3 abc) in
  fst (TaskRepository.reorder 1 3 abc) = Ok tt /\
  position_at 1 s1 = Some 2 /\
  position_at 3 s1 = Some 0 /\
  select_by_id 1 s1 = Some (mkRow 1 "A" 2 1) /\
  select_by_id 3 s1 = Some (mkRow 3 "C" 0 1) /\
  (forall j, j <> 1 -> j <> 3 -> select_by_id j s1 = select_by_id j abc) /\
  TaskRepository.reorder 1 3 s1 = (Ok tt, abc).
Proof.
  refine (reorder_swaps_and_restores 1 3 (mkRow 1 "A" 0 1) (mkRow 3 "C" 2 1) abc
            abc_wf _ _); reflexivity.
Defined.

End Swap.

(* ------------------------------------------------------------------ *)
(** ** Moving an item to another board *)

Section Relocate.

Lemma insert_by_position_perm (r : row) (l : list row) :
  Permutation (insert_by_position r l) (r :: l).
Proof.
  induction l as [|x l IH]; simpl; [reflexivity|].
  destruct (row_position r <=? row_position x); [reflexivity|].
  rewrite IH. apply perm_swap.
Qed.

Lemma order_by_position_perm (l : list row) :
  Permutation (order_by_position l) l.
Proof.
  induction l as [|x l IH]; simpl; [reflexivity|].
  rewrite insert_by_position_perm. now constructor.
Qed.

(** Renumbering touches the listed ids only. *)
Lemma select_forEach_renumber_other (ids : list Z) (k j : Z) (s : store) :
  ~ In j ids ->
  select_by_id j (TaskRepository.forEach_renumber ids k s) = select_by_id j s.
Proof.
  revert k s. induction ids as [|i ids IH]; intros k s Hnot; simpl; [reflexivity|].
  rewrite IH by (intros H; apply Hnot; now right).
  rewrite select_update_position.
  destruct (select_by_id j s) as [r|] eqn:E; [|reflexivity]. simpl.
  destruct (select_by_id_some _ _ _ E) as [_ Hid].
  rewrite write_position_miss; [reflexivity|].
  intros H. apply Hnot. left. congruence.
Qed.

(** The [n]-th listed id ends at position [k + n + 1]. *)
Lemma forEach_renumber_nth (ids : list Z) :
  forall (k : Z) (s : store) (n : nat) (i : Z),
    NoDup ids ->
    (forall j, In j ids -> select_by_id j s <> None) ->
    nth_error ids n = Some i ->
    position_at i (TaskRepository.forEach_renumber ids k s)
    = Some (k + Z.of_nat n + 1).
Proof.
  induction ids as [|i0 ids IH]; intros k s n i Hnd Hex Hn.
  - destruct n; discriminate.
  - inversion Hnd as [|? ? Hnotin Hnd']; subst. simpl.
    destruct n as [|n]; simpl in Hn.
    + injection Hn as <-. unfold position_at.
      rewrite (select_forEach_renumber_other _ _ _ _ Hnotin).
      rewrite select_update_position.
      destruct (select_by_id i0 s) as [r|] eqn:E.
      * simpl. destruct (select_by_id_some _ _ _ E) as [_ Hid].
        rewrite write_position_hit by assumption. simpl. f_equal. lia.
      * exfalso. apply (Hex i0); [now left | assumption].
    + rewrite (IH (k + 1) _ n i Hnd'); [f_equal; lia | | assumption].
      intros j Hj. rewrite select_update_position.
      specialize (Hex j (or_intror Hj)).
      destruct (select_by_id j s); [discriminate | contradiction].
Qed.

(** Once the row has left for another board, the old board lists what
    [remaining] lists. *)
Lemma filter_after_leave (old q p t : Z) (l : list row) :
  old <> q ->
  filter (in_board old)
    (map (fun r => if has_id t r then set_board_position q p r else r) l)
  = filter (fun r => in_board old r && negb (has_id t r)) l.
Proof.
  intros Hne. induction l as [|r l IH]; simpl; [reflexivity|].
  destruct (has_id t r) eqn:Et; simpl.
  - assert (E : in_board old (set_board_position q p r) = false)
      by (unfold in_board; simpl; apply Z.eqb_neq; congruence).
    rewrite E, andb_false_r. exact IH.
  - rewrite andb_true_r. destruct (in_board old r); [now f_equal | exact IH].
Qed.

Lemma select_ids_after_leave (old q p t : Z) (s : store) :
  old <> q ->
  select_ids_by_board old (update_board_position q p t s) = remaining old t s.
Proof.
  intros Hne. unfold select_ids_by_board, select_by_board, remaining.
  unfold update_board_position. simpl. now rewrite filter_after_leave.
Qed.

Lemma remaining_in (b t i : Z) (s : store) :
  In i (remaining b t s) <->
  exists r, In r (rows s) /\ row_id r = i /\ row_board_id r = b /\ i <> t.
Proof.
  unfold remaining. rewrite in_map_iff. split.
  - intros [r [Hid Hin]].
    apply (Permutation_in _ (order_by_position_perm _)) in Hin.
    apply filter_In in Hin. destruct Hin as [Hin Hc].
    apply andb_true_iff in Hc. destruct Hc as [Hb Ht].
    apply in_board_true in Hb. apply negb_true_iff, has_id_false in Ht.
    exists r. repeat split; try assumption. congruence.
  - intros [r [Hin [Hid [Hb Ht]]]]. exists r. split; [assumption|].
    apply (Permutation_in _ (Permutation_sym (order_by_position_perm _))).
    apply filter_In. split; [assumption|].
    apply andb_true_iff. split; [now apply in_board_true|].
    apply negb_true_iff, has_id_false. congruence.
Qed.

Lemma NoDup_map_filter (f : row -> bool) (l : list row) :
  NoDup (map row_id l) -> NoDup (map row_id (filter f l)).
Proof.
  induction l as [|r l IH]; simpl; intros Hnd; [constructor|].
  inversion Hnd as [|? ? Hnotin Hnd']; subst.
  destruct (f r); simpl; [|now apply IH].
  constructor; [|now apply IH].
  intros Hin. apply Hnotin. apply in_map_iff in Hin.
  destruct Hin as [x [Hx Hin]]. apply filter_In in Hin.
  apply in_map_iff. exists x. tauto.
Qed.

Lemma remaining_NoDup (b t : Z) (s : store) :
  NoDup (map row_id (rows s)) -> NoDup (remaining b t s).
Proof.
  intros Hnd. unfold remaining.
  eapply Permutation_NoDup.
  - apply Permutation_map. apply Permutation_sym, order_by_position_perm.
  - now apply NoDup_map_filter.
Qed.

(** The shared tail of [moveToBoard], in one equation. *)
Lemma move_and_renumber_eq (t q p : Z) (task : row) (s : store) :
  row_board_id task <> q ->
  TaskRepository.move_and_renumber t task q p s
  = (Ok (Task.mkTask (Some (row_id task)) (row_title task) p q),
     TaskRepository.forEach_renumber (remaining (row_board_id task) t s) 0
       (update_board_position q p t s)).
Proof.
  intros Hne. unfold TaskRepository.move_and_renumber.
  rewrite (select_ids_after_leave _ _ _ _ _ Hne).
  destruct (remaining (row_board_id task) t s); reflexivity.
Qed.

(** What [moveToBoard] does once its guards are passed. *)
Lemma moveToBoard_found (t q : Z) (np : option Z) (task : row) (s : store) :
  t <> 0 -> q <> 0 -> select_by_id t s = Some task -> row_board_id task <> q ->
  let p := match np with
           | Some p => p
           | None => select_coalesce_max_position q s + 1
           end in
  TaskRepository.moveToBoard t q np s
  = (Ok (Task.mkTask (Some (row_id task)) (row_title task) p q),
     TaskRepository.forEach_renumber (remaining (row_board_id task) t s) 0
       (update_board_position q p t s)).
Proof.
  intros Ht Hq Hsel Hne p. unfold TaskRepository.moveToBoard.
  apply Z.eqb_neq in Ht, Hq. rewrite Ht, Hq, Hsel. simpl.
  assert (E : (row_board_id task =? q) = false) by (apply Z.eqb_neq; exact Hne).
  rewrite E. subst p. destruct np; now apply move_and_renumber_eq.
Qed.

Lemma select_update_board_position (b p i j : Z) (s : store) :
  select_by_id j (update_board_position b p i s)
  = option_map (fun r => if has_id i r then set_board_position b p r else r)
               (select_by_id j s).
Proof.
  unfold select_by_id, update_board_position. simpl.
  apply find_map_keep_id. intros r. destruct (has_id i r); reflexivity.
Qed.

Lemma select_by_id_exists (s : store) (r : row) :
  In r (rows s) -> select_by_id (row_id r) s <> None.
Proof.
  intros Hin H. unfold select_by_id in H. apply (find_none _ _ H) in Hin.
  unfold has_id in Hin. now rewrite Z.eqb_refl in Hin.
Qed.

(** The moved item is not among the renumbered ones. *)
Lemma moved_not_remaining (b t : Z) (s : store) : ~ In t (remaining b t s).
Proof. rewrite remaining_in. intros [r [_ [_ [_ H]]]]. now apply H. Qed.

(** C4 on the code: whatever the target position, the [n]-th of the items
    left in the source board, counted from 0 in ascending order of their
    positions, ends at position [n + 1]: the items left hold 1, ..., k and
    not 0, ..., k-1.  After A has left A, B, C at 0, 1, 2, B and C stay at 1
    and 2. *)
Theorem moveToBoard_renumbers_source_from_one
  (t q : Z) (np : option Z) (task : row) (s : store) :
  wf_store s -> q <> 0 -> select_by_id t s = Some task ->
  row_board_id task <> q ->
  (forall n i, nth_error (remaining (row_board_id task) t s) n = Some i ->
     position_at i (snd (TaskRepository.moveToBoard t q np s))
     = Some (Z.of_nat n + 1)) /\
  remaining 1 1 abc = [2; 3] /\
  rows (snd (TaskRepository.moveToBoard 1 2 None abc))
  = [mkRow 1 "A" 1 2; mkRow 2 "B" 1 1; mkRow 3 "C" 2 1].
Proof.
  intros Hwf Hq Hsel Hne. split; [|split; reflexivity].
  intros n i Hn.
  pose proof (wf_id_nonzero _ _ _ Hwf Hsel) as Ht.
  rewrite (moveToBoard_found t q np task s Ht Hq Hsel Hne). simpl.
  rewrite (forEach_renumber_nth _ 0 _ n i); [reflexivity | | | exact Hn].
  - apply remaining_NoDup. apply Hwf.
  - intros j Hj. apply remaining_in in Hj. destruct Hj as [r [Hin [Hid _]]].
    rewrite select_update_board_position. subst j.
    pose proof (select_by_id_exists s r Hin) as Hex.
    destruct (select_by_id (row_id r) s); [discriminate | contradiction].
Qed.

Lemma moveToBoard_renumbers_source_from_one_witness :
  position_at 2 (snd (TaskRepository.moveToBoard 1 2 None abc)) = Some (0 + 1).
Proof.
  refine (proj1 (moveToBoard_renumbers_source_from_one 1 2 None
                   (mkRow 1 "A" 0 1) abc abc_wf _ _ _) 0%nat 2 _).
  - lia.
  - reflexivity.
  - simpl. lia.
  - reflexivity.
Defined.

(** C5 on the code: an append into a board that has no item places the
    item at position 1, not at the number of items of the board, which
    is 0.  (Into a board that is dense and has items the append does
    place it at that number, see [append_position_dense].) *)
Theorem moveToBoard_append_into_empty_board
  (t q : Z) (task : row) (s : store) :
  t <> 0 -> q <> 0 -> select_by_id t s = Some task ->
  row_board_id task <> q -> count_of q (rows s) = 0 ->
  fst (TaskRepository.moveToBoard t q None s)
  = Ok (Task.mkTask (Some (row_id task)) (row_title task) 1 q) /\
  select_by_id t (snd (TaskRepository.moveToBoard t q None s))
  = Some (set_board_position q 1 task) /\
  TaskRepository.moveToBoard 1 2 None abc
  = (Ok (Task.mkTask (Some 1) "A" 1 2),
     mkStore [mkRow 1 "A" 1 2; mkRow 2 "B" 1 1; mkRow 3 "C" 2 1] 3).
Proof.
  intros Ht Hq Hsel Hne Hcount.
  assert (Hmax : select_coalesce_max_position q s + 1 = 1).
  { unfold select_coalesce_max_position. unfold count_of in Hcount.
    destruct (filter (in_board q) (rows s)); [reflexivity | simpl in Hcount; lia]. }
  rewrite (moveToBoard_found t q None task s Ht Hq Hsel Hne). simpl.
  rewrite Hmax. split; [reflexivity|]. split; [|reflexivity].
  rewrite (select_forEach_renumber_other _ _ _ _ (moved_not_remaining _ t s)).
  rewrite select_update_board_position, Hsel. simpl.
  destruct (select_by_id_some _ _ _ Hsel) as [_ Hid].
  apply has_id_true in Hid. now rewrite Hid.
Qed.

Lemma moveToBoard_append_into_empty_board_witness :
  fst (TaskRepository.moveToBoard 1 2 None abc)
  = Ok (Task.mkTask (Some 1) "A" 1 2).
Proof.
  refine (proj1 (moveToBoard_append_into_empty_board 1 2 (mkRow 1 "A" 0 1) abc
                   _ _ _ _ _)).
  - lia.
  - lia.
  - reflexivity.
  - simpl. lia.
  - reflexivity.
Defined.

End Relocate.

(* ------------------------------------------------------------------ *)
(** ** The density invariant *)

Section Density.

Lemma dense_board_list (rs : list row) (b : Z) :
  dense_board rs b <-> dense_list (positions_of b rs).
Proof.
  unfold dense_board, dense_list. now rewrite positions_of_length.
Qed.

Lemma positions_of_app (b : Z) (l1 l2 : list row) :
  positions_of b (l1 ++ l2) = (positions_of b l1 ++ positions_of b l2)%list.
Proof. unfold positions_of. now rewrite filter_app, map_app. Qed.

Lemma positions_of_cons_in (b : Z) (r : row) (l : list row) :
  row_board_id r = b -> positions_of b (r :: l) = row_position r :: positions_of b l.
Proof.
  intros H. unfold positions_of. simpl.
  apply in_board_true in H. now rewrite H.
Qed.

Lemma positions_of_cons_out (b : Z) (r : row) (l : list row) :
  row_board_id r <> b -> positions_of b (r :: l) = positions_of b l.
Proof.
  intros H. unfold positions_of. simpl.
  assert (E : in_board b r = false) by (unfold in_board; now apply Z.eqb_neq).
  now rewrite E.
Qed.

(** A dense list has no position twice. *)
Lemma dense_list_NoDup (P : list Z) : dense_list P -> NoDup P.
Proof.
  intros HP.
  apply NoDup_incl_NoDup with (l := map Z.of_nat (seq 0 (List.length P))).
  - apply Finite.Injective_map_NoDup; [|apply seq_NoDup].
    intros x y Hxy. now apply Nat2Z.inj.
  - now rewrite length_map, length_seq.
  - intros x Hx. apply in_map_iff in Hx. destruct Hx as [n [<- Hn]].
    apply in_seq in Hn. apply HP. lia.
Qed.

(** Rewriting the positions of a board through a function of the
    position. *)
Lemma positions_of_map (f : row -> row) (g : Z -> Z) (b : Z) (l : list row) :
  (forall r, In r l -> row_board_id (f r) = row_board_id r) ->
  (forall r, In r l -> row_board_id r = b ->
             row_position (f r) = g (row_position r)) ->
  positions_of b (map f l) = map g (positions_of b l).
Proof.
  induction l as [|r l IH]; intros Hb Hp; [reflexivity|].
  simpl map at 1.
  assert (IH' : positions_of b (map f l) = map g (positions_of b l))
    by (apply IH; intros; [apply Hb | apply Hp]; simpl; auto).
  destruct (Z.eq_dec (row_board_id r) b) as [E|N].
  - rewrite (positions_of_cons_in b r l E).
    rewrite positions_of_cons_in by (rewrite Hb; simpl; auto).
    simpl. rewrite IH', Hp; simpl; auto.
  - rewrite (positions_of_cons_out b r l N).
    rewrite positions_of_cons_out by (rewrite Hb; simpl; auto).
    exact IH'.
Qed.

Lemma positions_of_map_same (f : row -> row) (b : Z) (l : list row) :
  (forall r, In r l -> row_board_id (f r) = row_board_id r) ->
  (forall r, In r l -> row_board_id r = b -> row_position (f r) = row_position r) ->
  positions_of b (map f l) = positions_of b l.
Proof.
  intros Hb Hp. rewrite (positions_of_map f (fun x => x) b l Hb Hp).
  apply map_id.
Qed.

(** A dense list stays dense under a function that permutes its range. *)
Lemma dense_list_map (g h : Z -> Z) (P : list Z) :
  dense_list P ->
  (forall p, 0 <= p < Z.of_nat (List.length P) ->
             0 <= g p < Z.of_nat (List.length P)) ->
  (forall p, 0 <= p < Z.of_nat (List.length P) ->
             0 <= h p < Z.of_nat (List.length P) /\ g (h p) = p) ->
  dense_list (map g P).
Proof.
  intros HP Hg Hh p. rewrite length_map, in_map_iff. split.
  - intros [x [<- Hx]]. apply Hg. now apply HP.
  - intros Hp. destruct (Hh p Hp) as [Hr Hgh].
    exists (h p). split; [exact Hgh | now apply HP].
Qed.

(** In a board without a position twice, the position tells the row. *)
Lemma position_tells_row (b : Z) (l : list row) (r r' : row) :
  NoDup (positions_of b l) -> In r l -> In r' l ->
  row_board_id r = b -> row_board_id r' = b ->
  row_position r = row_position r' -> r = r'.
Proof.
  induction l as [|x l IH]; intros Hnd Hr Hr' Hb Hb' Hp; [contradiction|].
  assert (Hin : forall y, In y l -> row_board_id y = b ->
                          In (row_position y) (positions_of b l)).
  { intros y Hy Hyb. unfold positions_of. apply in_map.
    apply filter_In. split; [assumption | now apply in_board_true]. }
  destruct (Z.eq_dec (row_board_id x) b) as [E|N].
  - rewrite (positions_of_cons_in b x l E) in Hnd.
    inversion Hnd as [|? ? Hnotin Hnd']; subst.
    destruct Hr as [->|Hr], Hr' as [->|Hr'].
    + reflexivity.
    + exfalso. apply Hnotin. rewrite Hp. now apply Hin.
    + exfalso. apply Hnotin. rewrite <- Hp. now apply Hin.
    + now apply IH.
  - rewrite (positions_of_cons_out b x l N) in Hnd.
    destruct Hr as [->|Hr]; [contradiction|].
    destruct Hr' as [->|Hr']; [contradiction|].
    now apply IH.
Qed.

Lemma position_in_board (b : Z) (l : list row) (r : row) :
  In r l -> row_board_id r = b -> In (row_position r) (positions_of b l).
Proof.
  intros Hin Hb. unfold positions_of. apply in_map.
  apply filter_In. split; [assumption | now apply in_board_true].
Qed.

(** *** Well-formedness is kept *)

Lemma wf_map_rows (f : row -> row) (s : store) :
  (forall r, row_id (f r) = row_id r) ->
  wf_store s -> wf_store (with_rows s (map f (rows s))).
Proof.
  intros Hf [Hnd Hpos]. split; simpl.
  - rewrite map_map. rewrite (map_ext _ row_id Hf). exact Hnd.
  - rewrite Forall_forall in *. intros r Hin.
    apply in_map_iff in Hin. destruct Hin as [x [<- Hx]].
    rewrite Hf. now apply Hpos.
Qed.

Lemma wf_update_position (p i : Z) (s : store) :
  wf_store s -> wf_store (update_position p i s).
Proof. apply wf_map_rows. intros r. apply row_id_write_position. Qed.

Lemma wf_increment_range (b lo hi : Z) (s : store) :
  wf_store s -> wf_store (increment_range b lo hi s).
Proof. apply wf_map_rows. intros r. apply row_id_increment_row. Qed.

Lemma wf_decrement_range (b lo hi : Z) (s : store) :
  wf_store s -> wf_store (decrement_range b lo hi s).
Proof. apply wf_map_rows. intros r. apply row_id_decrement_row. Qed.

Lemma wf_update_board_position (b p i : Z) (s : store) :
  wf_store s -> wf_store (update_board_position b p i s).
Proof. apply wf_map_rows. intros r. destruct (has_id i r); reflexivity. Qed.

Lemma wf_delete_by_id (i : Z) (s : store) :
  wf_store s -> wf_store (delete_by_id i s).
Proof.
  intros [Hnd Hpos]. split; simpl.
  - now apply NoDup_map_filter.
  - rewrite Forall_forall in *. intros r Hin.
    apply filter_In in Hin. now apply Hpos.
Qed.

Lemma max_id_nonneg (l : list row) : 0 <= max_id l.
Proof.
  induction l as [|r l IH]; unfold max_id; simpl; [lia|].
  fold (max_id l). lia.
Qed.

Lemma wf_insert_task (ti : JS.jsstring) (p b : Z) (s : store) :
  wf_store s -> wf_store (snd (insert_task ti p b s)).
Proof.
  intros [Hnd Hpos]. split; simpl.
  - rewrite map_app. simpl.
    apply NoDup_app; [exact Hnd | repeat constructor; simpl; tauto |].
    intros x Hx [Hx'|[]]. subst x.
    apply in_map_iff in Hx. destruct Hx as [r [Hid Hin]].
    apply max_id_bound in Hin. unfold next_id in Hid. lia.
  - apply Forall_app. split; [exact Hpos|].
    constructor; [|constructor]. simpl.
    pose proof (max_id_nonneg (rows s)). unfold next_id. lia.
Qed.

Lemma wf_forEach_renumber (ids : list Z) (k : Z) (s : store) :
  wf_store s -> wf_store (TaskRepository.forEach_renumber ids k s).
Proof.
  revert k s. induction ids as [|i ids IH]; intros k s Hwf; simpl; [exact Hwf|].
  apply IH. now apply wf_update_position.
Qed.

(** What [create] leaves behind: the table as it was, or one more row. *)
Lemma create_cases (data : option TaskRepository.task_data) (s : store) :
  snd (TaskRepository.create data s) = s \/
  exists ti p b,
    data = Some (TaskRepository.mkData (Some ti) (Some p) (Some b)) /\
    snd (TaskRepository.create data s) = snd (insert_task ti p b s).
Proof.
  unfold TaskRepository.create.
  destruct data as [[[ti|] [p|] [b|]]|]; simpl; auto.
  destruct (JS.is_empty ti || (b =? 0)); simpl; auto.
  destruct (negb (Task.validate (Task.new None ti p b))); simpl; auto.
  right. exists ti, p, b. auto.
Qed.

(** *** Dense lists: taking the last position out, putting the next one in *)

Lemma dense_list_insert (P1 P2 : list Z) :
  dense_list (P1 ++ P2) ->
  dense_list (P1 ++ Z.of_nat (List.length (P1 ++ P2)) :: P2).
Proof.
  intros HP p. specialize (HP p).
  rewrite in_app_iff in *. simpl. rewrite !length_app in *. simpl.
  split.
  - intros [H|[H|H]]; [| lia |]; assert (Hp : In p P1 \/ In p P2) by tauto;
      apply HP in Hp; lia.
  - intros Hp.
    destruct (Z.eq_dec p (Z.of_nat (List.length P1 + List.length P2))) as [E|N].
    + right. left. now symmetry.
    + assert (Hin : In p P1 \/ In p P2) by (apply HP; lia). tauto.
Qed.

Lemma dense_list_remove (P1 P2 : list Z) (x : Z) :
  dense_list (P1 ++ x :: P2) ->
  x = Z.of_nat (List.length (P1 ++ x :: P2)) - 1 ->
  dense_list (P1 ++ P2).
Proof.
  intros HP Hx p.
  pose proof (NoDup_remove_2 _ _ _ (dense_list_NoDup _ HP)) as Hnotin.
  specialize (HP p).
  rewrite in_app_iff in *. simpl in HP. rewrite !length_app in *. simpl in *.
  split.
  - intros Hin.
    assert (Hp : 0 <= p < Z.of_nat (List.length P1 + S (List.length P2)))
      by (apply HP; tauto).
    assert (p <> x) by (intros ->; apply Hnotin; exact Hin).
    lia.
  - intros Hp.
    assert (Hin : In p P1 \/ x = p \/ In p P2) by (apply HP; lia).
    destruct Hin as [H|[H|H]]; [tauto | lia | tauto].
Qed.

(** *** A table split at the row of a given id *)

Lemma split_row (l : list row) (r : row) :
  NoDup (map row_id l) -> In r l ->
  exists l1 l2, l = (l1 ++ r :: l2)%list /\
                forall x, In x (l1 ++ l2) -> row_id x <> row_id r.
Proof.
  intros Hnd Hin. destruct (in_split _ _ Hin) as [l1 [l2 ->]].
  exists l1, l2. split; [reflexivity|].
  intros x Hx Heq. rewrite map_app in Hnd. simpl in Hnd.
  apply NoDup_remove_2 in Hnd. apply Hnd. rewrite <- map_app, <- Heq.
  now apply in_map.
Qed.

Lemma filter_all (f : row -> bool) (l : list row) :
  (forall x, In x l -> f x = true) -> filter f l = l.
Proof.
  induction l as [|x l IH]; intros H; simpl; [reflexivity|].
  rewrite (H x) by (simpl; auto). f_equal. apply IH. intros; apply H; simpl; auto.
Qed.

Lemma delete_split (l1 l2 : list row) (r : row) :
  (forall x, In x (l1 ++ l2) -> row_id x <> row_id r) ->
  filter (fun x => negb (has_id (row_id r) x)) (l1 ++ r :: l2) = (l1 ++ l2)%list.
Proof.
  intros H. rewrite filter_app. simpl.
  unfold has_id at 2. rewrite Z.eqb_refl. simpl.
  rewrite <- filter_app. apply filter_all.
  intros x Hx. apply negb_true_iff, has_id_false. now apply H.
Qed.

Lemma map_split (f : row -> row) (l1 l2 : list row) (r : row) :
  (forall x, In x (l1 ++ l2) -> f x = x) ->
  map f (l1 ++ r :: l2) = (l1 ++ f r :: l2)%list.
Proof.
  intros H. rewrite map_app. simpl.
  rewrite (map_id_on f l1) by (intros; apply H; apply in_app_iff; auto).
  rewrite (map_id_on f l2) by (intros; apply H; apply in_app_iff; auto).
  reflexivity.
Qed.

(** *** Appending at the number of items *)

Lemma dense_insert_task (ti : JS.jsstring) (b : Z) (s : store) :
  dense s -> dense (snd (insert_task ti (count_of b (rows s)) b s)).
Proof.
  intros Hd b0. apply dense_board_list. simpl.
  specialize (Hd b0). apply dense_board_list in Hd.
  rewrite positions_of_app.
  destruct (Z.eq_dec b b0) as [<-|N].
  - rewrite (positions_of_cons_in b) by reflexivity. simpl.
    rewrite <- positions_of_length.
    pose proof (dense_list_insert (positions_of b (rows s)) []) as Hins.
    rewrite app_nil_r in Hins. now apply Hins.
  - rewrite (positions_of_cons_out b0) by (simpl; exact N).
    unfold positions_of at 2. simpl. now rewrite app_nil_r.
Qed.

Lemma dense_create (ti : JS.jsstring) (b : Z) (s : store) :
  dense s ->
  dense (snd (TaskRepository.create
                (Some (TaskRepository.mkData (Some ti)
                         (Some (count_of b (rows s))) (Some b))) s)).
Proof.
  intros Hd.
  destruct (create_cases
              (Some (TaskRepository.mkData (Some ti)
                       (Some (count_of b (rows s))) (Some b))) s)
    as [->|[ti' [p' [b' [Heq ->]]]]]; [exact Hd|].
  injection Heq as <- <- <-. now apply dense_insert_task.
Qed.

(** *** Deleting the last item of a board *)

Lemma dense_delete (id : Z) (r : row) (s : store) :
  wf_store s -> dense s -> select_by_id id s = Some r ->
  row_position r = count_of (row_board_id r) (rows s) - 1 ->
  dense (snd (TaskRepository.delete id s)).
Proof.
  intros [Hnd _] Hd Hsel Hlast b0. simpl.
  destruct (select_by_id_some _ _ _ Hsel) as [Hin <-].
  destruct (split_row _ _ Hnd Hin) as [l1 [l2 [Hrows Hother]]].
  apply dense_board_list. specialize (Hd b0). apply dense_board_list in Hd.
  rewrite <- positions_of_length in Hlast.
  rewrite Hrows in *. rewrite (delete_split l1 l2 r Hother).
  rewrite positions_of_app in *.
  destruct (Z.eq_dec (row_board_id r) b0) as [E|N].
  - rewrite (positions_of_cons_in b0 r l2 E) in Hd.
    rewrite E, (positions_of_cons_in b0 r l2 E) in Hlast.
    now apply (dense_list_remove _ _ (row_position r)).
  - now rewrite (positions_of_cons_out b0 r l2 N) in Hd.
Qed.

(** *** Swapping two items of one board *)

Lemma board_write_position (p i : Z) (r : row) :
  row_board_id (write_position p i r) = row_board_id r.
Proof. unfold write_position. destruct (has_id i r); reflexivity. Qed.

Lemma dense_in_range (s : store) (r : row) :
  dense s -> In r (rows s) ->
  0 <= row_position r < count_of (row_board_id r) (rows s).
Proof.
  intros Hd Hin. apply (Hd (row_board_id r)). now apply position_in_board.
Qed.

Lemma dense_swap (a b : Z) (ra rb : row) (s : store) :
  wf_store s -> dense s ->
  select_by_id a s = Some ra -> select_by_id b s = Some rb ->
  row_board_id ra = row_board_id rb ->
  dense (snd (TaskRepository.reorder a b s)).
Proof.
  intros Hwf Hd Hsa Hsb Hboard.
  pose proof (wf_id_nonzero _ _ _ Hwf Hsa) as Ha.
  pose proof (wf_id_nonzero _ _ _ Hwf Hsb) as Hb.
  destruct (select_by_id_some _ _ _ Hsa) as [Hina Haid].
  destruct (select_by_id_some _ _ _ Hsb) as [Hinb Hbid].
  destruct Hwf as [Hnd _].
  rewrite (reorder_found a b ra rb s Ha Hb Hsa Hsb). simpl.
  pose proof (dense_in_range s ra Hd Hina) as Hra.
  pose proof (dense_in_range s rb Hd Hinb) as Hrb. rewrite <- Hboard in Hrb.
  intros b0. apply dense_board_list. simpl. rewrite map_map.
  pose proof (Hd b0) as Hd0. apply dense_board_list in Hd0.
  set (pa := row_position ra) in *. set (pb := row_position rb) in *.
  destruct (Z.eq_dec (row_board_id ra) b0) as [E|N].
  - pose (g := fun x => if x =? pa then pb else if x =? pb then pa else x).
    rewrite (positions_of_map _ g b0).
    + rewrite <- positions_of_length, E in Hra, Hrb.
      apply (dense_list_map g g); [exact Hd0 | |]; intros p Hp; unfold g;
        case_cmp.
    + intros r _. now rewrite !board_write_position.
    + intros r Hin Hb0. unfold g.
      destruct (Z.eq_dec (row_id r) a) as [Era|Nra].
      * assert (r = ra) by (apply (unique_id (rows s)); congruence). subst r.
        fold pa. rewrite Z.eqb_refl.
        rewrite (write_position_hit pb a ra Era).
        destruct (Z.eq_dec a b) as [Eab|Nab].
        -- assert (ra = rb) by (rewrite Eab in Hsa; congruence).
           rewrite write_position_hit by (simpl; congruence).
           simpl. unfold pa, pb. congruence.
        -- rewrite write_position_miss by (simpl; congruence). reflexivity.
      * rewrite (write_position_miss pb a r Nra).
        destruct (Z.eq_dec (row_id r) b) as [Erb|Nrb].
        -- assert (r = rb) by (apply (unique_id (rows s)); congruence). subst r.
           rewrite (write_position_hit pa b rb Erb). simpl. fold pb.
           rewrite Z.eqb_refl. now destruct (Z.eqb_spec pb pa).
        -- rewrite (write_position_miss pa b r Nrb).
           assert (Hpa : row_position r <> pa).
           { intros Hp. apply Nra. rewrite <- Haid. f_equal.
             apply (position_tells_row b0 (rows s));
               auto using dense_list_NoDup. }
           assert (Hpb : row_position r <> pb).
           { intros Hp. apply Nrb. rewrite <- Hbid. f_equal.
             apply (position_tells_row b0 (rows s));
               auto using dense_list_NoDup. congruence. }
           apply Z.eqb_neq in Hpa, Hpb. now rewrite Hpa, Hpb.
  - rewrite positions_of_map_same; [exact Hd0 | |].
    + intros r _. now rewrite !board_write_position.
    + intros r Hin Hb0.
      assert (Nra : row_id r <> a).
      { intros Era. apply N. rewrite <- Hb0. f_equal.
        apply (unique_id (rows s)); congruence. }
      assert (Nrb : row_id r <> b).
      { intros Erb. apply N. rewrite Hboard, <- Hb0. f_equal.
        apply (unique_id (rows s)); congruence. }
      now rewrite (write_position_miss pb a r Nra), (write_position_miss pa b r Nrb).
Qed.

(** *** Moving an item to a position below the number of items *)

Lemma board_increment_row (b lo hi : Z) (r : row) :
  row_board_id (increment_row b lo hi r) = row_board_id r.
Proof.
  unfold increment_row.
  destruct (in_board b r && (lo <=? row_position r) && (row_position r <? hi));
    reflexivity.
Qed.

Lemma board_decrement_row (b lo hi : Z) (r : row) :
  row_board_id (decrement_row b lo hi r) = row_board_id r.
Proof.
  unfold decrement_row.
  destruct (in_board b r && (lo <? row_position r) && (row_position r <=? hi));
    reflexivity.
Qed.

Lemma increment_row_other_board (b lo hi : Z) (r : row) :
  row_board_id r <> b -> increment_row b lo hi r = r.
Proof.
  intros H. unfold increment_row.
  assert (E : in_board b r = false) by (unfold in_board; now apply Z.eqb_neq).
  now rewrite E.
Qed.

Lemma decrement_row_other_board (b lo hi : Z) (r : row) :
  row_board_id r <> b -> decrement_row b lo hi r = r.
Proof.
  intros H. unfold decrement_row.
  assert (E : in_board b r = false) by (unfold in_board; now apply Z.eqb_neq).
  now rewrite E.
Qed.

Lemma position_increment_row (b lo hi : Z) (r : row) :
  row_board_id r = b ->
  row_position (increment_row b lo hi r)
  = if (lo <=? row_position r) && (row_position r <? hi)
    then row_position r + 1 else row_position r.
Proof.
  intros H. unfold increment_row. apply in_board_true in H. rewrite H. simpl.
  destruct ((lo <=? row_position r) && (row_position r <? hi)); reflexivity.
Qed.

Lemma position_decrement_row (b lo hi : Z) (r : row) :
  row_board_id r = b ->
  row_position (decrement_row b lo hi r)
  = if (lo <? row_position r) && (row_position r <=? hi)
    then row_position r - 1 else row_position r.
Proof.
  intros H. unfold decrement_row. apply in_board_true in H. rewrite H. simpl.
  destruct ((lo <? row_position r) && (row_position r <=? hi)); reflexivity.
Qed.

Lemma dense_move (id p : Z) (task : row) (s : store) :
  wf_store s -> dense s -> select_by_id id s = Some task ->
  0 <= p < count_of (row_board_id task) (rows s) ->
  dense (snd (TaskRepository.reorderByPosition id (Some p) s)).
Proof.
  intros Hwf Hd Hsel Hp.
  pose proof (wf_id_nonzero _ _ _ Hwf Hsel) as Hid.
  destruct (select_by_id_some _ _ _ Hsel) as [Hin Htid].
  destruct Hwf as [Hnd _].
  pose proof (dense_in_range s task Hd Hin) as Hold.
  set (old := row_position task) in *. set (b := row_board_id task) in *.
  assert (Htask : forall x, In x (rows s) -> row_id x = id -> x = task)
    by (intros x Hx Hxid; apply (unique_id (rows s)); congruence).
  assert (Hpos : forall x, In x (rows s) -> row_board_id x = b ->
                           row_id x <> id -> row_position x <> old).
  { intros x Hx Hxb Hxid Hxp. apply Hxid. rewrite <- Htid. f_equal.
    apply (position_tells_row b (rows s)); auto.
    apply dense_list_NoDup, dense_board_list, Hd. }
  destruct (Z.lt_trichotomy p old) as [Hlt|[Heq|Hgt]].
  - (* to a smaller position *)
    rewrite (reorderByPosition_up _ _ _ _ Hid Hsel Hlt). simpl.
    intros b0. apply dense_board_list. simpl. rewrite map_map. fold b old.
    pose proof (Hd b0) as Hd0. apply dense_board_list in Hd0.
    destruct (Z.eq_dec b b0) as [E|N].
    + pose (g := fun x => if x =? old then p
                          else if (p <=? x) && (x <? old) then x + 1 else x).
      pose (h := fun y => if y =? p then old
                          else if (p <? y) && (y <=? old) then y - 1 else y).
      rewrite (positions_of_map _ g b0).
      * rewrite <- positions_of_length, E in Hold, Hp.
        apply (dense_list_map g h); [exact Hd0 | |]; intros y Hy; unfold g, h;
          case_cmp.
      * intros x _. now rewrite board_write_position, board_increment_row.
      * intros x Hx Hxb. rewrite <- E in Hxb. unfold g.
        destruct (Z.eq_dec (row_id x) id) as [Exid|Nxid].
        -- rewrite (Htask x Hx Exid). fold old. rewrite Z.eqb_refl.
           rewrite write_position_hit by (now rewrite row_id_increment_row).
           reflexivity.
        -- rewrite write_position_miss by (now rewrite row_id_increment_row).
           rewrite (position_increment_row b p old x Hxb).
           pose proof (Hpos x Hx Hxb Nxid) as Hne.
           apply Z.eqb_neq in Hne. now rewrite Hne.
    + rewrite positions_of_map_same; [exact Hd0 | |].
      * intros x _. now rewrite board_write_position, board_increment_row.
      * intros x Hx Hxb.
        assert (Nxid : row_id x <> id).
        { intros Exid. apply N. rewrite <- Hxb. unfold b. f_equal.
          symmetry. now apply Htask. }
        rewrite write_position_miss by (now rewrite row_id_increment_row).
        rewrite increment_row_other_board; [reflexivity | congruence].
  - (* the position it has *)
    subst p. unfold old. now rewrite (reorderByPosition_same _ _ _ Hid Hsel).
  - (* to a larger position *)
    rewrite (reorderByPosition_down _ _ _ _ Hid Hsel Hgt). simpl.
    intros b0. apply dense_board_list. simpl. rewrite map_map. fold b old.
    pose proof (Hd b0) as Hd0. apply dense_board_list in Hd0.
    destruct (Z.eq_dec b b0) as [E|N].
    + pose (g := fun x => if x =? old then p
                          else if (old <? x) && (x <=? p) then x - 1 else x).
      pose (h := fun y => if y =? p then old
                          else if (old <=? y) && (y <? p) then y + 1 else y).
      rewrite (positions_of_map _ g b0).
      * rewrite <- positions_of_length, E in Hold, Hp.
        apply (dense_list_map g h); [exact Hd0 | |]; intros y Hy; unfold g, h;
          case_cmp.
      * intros x _. now rewrite board_write_position, board_decrement_row.
      * intros x Hx Hxb. rewrite <- E in Hxb. unfold g.
        destruct (Z.eq_dec (row_id x) id) as [Exid|Nxid].
        -- rewrite (Htask x Hx Exid). fold old. rewrite Z.eqb_refl.
           rewrite write_position_hit by (now rewrite row_id_decrement_row).
           reflexivity.
        -- rewrite write_position_miss by (now rewrite row_id_decrement_row).
           rewrite (position_decrement_row b old p x Hxb).
           pose proof (Hpos x Hx Hxb Nxid) as Hne.
           apply Z.eqb_neq in Hne. now rewrite Hne.
    + rewrite positions_of_map_same; [exact Hd0 | |].
      * intros x _. now rewrite board_write_position, board_decrement_row.
      * intros x Hx Hxb.
        assert (Nxid : row_id x <> id).
        { intros Exid. apply N. rewrite <- Hxb. unfold b. f_equal.
          symmetry. now apply Htask. }
        rewrite write_position_miss by (now rewrite row_id_decrement_row).
        rewrite decrement_row_other_board; [reflexivity | congruence].
Qed.

(** *** Moving the only item of a board to the tail of another board *)

Lemma max_position_spec (l : list row) :
  l <> [] ->
  exists m, max_position l = Some m /\ In m (map row_position l) /\
            forall x, In x (map row_position l) -> x <= m.
Proof.
  induction l as [|r l IH]; intros Hne; [contradiction|].
  destruct l as [|r' l'].
  - exists (row_position r). simpl. repeat split; auto.
    intros x [<-|[]]. lia.
  - destruct IH as [m [Hm [Hin Hmax]]]; [discriminate|].
    change (max_position (r :: r' :: l'))
      with (match max_position (r' :: l') with
            | None => Some (row_position r)
            | Some m' => Some (Z.max (row_position r) m')
            end).
    rewrite Hm. exists (Z.max (row_position r) m). split; [reflexivity|]. split.
    + change (map row_position (r :: r' :: l'))
        with (row_position r :: map row_position (r' :: l')).
      destruct (Z.max_spec (row_position r) m) as [[_ ->]|[_ ->]];
        [right; exact Hin | left; reflexivity].
    + intros x Hx.
      change (map row_position (r :: r' :: l'))
        with (row_position r :: map row_position (r' :: l')) in Hx.
      destruct Hx as [<-|Hx]; [lia|]. apply Hmax in Hx. lia.
Qed.

(** Appending into a dense board that has items lands on their number. *)
Lemma append_position_dense (q : Z) (s : store) :
  dense_board (rows s) q -> 0 < count_of q (rows s) ->
  select_coalesce_max_position q s + 1 = count_of q (rows s).
Proof.
  intros Hd Hpos. unfold select_coalesce_max_position.
  destruct (max_position_spec (filter (in_board q) (rows s)))
    as [m [Hm [Hin Hmax]]].
  - intros E. unfold count_of in Hpos. rewrite E in Hpos. simpl in Hpos. lia.
  - rewrite Hm. simpl. fold (positions_of q (rows s)) in Hin, Hmax.
    apply Hd in Hin.
    assert (Hlast : In (count_of q (rows s) - 1) (positions_of q (rows s)))
      by (apply Hd; lia).
    apply Hmax in Hlast. lia.
Qed.

Lemma remaining_nil (b t : Z) (s : store) :
  remaining b t s = [] ->
  filter (fun r => in_board b r && negb (has_id t r)) (rows s) = [].
Proof.
  unfold remaining. intros H. apply map_eq_nil in H.
  apply Permutation_nil. rewrite <- H. apply order_by_position_perm.
Qed.

Lemma dense_relocate (t q : Z) (np : option Z) (task : row) (s : store) :
  wf_store s -> dense s -> select_by_id t s = Some task -> q <> 0 ->
  row_board_id task <> q -> remaining (row_board_id task) t s = [] ->
  match np with
  | Some p => p = count_of q (rows s)
  | None => 0 < count_of q (rows s)
  end ->
  dense (snd (TaskRepository.moveToBoard t q np s)).
Proof.
  intros Hwf Hd Hsel Hq Hne Hrem Hnp.
  pose proof (wf_id_nonzero _ _ _ Hwf Hsel) as Ht.
  destruct (select_by_id_some _ _ _ Hsel) as [Hin Htid].
  destruct Hwf as [Hnd _].
  rewrite (moveToBoard_found t q np task s Ht Hq Hsel Hne). simpl.
  rewrite Hrem. simpl.
  set (p := match np with
            | Some p => p
            | None => select_coalesce_max_position q s + 1
            end).
  assert (Hp : p = count_of q (rows s)).
  { unfold p. destruct np as [p'|]; [exact Hnp|].
    apply append_position_dense; [apply Hd | exact Hnp]. }
  clearbody p. subst p.
  set (f := fun r => if has_id t r
                     then set_board_position q (count_of q (rows s)) r else r).
  intros b0. apply dense_board_list. unfold update_board_position. simpl.
  destruct (Z.eq_dec b0 (row_board_id task)) as [Eold|Nold].
  - (* the board left behind is empty *)
    subst b0. unfold positions_of.
    rewrite (filter_after_leave _ q _ t (rows s) Hne).
    rewrite (remaining_nil _ _ _ Hrem). simpl. intros x. simpl. split; [tauto | lia].
  - destruct (split_row _ _ Hnd Hin) as [l1 [l2 [Hrows Hother]]].
    pose proof (Hd b0) as Hd0. apply dense_board_list in Hd0.
    assert (Hmap : map f (rows s)
                   = (l1 ++ set_board_position q (count_of q (rows s)) task :: l2)%list).
    { rewrite Hrows at 1. rewrite (map_split f l1 l2 task).
      - unfold f. apply has_id_true in Htid. now rewrite Htid.
      - intros x Hx. unfold f.
        assert (E : has_id t x = false)
          by (apply has_id_false; rewrite <- Htid; now apply Hother).
        now rewrite E. }
    fold f. rewrite Hmap. rewrite Hrows in Hd0 at 1.
    rewrite positions_of_app in *.
    rewrite (positions_of_cons_out b0 task l2) in Hd0 by congruence.
    destruct (Z.eq_dec b0 q) as [Eq|Nq].
    + subst b0. rewrite (positions_of_cons_in q) by reflexivity. simpl.
      assert (Hlen : count_of q (rows s)
                     = Z.of_nat (List.length (positions_of q l1 ++ positions_of q l2))).
      { rewrite <- positions_of_length. rewrite Hrows at 1.
        rewrite positions_of_app, (positions_of_cons_out q task l2) by congruence.
        reflexivity. }
      rewrite Hlen. now apply dense_list_insert.
    + rewrite (positions_of_cons_out b0) by (simpl; congruence). exact Hd0.
Qed.

(** *** Every step keeps the table well formed and dense *)

Lemma ledger_step_wf (s s' : store) :
  wf_store s -> ledger_step s s' -> wf_store s'.
Proof.
  intros Hwf Hstep. destruct Hstep as [ti b|id r _ _|a b ra rb Hsa Hsb _
                                      |id p r Hsel _|t q np task Hsel Hq Hne _ _].
  - match goal with |- wf_store (snd (TaskRepository.create ?d s)) =>
      destruct (create_cases d s) as [->|[ti' [p' [b' [_ ->]]]]]
    end; [exact Hwf | now apply wf_insert_task].
  - now apply wf_delete_by_id.
  - rewrite (reorder_found a b ra rb s (wf_id_nonzero _ _ _ Hwf Hsa)
               (wf_id_nonzero _ _ _ Hwf Hsb) Hsa Hsb).
    simpl. now apply wf_update_position, wf_update_position.
  - pose proof (wf_id_nonzero _ _ _ Hwf Hsel) as Hid.
    destruct (Z.lt_trichotomy p (row_position r)) as [Hlt|[Heq|Hgt]].
    + rewrite (reorderByPosition_up _ _ _ _ Hid Hsel Hlt). simpl.
      now apply wf_update_position, wf_increment_range.
    + subst p. now rewrite (reorderByPosition_same _ _ _ Hid Hsel).
    + rewrite (reorderByPosition_down _ _ _ _ Hid Hsel Hgt). simpl.
      now apply wf_update_position, wf_decrement_range.
  - rewrite (moveToBoard_found t q np task s (wf_id_nonzero _ _ _ Hwf Hsel)
               Hq Hsel Hne).
    simpl. now apply wf_forEach_renumber, wf_update_board_position.
Qed.

Lemma ledger_step_dense (s s' : store) :
  wf_store s -> dense s -> ledger_step s s' -> dense s'.
Proof.
  intros Hwf Hd Hstep. destruct Hstep.
  - now apply dense_create.
  - eapply dense_delete; eassumption.
  - eapply dense_swap; eassumption.
  - eapply dense_move; eassumption.
  - eapply dense_relocate; eassumption.
Qed.

(** A position below the number of items that no item holds refutes
    density. *)
Lemma not_dense (s : store) (b p : Z) :
  0 <= p < count_of b (rows s) -> ~ In p (positions_of b (rows s)) -> ~ dense s.
Proof. intros Hp Hnot Hd. apply Hnot. now apply (Hd b). Qed.

(** C1, as the specification words it, fails: from the dense board A, B, C
    one [delete] (of A), one [create] (of D at position 1, which is at most
    the number of items) and one [moveToBoard] (of A to the empty board 2)
    each leave board 1 not dense. *)
Lemma density_counterexample :
  wf_store abc /\ dense abc /\
  ~ dense (snd (TaskRepository.delete 1 abc)) /\
  ~ dense (snd (TaskRepository.create
                  (Some (TaskRepository.mkData (Some (JS.lit "D")) (Some 1) (Some 1)))
                  abc)) /\
  ~ dense (snd (TaskRepository.moveToBoard 1 2 None abc)).
Proof.
  split; [exact abc_wf|]. split; [exact abc_dense|]. repeat split.
  - apply (not_dense _ 1 0); [vm_compute; split; [discriminate | reflexivity]|].
    vm_compute. intros [H|[H|[]]]; discriminate.
  - apply (not_dense _ 1 3); [vm_compute; split; [discriminate | reflexivity]|].
    vm_compute. intros [H|[H|[H|[H|[]]]]]; discriminate.
  - apply (not_dense _ 1 0); [vm_compute; split; [discriminate | reflexivity]|].
    vm_compute. intros [H|[H|[]]]; discriminate.
Qed.

(** C1 (amended): starting from a well-formed table in which every board
    is dense, after any sequence of the operations
    - [create] at the position that is the number of items of the board,
    - [delete] of the item that holds the last position of its board,
    - [reorder] of two items of one board,
    - [reorderByPosition] to a position below the number of items,
    - [moveToBoard] of an item that is alone in its board, to the tail of
      another board,
    the table is well formed and every board is dense again. *)
Theorem density_invariant (s s' : store) :
  wf_store s -> dense s -> ledger_steps s s' -> wf_store s' /\ dense s'.
Proof.
  intros Hwf Hd Hsteps. induction Hsteps as [s|s s1 s2 Hstep _ IH].
  - split; assumption.
  - apply IH.
    + exact (ledger_step_wf s s1 Hwf Hstep).
    + exact (ledger_step_dense s s1 Hwf Hd Hstep).
Qed.

Lemma density_invariant_witness :
  dense (snd (TaskRepository.delete 1
                (snd (TaskRepository.reorderByPosition 1 (Some 2) abc)))).
Proof.
  refine (proj2 (density_invariant abc _ abc_wf abc_dense _)).
  refine (steps_cons _ _ _ (step_move abc 1 2 (mkRow 1 "A" 0 1) _ _) _).
  - reflexivity.
  - vm_compute. split; [discriminate | reflexivity].
  - refine (steps_cons _ _ _ (step_delete _ 1 (mkRow 1 "A" 2 1) _ _) _).
    + reflexivity.
    + reflexivity.
    + apply steps_nil.
Defined.

End Density.

(* ------------------------------------------------------------------ *)
(** ** Further properties of the repository: [create], [update], [delete] *)

Section RepositoryOutcomes.

Lemma validate_true_iff (id : option Z) (ti : JS.jsstring) (p b : Z) :
  Task.validate (Task.new id ti p b) = true
  <-> ti <> [] /\ JS.trim ti <> [] /\ 0 <= p /\ 0 < b.
Proof.
  unfold Task.validate, Task.new. simpl.
  rewrite !andb_true_iff, !negb_true_iff, !is_empty_false, Z.leb_le, Z.ltb_lt.
  tauto.
Qed.

(** X1: [create] succeeds exactly on a payload with a title that is not
    blank, a position [>= 0] and a board id [> 0]; every failure leaves
    the table as it was, with the message for a missing field when the
    payload, the title, the position or the board id is missing (an empty
    title and a board id 0 count as missing) and the message for invalid
    data otherwise. *)
Theorem create_outcomes (data : option TaskRepository.task_data) (s : store) :
  ((exists task, fst (TaskRepository.create data s) = Ok task) <->
   (exists ti p b,
      data = Some (TaskRepository.mkData (Some ti) (Some p) (Some b)) /\
      JS.trim ti <> [] /\ 0 <= p /\ 0 < b)) /\
  (forall e, fst (TaskRepository.create data s) = Err e ->
     snd (TaskRepository.create data s) = s) /\
  (fst (TaskRepository.create data s) = Err "Invalid task data" <->
   (exists ti p b,
      data = Some (TaskRepository.mkData (Some ti) (Some p) (Some b)) /\
      ti <> [] /\ b <> 0 /\ (JS.trim ti = [] \/ p < 0 \/ b < 0))).
Proof.
  unfold TaskRepository.create.
  destruct data as [[[ti|] [p|] [b|]]|]; simpl;
    try (split; [split; [intros [? H]; discriminate
                        | intros [? [? [? [H _]]]]; discriminate]
                | split; [reflexivity
                         | split; [discriminate
                                  | intros [? [? [? [H _]]]]; discriminate]]]).
  destruct (is_empty_spec ti); simpl.
  { split; [split; [intros [? H]; discriminate|]|].
    - intros [ti' [p' [b' [H [Ht _]]]]]. injection H as <- <- <-.
      subst ti. now elim Ht.
    - split; [reflexivity|]. split; [discriminate|].
      intros [ti' [p' [b' [H [Ht _]]]]]. injection H as <- <- <-. contradiction. }
  destruct (Z.eqb_spec b 0); simpl.
  { split; [split; [intros [? H]; discriminate|]|].
    - intros [ti' [p' [b' [H [_ [_ Hb]]]]]]. injection H as <- <- <-. lia.
    - split; [reflexivity|]. split; [discriminate|].
      intros [ti' [p' [b' [H [_ [Hb _]]]]]]. injection H as <- <- <-.
      contradiction. }
  destruct (Task.validate (Task.new None ti p b)) eqn:Ev; simpl.
  - apply validate_true_iff in Ev. destruct Ev as [_ [Ht [Hp Hb]]].
    split; [split|].
    + intros _. exists ti, p, b. auto.
    + intros _. eexists. reflexivity.
    + split; [discriminate|]. split; [discriminate|].
      intros [ti' [p' [b' [H [_ [_ Hc]]]]]]. injection H as <- <- <-.
      destruct Hc as [Hc|[Hc|Hc]]; [contradiction | lia | lia].
  - split; [split|].
    + intros [? H]. discriminate.
    + intros [ti' [p' [b' [H Hc]]]]. injection H as <- <- <-.
      assert (Hv : Task.validate (Task.new None ti p b) = true)
        by (apply validate_true_iff; tauto).
      congruence.
    + split; [reflexivity|]. split; [|reflexivity].
      intros _. exists ti, p, b. repeat split; try assumption.
      destruct (is_empty_spec (JS.trim ti)); [now left|].
      destruct (Z.ltb_spec p 0); [right; now left|].
      destruct (Z.ltb_spec b 0); [right; now right|].
      exfalso. assert (Hv : Task.validate (Task.new None ti p b) = true)
        by (apply validate_true_iff; repeat split; try assumption; lia).
      congruence.
Qed.

Lemma create_outcomes_witness :
  fst (TaskRepository.create
         (Some (TaskRepository.mkData (Some [160%N; 32%N]) (Some 0) (Some 1))) abc)
  = Err "Invalid task data".
Proof.
  apply (proj2 (proj2 (create_outcomes
    (Some (TaskRepository.mkData (Some [160%N; 32%N]) (Some 0) (Some 1))) abc))).
  exists [160%N; 32%N], 0, 1. repeat split; try discriminate.
  left. reflexivity.
Defined.

Lemma find_app_split (f : row -> bool) (l l' : list row) :
  find f (l ++ l') = match find f l with
                     | Some x => Some x
                     | None => find f l'
                     end.
Proof.
  induction l as [|x l IH]; simpl; [reflexivity|].
  destruct (f x); [reflexivity | exact IH].
Qed.

(** X2: Insert, then look up: for a title that is not blank and has no
    unpaired surrogate, the id [create] hands out named no item before,
    names the created item afterwards, and every other lookup answers as
    before. *)
Theorem create_then_getById (ti : JS.jsstring) (p b : Z) (s : store) :
  JS.trim ti <> [] -> JS.well_formed ti = true -> 0 <= p -> 0 < b ->
  let out := TaskRepository.create
               (Some (TaskRepository.mkData (Some ti) (Some p) (Some b))) s in
  TaskRepository.getById (next_id s) s = Ok None /\
  (exists task, fst out = Ok task /\ Task._id task = Some (next_id s) /\
                TaskRepository.getById (next_id s) (snd out) = Ok (Some task)) /\
  (forall j, j <> next_id s ->
     TaskRepository.getById j (snd out) = TaskRepository.getById j s).
Proof.
  intros Hti _ Hp Hb out. subst out. rewrite (create_valid ti p b s Hti Hp Hb).
  simpl. unfold TaskRepository.getById, select_by_id. simpl.
  rewrite (next_id_fresh s). split; [reflexivity|]. split.
  - eexists. split; [reflexivity|]. split; [reflexivity|].
    rewrite find_app_split, (next_id_fresh s). simpl.
    unfold has_id. simpl. now rewrite Z.eqb_refl.
  - intros j Hj. rewrite find_app_split.
    destruct (find (has_id j) (rows s)); [reflexivity|]. simpl.
    unfold has_id. simpl.
    assert (E : (next_id s =? j) = false) by (apply Z.eqb_neq; congruence).
    now rewrite E.
Qed.

Lemma create_then_getById_witness :
  TaskRepository.getById 4
    (snd (TaskRepository.create
            (Some (TaskRepository.mkData (Some (JS.lit "D")) (Some 3) (Some 1))) abc))
  = Ok (Some (Task.mkTask (Some 4) "D" 3 1)).
Proof.
  assert (Ht : JS.trim (JS.lit "D") <> []) by (vm_compute; discriminate).
  assert (Hw : JS.well_formed (JS.lit "D") = true) by reflexivity.
  assert (Hp : 0 <= 3) by lia.
  assert (Hb : 0 < 1) by lia.
  destruct (create_then_getById "D" 3 1 abc Ht Hw Hp Hb)
    as [_ [[task [Hok [_ Hget]]] _]].
  vm_compute in Hok. injection Hok as <-. exact Hget.
Defined.

(** What [update] does with a payload that passes its checks. *)
Lemma update_valid (id : Z) (ti : JS.jsstring) (p b : Z) (s : store) :
  JS.trim ti <> [] -> 0 <= p -> 0 < b ->
  TaskRepository.update id
    (Some (TaskRepository.mkData (Some ti) (Some p) (Some b))) s
  = (Ok (Task.mkTask (Some id) ti p b), update_task ti p b id s).
Proof.
  intros Hti Hp Hb. unfold TaskRepository.update. simpl.
  apply not_blank_not_empty in Hti as Hne. apply is_empty_false in Hne.
  rewrite Hne. simpl.
  assert (Hb0 : (b =? 0) = false) by (apply Z.eqb_neq; lia). rewrite Hb0.
  now rewrite (validate_true (Some id) ti p b Hti Hp Hb).
Qed.

(** X3: [update] of an existing item, with a title that is not blank and
    has no unpaired surrogate, rewrites its title, position and board to
    the values given, whatever position and board they are (no other item
    is renumbered), and leaves every other item, the ids and the number of
    rows as they were. *)
Theorem update_rewrites_one_row
  (id : Z) (r : row) (ti : JS.jsstring) (p b : Z) (s : store) :
  JS.trim ti <> [] -> JS.well_formed ti = true -> 0 <= p -> 0 < b ->
  select_by_id id s = Some r ->
  let out := TaskRepository.update id
               (Some (TaskRepository.mkData (Some ti) (Some p) (Some b))) s in
  fst out = Ok (Task.mkTask (Some id) ti p b) /\
  TaskRepository.getById id (snd out)
  = Ok (Some (Task.mkTask (Some id) ti p b)) /\
  (forall j, j <> id -> select_by_id j (snd out) = select_by_id j s) /\
  map row_id (rows (snd out)) = map row_id (rows s).
Proof.
  intros Hti _ Hp Hb Hsel out. subst out.
  rewrite (update_valid id ti p b s Hti Hp Hb). simpl.
  destruct (select_by_id_some _ _ _ Hsel) as [_ Hid].
  assert (Hkeep : forall x, row_id (if has_id id x
                                    then mkRow (row_id x) ti p b else x)
                            = row_id x)
    by (intros x; destruct (has_id id x); reflexivity).
  split; [reflexivity|]. split; [|split].
  - unfold TaskRepository.getById, select_by_id, update_task. simpl.
    rewrite (find_map_keep_id _ id _ Hkeep).
    unfold select_by_id in Hsel. rewrite Hsel. simpl.
    apply has_id_true in Hid as Hh. rewrite Hh. simpl. now rewrite Hid.
  - intros j Hj. unfold select_by_id, update_task. simpl.
    rewrite (find_map_keep_id _ j _ Hkeep).
    destruct (find (has_id j) (rows s)) as [x|] eqn:E; [|reflexivity].
    simpl. apply find_some in E. destruct E as [_ Ex]. apply has_id_true in Ex.
    assert (Hh : has_id id x = false) by (apply has_id_false; congruence).
    now rewrite Hh.
  - rewrite map_map. apply map_ext. exact Hkeep.
Qed.

Lemma update_rewrites_one_row_witness :
  TaskRepository.getById 2
    (snd (TaskRepository.update 2
            (Some (TaskRepository.mkData (Some (JS.lit "B2")) (Some 0) (Some 7))) abc))
  = Ok (Some (Task.mkTask (Some 2) "B2" 0 7)).
Proof.
  refine (proj1 (proj2 (update_rewrites_one_row 2 (mkRow 2 "B" 1 1) "B2" 0 7 abc
                          _ _ _ _ _))).
  - vm_compute. discriminate.
  - reflexivity.
  - lia.
  - lia.
  - reflexivity.
Defined.

(** X4: [update] of an id that names no item reports success all the same,
    with a task carrying that id, and changes nothing. *)
Theorem update_missing_id_reports_success
  (id : Z) (ti : JS.jsstring) (p b : Z) (s : store) :
  JS.trim ti <> [] -> 0 <= p -> 0 < b -> select_by_id id s = None ->
  TaskRepository.update id
    (Some (TaskRepository.mkData (Some ti) (Some p) (Some b))) s
  = (Ok (Task.mkTask (Some id) ti p b), s).
Proof.
  intros Hti Hp Hb Hsel. rewrite (update_valid id ti p b s Hti Hp Hb).
  f_equal. unfold update_task. rewrite map_id_on; [apply with_rows_same|].
  intros x Hx. unfold select_by_id in Hsel.
  now rewrite (find_none _ _ Hsel x Hx).
Qed.

Lemma update_missing_id_reports_success_witness :
  TaskRepository.update 9
    (Some (TaskRepository.mkData (Some (JS.lit "Z")) (Some 0) (Some 1))) abc
  = (Ok (Task.mkTask (Some 9) "Z" 0 1), abc).
Proof.
  apply update_missing_id_reports_success.
  - vm_compute. discriminate.
  - lia.
  - lia.
  - reflexivity.
Defined.

(** X5: [delete] of an id that names no item reports success and changes
    nothing, and a second [delete] of one id changes nothing more. *)
Theorem delete_missing_and_twice (id : Z) (s : store) :
  (select_by_id id s = None -> TaskRepository.delete id s = (Ok tt, s)) /\
  TaskRepository.delete id (snd (TaskRepository.delete id s))
  = TaskRepository.delete id s.
Proof.
  split.
  - intros Hsel. unfold TaskRepository.delete, delete_by_id. f_equal.
    rewrite filter_all; [apply with_rows_same|].
    intros x Hx. unfold select_by_id in Hsel.
    now rewrite (find_none _ _ Hsel x Hx).
  - unfold TaskRepository.delete, delete_by_id, with_rows. simpl. f_equal. f_equal.
    apply filter_all. intros x Hx. apply filter_In in Hx. tauto.
Qed.

Lemma delete_missing_and_twice_witness :
  TaskRepository.delete 9 abc = (Ok tt, abc).
Proof.
  apply (proj1 (delete_missing_and_twice 9 abc)). reflexivity.
Defined.

End RepositoryOutcomes.

(* ------------------------------------------------------------------ *)
(** ** When [create] and [delete] keep a board dense *)

Section DensityCriteria.

(** X7: On a dense table, [create] leaves the table dense exactly when the
    position given is the number of items of the board: a smaller one
    doubles a position, a larger one leaves a gap. *)
Theorem create_keeps_density_iff (ti : JS.jsstring) (p b : Z) (s : store) :
  dense s -> JS.trim ti <> [] -> 0 <= p -> 0 < b ->
  (dense (snd (TaskRepository.create
                 (Some (TaskRepository.mkData (Some ti) (Some p) (Some b))) s))
   <-> p = count_of b (rows s)).
Proof.
  intros Hd Hti Hp Hb. split.
  - rewrite (create_valid ti p b s Hti Hp Hb). simpl. intros Hd'.
    specialize (Hd' b). apply dense_board_list in Hd'. simpl in Hd'.
    rewrite positions_of_app, (positions_of_cons_in b) in Hd' by reflexivity.
    simpl in Hd'. unfold positions_of at 2 in Hd'. simpl in Hd'.
    specialize (Hd b). apply dense_board_list in Hd.
    rewrite <- positions_of_length.
    set (P := positions_of b (rows s)) in *.
    assert (Hlast : In (Z.of_nat (List.length P)) (P ++ [p])).
    { apply Hd'. rewrite length_app. simpl. lia. }
    apply in_app_iff in Hlast. destruct Hlast as [Hin|[Heq|[]]].
    + apply Hd in Hin. lia.
    + now symmetry.
  - intros ->. now apply dense_create.
Qed.

Lemma create_keeps_density_iff_witness :
  dense (snd (TaskRepository.create
                (Some (TaskRepository.mkData (Some (JS.lit "D")) (Some 3) (Some 1))) abc)).
Proof.
  refine (proj2 (create_keeps_density_iff "D" 3 1 abc abc_dense _ _ _) _).
  - vm_compute. discriminate.
  - lia.
  - lia.
  - reflexivity.
Defined.

(** X8: On a well-formed dense table, [delete] of an existing item leaves the
    table dense exactly when the item holds the last position of its
    board: nothing closes the gap another item would leave. *)
Theorem delete_keeps_density_iff (id : Z) (r : row) (s : store) :
  wf_store s -> dense s -> select_by_id id s = Some r ->
  (dense (snd (TaskRepository.delete id s))
   <-> row_position r = count_of (row_board_id r) (rows s) - 1).
Proof.
  intros Hwf Hd Hsel. split; [|now apply (dense_delete id r s)].
  intros Hd'. simpl in Hd'.
  destruct (select_by_id_some _ _ _ Hsel) as [Hin Hid]. subst id.
  pose proof (dense_in_range s r Hd Hin) as Hrange.
  destruct Hwf as [Hnd _].
  destruct (split_row _ _ Hnd Hin) as [l1 [l2 [Hrows Hother]]].
  set (b := row_board_id r) in *.
  specialize (Hd' b). apply dense_board_list in Hd'.
  specialize (Hd b). apply dense_board_list in Hd.
  rewrite <- positions_of_length in *.
  simpl in Hd'. rewrite Hrows in *. rewrite (delete_split l1 l2 r Hother) in Hd'.
  rewrite positions_of_app in *.
  rewrite (positions_of_cons_in b r l2 eq_refl) in *.
  set (P1 := positions_of b l1) in *. set (P2 := positions_of b l2) in *.
  destruct (Z.eq_dec (row_position r)
              (Z.of_nat (List.length (P1 ++ row_position r :: P2)) - 1))
    as [E|N]; [exact E|]. exfalso.
  assert (Hlast : In (Z.of_nat (List.length (P1 ++ row_position r :: P2)) - 1)
                     (P1 ++ row_position r :: P2)) by (apply Hd; lia).
  assert (Hlast' : In (Z.of_nat (List.length (P1 ++ row_position r :: P2)) - 1)
                      (P1 ++ P2)).
  { rewrite in_app_iff in *. simpl in Hlast.
    destruct Hlast as [H|[H|H]]; [now left | congruence | now right]. }
  apply Hd' in Hlast'. rewrite !length_app in Hlast'. simpl in Hlast'. lia.
Qed.

Lemma delete_keeps_density_iff_witness :
  dense (snd (TaskRepository.delete 3 abc)).
Proof.
  refine (proj2 (delete_keeps_density_iff 3 (mkRow 3 "C" 2 1) abc
                   abc_wf abc_dense _) _); reflexivity.
Defined.

End DensityCriteria.

(* ------------------------------------------------------------------ *)
(** ** Further properties of [reorder] *)

Section ReorderMore.

(** X9: [reorder] succeeds exactly when both ids are non-zero and name items;
    every failure leaves the table as it was; a missing first item is
    reported before a missing second one, and a zero id before both. *)
Theorem reorder_outcomes (a b : Z) (s : store) :
  (fst (TaskRepository.reorder a b s) = Ok tt <->
   a <> 0 /\ b <> 0 /\ select_by_id a s <> None /\ select_by_id b s <> None) /\
  (forall e, fst (TaskRepository.reorder a b s) = Err e ->
     snd (TaskRepository.reorder a b s) = s) /\
  (a = 0 \/ b = 0 ->
     fst (TaskRepository.reorder a b s) = Err "Both task IDs are required") /\
  (a <> 0 -> b <> 0 -> select_by_id a s = None ->
     fst (TaskRepository.reorder a b s) = Err "Task 1 not found") /\
  (a <> 0 -> b <> 0 -> select_by_id a s <> None -> select_by_id b s = None ->
     fst (TaskRepository.reorder a b s) = Err "Task 2 not found").
Proof.
  unfold TaskRepository.reorder.
  destruct (Z.eqb_spec a 0) as [Ea|Na]; simpl.
  { repeat split; try tauto; try discriminate; try reflexivity. }
  destruct (Z.eqb_spec b 0) as [Eb|Nb]; simpl.
  { repeat split; try tauto; try discriminate; try reflexivity. }
  destruct (select_by_id a s) as [ra|]; simpl.
  - destruct (select_by_id b s) as [rb|]; simpl.
    + repeat split; try tauto; try discriminate.
    + repeat split; try tauto; try discriminate; try reflexivity.
  - repeat split; try tauto; try discriminate; try reflexivity.
Qed.

Lemma reorder_outcomes_witness :
  fst (TaskRepository.reorder 9 8 abc) = Err "Task 1 not found".
Proof.
  apply (proj1 (proj2 (proj2 (proj2 (reorder_outcomes 9 8 abc))))).
  - lia.
  - lia.
  - reflexivity.
Defined.

Lemma write_position_commute (p q i j : Z) (r : row) :
  (i = j -> p = q) ->
  write_position p i (write_position q j r)
  = write_position q j (write_position p i r).
Proof.
  intros H. destruct (Z.eq_dec (row_id r) i) as [Ei|Ni];
    destruct (Z.eq_dec (row_id r) j) as [Ej|Nj].
  - assert (p = q) by (apply H; congruence). subst q i j. reflexivity.
  - rewrite (write_position_miss q j r Nj).
    rewrite (write_position_miss q j (write_position p i r))
      by (rewrite row_id_write_position; exact Nj).
    reflexivity.
  - rewrite (write_position_miss p i r Ni).
    rewrite (write_position_miss p i (write_position q j r))
      by (rewrite row_id_write_position; exact Ni).
    reflexivity.
  - now rewrite (write_position_miss q j r Nj), (write_position_miss p i r Ni),
      (write_position_miss q j r Nj).
Qed.

(** X10: [reorder] leaves the same table whichever of the two ids comes first,
    and on a well-formed table the [reorder] of an item with itself
    changes nothing. *)
Theorem reorder_symmetric_and_self (a b : Z) (s : store) :
  snd (TaskRepository.reorder a b s) = snd (TaskRepository.reorder b a s) /\
  (wf_store s -> select_by_id a s <> None ->
   TaskRepository.reorder a a s = (Ok tt, s)).
Proof.
  split.
  - unfold TaskRepository.reorder. rewrite (orb_comm (b =? 0)).
    destruct ((a =? 0) || (b =? 0)); [reflexivity|].
    destruct (select_by_id a s) as [ra|] eqn:Ha;
      destruct (select_by_id b s) as [rb|] eqn:Hb; try reflexivity.
    simpl. unfold update_position, with_rows. simpl. f_equal.
    rewrite !map_map. apply map_ext. intros r.
    apply write_position_commute. intros ->. congruence.
  - intros Hwf Hex. destruct (select_by_id a s) as [ra|] eqn:Ha; [|contradiction].
    pose proof (wf_id_nonzero _ _ _ Hwf Ha) as Hne.
    rewrite (reorder_found a a ra ra s Hne Hne Ha Ha). f_equal.
    unfold update_position, with_rows. simpl. rewrite map_map.
    rewrite map_id_on; [now destruct s|].
    intros r Hin. destruct Hwf as [Hnd _].
    destruct (select_by_id_some _ _ _ Ha) as [Hina Hida].
    destruct (Z.eq_dec (row_id r) a) as [E|N].
    + assert (r = ra) by (apply (unique_id (rows s)); congruence). subst r.
      rewrite (write_position_hit _ a ra E).
      rewrite write_position_hit by (simpl; exact E).
      exact (set_position_same ra).
    + now rewrite !(write_position_miss _ a r N).
Qed.

Lemma reorder_symmetric_and_self_witness :
  TaskRepository.reorder 2 2 abc = (Ok tt, abc).
Proof.
  apply (proj2 (reorder_symmetric_and_self 2 2 abc) abc_wf).
  vm_compute. discriminate.
Defined.

End ReorderMore.

(* ------------------------------------------------------------------ *)
(** ** Moving an item and moving it back *)

Section MoveRoundTrip.

Lemma increment_row_outside (b lo hi : Z) (r : row) :
  hi <= row_position r -> increment_row b lo hi r = r.
Proof.
  intros H. unfold increment_row.
  assert (E : (row_position r <? hi) = false) by (apply Z.ltb_ge; exact H).
  now rewrite E, andb_false_r.
Qed.

Lemma decrement_row_outside (b lo hi : Z) (r : row) :
  row_position r <= lo -> decrement_row b lo hi r = r.
Proof.
  intros H. unfold decrement_row.
  assert (E : (lo <? row_position r) = false) by (apply Z.ltb_ge; exact H).
  now rewrite E, andb_false_r.
Qed.

Lemma set_position_back (x y : Z) (r : row) :
  x = row_position r -> set_position x (set_position y r) = r.
Proof. intros ->. destruct r; reflexivity. Qed.

(** Shifting a range up and down again gives the row back, unless the
    row sits at the end the second shift reaches and the first does
    not. *)
Lemma decrement_increment (b lo hi : Z) (r : row) :
  (row_board_id r = b -> row_position r <> hi) ->
  decrement_row b lo hi (increment_row b lo hi r) = r.
Proof.
  intros H. destruct (Z.eq_dec (row_board_id r) b) as [E|N].
  - specialize (H E). apply in_board_true in E as Eb.
    unfold increment_row. rewrite Eb. simpl.
    destruct ((lo <=? row_position r) && (row_position r <? hi)) eqn:Ec.
    + apply andb_true_iff in Ec. destruct Ec as [E1 E2].
      apply Z.leb_le in E1. apply Z.ltb_lt in E2.
      unfold decrement_row, in_board. simpl. fold (in_board b r). rewrite Eb.
      assert (E3 : (lo <? row_position r + 1) = true) by (apply Z.ltb_lt; lia).
      assert (E4 : (row_position r + 1 <=? hi) = true) by (apply Z.leb_le; lia).
      rewrite E3, E4. simpl. apply set_position_back. lia.
    + unfold decrement_row. rewrite Eb. simpl.
      destruct ((lo <? row_position r) && (row_position r <=? hi)) eqn:Ed;
        [|reflexivity].
      exfalso. apply andb_true_iff in Ed. destruct Ed as [E1 E2].
      apply Z.ltb_lt in E1. apply Z.leb_le in E2.
      apply andb_false_iff in Ec.
      destruct Ec as [Ec|Ec]; [apply Z.leb_gt in Ec | apply Z.ltb_ge in Ec]; lia.
  - rewrite (increment_row_other_board b lo hi r N).
    apply (decrement_row_other_board b lo hi r N).
Qed.

Lemma increment_decrement (b lo hi : Z) (r : row) :
  (row_board_id r = b -> row_position r <> lo) ->
  increment_row b lo hi (decrement_row b lo hi r) = r.
Proof.
  intros H. destruct (Z.eq_dec (row_board_id r) b) as [E|N].
  - specialize (H E). apply in_board_true in E as Eb.
    unfold decrement_row. rewrite Eb. simpl.
    destruct ((lo <? row_position r) && (row_position r <=? hi)) eqn:Ec.
    + apply andb_true_iff in Ec. destruct Ec as [E1 E2].
      apply Z.ltb_lt in E1. apply Z.leb_le in E2.
      unfold increment_row, in_board. simpl. fold (in_board b r). rewrite Eb.
      assert (E3 : (lo <=? row_position r - 1) = true) by (apply Z.leb_le; lia).
      assert (E4 : (row_position r - 1 <? hi) = true) by (apply Z.ltb_lt; lia).
      rewrite E3, E4. simpl. apply set_position_back. lia.
    + unfold increment_row. rewrite Eb. simpl.
      destruct ((lo <=? row_position r) && (row_position r <? hi)) eqn:Ed;
        [|reflexivity].
      exfalso. apply andb_true_iff in Ed. destruct Ed as [E1 E2].
      apply Z.leb_le in E1. apply Z.ltb_lt in E2.
      apply andb_false_iff in Ec.
      destruct Ec as [Ec|Ec]; [apply Z.ltb_ge in Ec | apply Z.leb_gt in Ec]; lia.
  - rewrite (decrement_row_other_board b lo hi r N).
    apply (increment_row_other_board b lo hi r N).
Qed.

(** X11: On a well-formed table in which no other item of the board holds the
    position of the item (other items may share positions among
    themselves), moving the item to any position and then back to the
    position it had gives back the table, row for row; moving it to the
    position it has is the case where both moves do nothing. *)
Theorem reorderByPosition_there_and_back (id p : Z) (task : row) (s : store) :
  wf_store s ->
  (forall x, In x (rows s) -> row_id x <> id ->
             row_board_id x = row_board_id task ->
             row_position x <> row_position task) ->
  select_by_id id s = Some task ->
  TaskRepository.reorderByPosition id (Some (row_position task))
    (snd (TaskRepository.reorderByPosition id (Some p) s))
  = (Ok tt, s).
Proof.
  intros Hwf Hpos Hsel.
  pose proof (wf_id_nonzero _ _ _ Hwf Hsel) as Hid.
  destruct (select_by_id_some _ _ _ Hsel) as [Hin Htid].
  destruct Hwf as [Hnd _].
  set (old := row_position task) in *. set (b := row_board_id task) in *.
  assert (Htask : forall x, In x (rows s) -> row_id x = id -> x = task)
    by (intros x Hx Hxid; apply (unique_id (rows s)); congruence).
  assert (Hold : forall x, In x (rows s) -> row_id x <> id ->
                           row_board_id x = b -> row_position x <> old)
    by exact Hpos.
  destruct (Z.lt_trichotomy p old) as [Hlt|[Heq|Hgt]].
  - (* down to [p], up again *)
    rewrite (reorderByPosition_up _ _ _ _ Hid Hsel Hlt). cbn [snd]. fold b old.
    set (s1 := update_position p id (increment_range b p old s)).
    assert (Hsel1 : select_by_id id s1 = Some (set_position p task)).
    { unfold s1. rewrite select_update_position, select_increment_range, Hsel.
      simpl. rewrite (increment_row_outside b p old task) by (unfold old; lia).
      now rewrite (write_position_hit p id task Htid). }
    rewrite (reorderByPosition_down id old (set_position p task) s1 Hid Hsel1)
      by (simpl; lia).
    f_equal. simpl. fold b. unfold s1, update_position, decrement_range,
      increment_range, with_rows. simpl. rewrite !map_map.
    rewrite map_id_on; [now destruct s|].
    intros x Hx. destruct (Z.eq_dec (row_id x) id) as [E|N].
    + rewrite (Htask x Hx E).
      rewrite (increment_row_outside b p old task) by (unfold old; lia).
      rewrite (write_position_hit p id task Htid).
      rewrite decrement_row_outside by (simpl; lia).
      rewrite write_position_hit by (simpl; exact Htid).
      now apply set_position_back.
    + rewrite (write_position_miss p id)
        by (rewrite row_id_increment_row; exact N).
      rewrite (decrement_increment b p old x (Hold x Hx N)).
      now apply write_position_miss.
  - (* nothing moves *)
    subst p. unfold old.
    rewrite (reorderByPosition_same _ _ _ Hid Hsel). cbn [snd].
    apply (reorderByPosition_same _ _ _ Hid Hsel).
  - (* up to [p], down again *)
    rewrite (reorderByPosition_down _ _ _ _ Hid Hsel Hgt). cbn [snd]. fold b old.
    set (s1 := update_position p id (decrement_range b old p s)).
    assert (Hsel1 : select_by_id id s1 = Some (set_position p task)).
    { unfold s1. rewrite select_update_position, select_decrement_range, Hsel.
      simpl. rewrite (decrement_row_outside b old p task) by (unfold old; lia).
      now rewrite (write_position_hit p id task Htid). }
    rewrite (reorderByPosition_up id old (set_position p task) s1 Hid Hsel1)
      by (simpl; lia).
    f_equal. simpl. fold b. unfold s1, update_position, decrement_range,
      increment_range, with_rows. simpl. rewrite !map_map.
    rewrite map_id_on; [now destruct s|].
    intros x Hx. destruct (Z.eq_dec (row_id x) id) as [E|N].
    + rewrite (Htask x Hx E).
      rewrite (decrement_row_outside b old p task) by (unfold old; lia).
      rewrite (write_position_hit p id task Htid).
      rewrite increment_row_outside by (simpl; lia).
      rewrite write_position_hit by (simpl; exact Htid).
      now apply set_position_back.
    + rewrite (write_position_miss p id)
        by (rewrite row_id_decrement_row; exact N).
      rewrite (increment_decrement b old p x (Hold x Hx N)).
      now apply write_position_miss.
Qed.

Lemma reorderByPosition_there_and_back_witness :
  let s := mkStore [mkRow 1 "A" 0 1; mkRow 2 "B" 1 1; mkRow 3 "C" 1 1] 3 in
  TaskRepository.reorderByPosition 1 (Some 0)
    (snd (TaskRepository.reorderByPosition 1 (Some 2) s))
  = (Ok tt, s).
Proof.
  refine (reorderByPosition_there_and_back 1 2 (mkRow 1 "A" 0 1)
            (mkStore [mkRow 1 "A" 0 1; mkRow 2 "B" 1 1; mkRow 3 "C" 1 1] 3)
            _ _ _).
  - split; simpl; repeat constructor; simpl; intuition lia.
  - intros x [<-|[<-|[<-|[]]]]; simpl; intros; lia.
  - reflexivity.
Defined.

End MoveRoundTrip.

(* ------------------------------------------------------------------ *)
(** ** Further properties of [moveToBoard] *)

Section RelocateMore.

(** X12: For a [newPosition] that is undefined or an integer, [moveToBoard]
    succeeds exactly when both ids are non-zero and the item exists in a
    board other than the target, whatever integer is given; every failure
    leaves the table as it was, with the message for an item that is in
    the target board already or for an item that is not found. *)
Theorem moveToBoard_outcomes (t q : Z) (np : option Z) (s : store) :
  ((exists task, fst (TaskRepository.moveToBoard t q np s) = Ok task) <->
   t <> 0 /\ q <> 0 /\
   exists r, select_by_id t s = Some r /\ row_board_id r <> q) /\
  (forall e, fst (TaskRepository.moveToBoard t q np s) = Err e ->
     snd (TaskRepository.moveToBoard t q np s) = s) /\
  (forall r, t <> 0 -> q <> 0 -> select_by_id t s = Some r ->
     row_board_id r = q ->
     fst (TaskRepository.moveToBoard t q np s)
     = Err "Task is already in this board") /\
  (t <> 0 -> q <> 0 -> select_by_id t s = None ->
     fst (TaskRepository.moveToBoard t q np s) = Err "Task not found").
Proof.
  destruct (Z.eq_dec t 0) as [Et|Nt].
  { assert (Hout : TaskRepository.moveToBoard t q np s
                   = (Err "Task ID and new board ID are required", s)).
    { unfold TaskRepository.moveToBoard. apply Z.eqb_eq in Et. now rewrite Et. }
    rewrite Hout. simpl. split; [split|split; [|split]].
    - intros [x Hx]. discriminate.
    - intros [Hc _]. contradiction.
    - reflexivity.
    - intros r Hc. contradiction.
    - intros Hc. contradiction. }
  destruct (Z.eq_dec q 0) as [Eq|Nq].
  { assert (Hout : TaskRepository.moveToBoard t q np s
                   = (Err "Task ID and new board ID are required", s)).
    { unfold TaskRepository.moveToBoard. apply Z.eqb_eq in Eq.
      now rewrite Eq, orb_true_r. }
    rewrite Hout. simpl. split; [split|split; [|split]].
    - intros [x Hx]. discriminate.
    - intros [_ [Hc _]]. contradiction.
    - reflexivity.
    - intros r _ Hc. contradiction.
    - intros _ Hc. contradiction. }
  apply Z.eqb_neq in Nt as Nt'. apply Z.eqb_neq in Nq as Nq'.
  destruct (select_by_id t s) as [r|] eqn:Hsel.
  - destruct (Z.eq_dec (row_board_id r) q) as [Eb|Nb].
    + assert (Hout : TaskRepository.moveToBoard t q np s
                     = (Err "Task is already in this board", s)).
      { unfold TaskRepository.moveToBoard.
        apply Z.eqb_eq in Eb. now rewrite Nt', Nq', Hsel, Eb. }
      rewrite Hout. simpl. split; [split|split; [|split]].
      * intros [x Hx]. discriminate.
      * intros [_ [_ [r' [Hr' Hb']]]]. injection Hr' as <-. contradiction.
      * reflexivity.
      * reflexivity.
      * discriminate.
    + rewrite (moveToBoard_found t q np r s Nt Nq Hsel Nb). simpl.
      split; [split|split; [|split]].
      * intros _. repeat split; try assumption. exists r. auto.
      * intros _. eexists. reflexivity.
      * discriminate.
      * intros r' _ _ Hr' Hb'. injection Hr' as <-. contradiction.
      * discriminate.
  - assert (Hout : TaskRepository.moveToBoard t q np s
                   = (Err "Task not found", s)).
    { unfold TaskRepository.moveToBoard. now rewrite Nt', Nq', Hsel. }
    rewrite Hout. simpl. split; [split|split; [|split]].
    + intros [x Hx]. discriminate.
    + intros [_ [_ [r' [Hr' _]]]]. discriminate.
    + reflexivity.
    + discriminate.
    + reflexivity.
Qed.

Lemma moveToBoard_outcomes_witness :
  fst (TaskRepository.moveToBoard 1 1 None abc)
  = Err "Task is already in this board".
Proof.
  apply (proj1 (proj2 (proj2 (moveToBoard_outcomes 1 1 None abc)))
           (mkRow 1 "A" 0 1)).
  - lia.
  - lia.
  - reflexivity.
  - reflexivity.
Defined.

(** *** The renumbering, row by row *)

Lemma rows_forEach_renumber (ids : list Z) (k : Z) (s : store) :
  rows (TaskRepository.forEach_renumber ids k s)
  = map (renumber_row ids k) (rows s).
Proof.
  revert k s. induction ids as [|i ids IH]; intros k s; simpl.
  - symmetry. apply map_id.
  - rewrite IH. unfold update_position. simpl. now rewrite map_map.
Qed.

Lemma seq_id_forEach_renumber (ids : list Z) (k : Z) (s : store) :
  seq_id (TaskRepository.forEach_renumber ids k s) = seq_id s.
Proof.
  revert k s. induction ids as [|i ids IH]; intros k s; simpl; [reflexivity|].
  now rewrite IH.
Qed.

Lemma row_id_renumber_row (ids : list Z) (k : Z) (r : row) :
  row_id (renumber_row ids k r) = row_id r.
Proof.
  revert k r. induction ids as [|i ids IH]; intros k r; simpl; [reflexivity|].
  now rewrite IH, row_id_write_position.
Qed.

Lemma board_renumber_row (ids : list Z) (k : Z) (r : row) :
  row_board_id (renumber_row ids k r) = row_board_id r.
Proof.
  revert k r. induction ids as [|i ids IH]; intros k r; simpl; [reflexivity|].
  now rewrite IH, board_write_position.
Qed.

Lemma renumber_row_other (ids : list Z) (k : Z) (r : row) :
  ~ In (row_id r) ids -> renumber_row ids k r = r.
Proof.
  revert k r. induction ids as [|i ids IH]; intros k r Hnot; simpl; [reflexivity|].
  rewrite write_position_miss by (intros E; apply Hnot; now left).
  apply IH. intros H. apply Hnot. now right.
Qed.

Lemma renumber_row_nth (ids : list Z) :
  forall (k : Z) (n : nat) (r : row),
    NoDup ids -> nth_error ids n = Some (row_id r) ->
    renumber_row ids k r = set_position (k + Z.of_nat n + 1) r.
Proof.
  induction ids as [|i ids IH]; intros k n r Hnd Hn.
  - destruct n; discriminate.
  - inversion Hnd as [|? ? Hnotin Hnd']; subst. simpl.
    destruct n as [|n]; simpl in Hn.
    + injection Hn as ->.
      rewrite (write_position_hit (k + 1) (row_id r) r eq_refl).
      rewrite renumber_row_other by (simpl; exact Hnotin).
      f_equal. lia.
    + assert (Hne : row_id r <> i).
      { intros E. apply Hnotin. rewrite <- E. eapply nth_error_In. exact Hn. }
      rewrite (write_position_miss (k + 1) i r Hne).
      rewrite (IH (k + 1) n r Hnd' Hn). f_equal. lia.
Qed.

(** *** What [moveToBoard] makes of each row *)

Lemma moveToBoard_rows (t q : Z) (np : option Z) (task : row) (s : store) :
  t <> 0 -> q <> 0 -> select_by_id t s = Some task -> row_board_id task <> q ->
  let p := match np with
           | Some p => p
           | None => select_coalesce_max_position q s + 1
           end in
  snd (TaskRepository.moveToBoard t q np s)
  = with_rows s (map (relocate_row (row_board_id task) q p t s) (rows s)).
Proof.
  intros Ht Hq Hsel Hne p.
  rewrite (moveToBoard_found t q np task s Ht Hq Hsel Hne). cbn [snd]. fold p.
  set (s0 := update_board_position q p t s).
  set (ids := remaining (row_board_id task) t s).
  assert (E : TaskRepository.forEach_renumber ids 0 s0
              = mkStore (rows (TaskRepository.forEach_renumber ids 0 s0))
                        (seq_id (TaskRepository.forEach_renumber ids 0 s0)))
    by (destruct (TaskRepository.forEach_renumber ids 0 s0); reflexivity).
  rewrite E, rows_forEach_renumber, seq_id_forEach_renumber.
  unfold s0, update_board_position, with_rows. simpl. now rewrite map_map.
Qed.

Lemma row_id_relocate_row (old q p t : Z) (s : store) (r : row) :
  row_id (relocate_row old q p t s r) = row_id r.
Proof.
  unfold relocate_row. rewrite row_id_renumber_row.
  destruct (has_id t r); reflexivity.
Qed.

(** The moved row, the rows of other boards, the rows left behind. *)
Lemma relocate_row_moved (q p t : Z) (task : row) (s : store) :
  row_id task = t ->
  relocate_row (row_board_id task) q p t s task = set_board_position q p task.
Proof.
  intros Hid. unfold relocate_row. apply has_id_true in Hid as Hh. rewrite Hh.
  apply renumber_row_other. simpl. rewrite Hid. apply moved_not_remaining.
Qed.

Lemma relocate_row_elsewhere (old q p t : Z) (s : store) (r : row) :
  NoDup (map row_id (rows s)) -> In r (rows s) ->
  row_id r <> t -> row_board_id r <> old ->
  relocate_row old q p t s r = r.
Proof.
  intros Hnd Hin Hid Hb. unfold relocate_row.
  apply has_id_false in Hid as Hh. rewrite Hh.
  apply renumber_row_other. intros Hrem. apply remaining_in in Hrem.
  destruct Hrem as [r' [Hin' [Hid' [Hb' _]]]].
  apply Hb. rewrite <- Hb'. f_equal. now apply (unique_id (rows s)).
Qed.

Lemma relocate_row_left_behind (old q p t : Z) (s : store) (r : row) :
  NoDup (map row_id (rows s)) -> In r (rows s) ->
  row_id r <> t -> row_board_id r = old ->
  exists n, nth_error (remaining old t s) n = Some (row_id r) /\
            relocate_row old q p t s r = set_position (Z.of_nat n + 1) r.
Proof.
  intros Hnd Hin Hid Hb. unfold relocate_row.
  apply has_id_false in Hid as Hh. rewrite Hh.
  assert (Hrem : In (row_id r) (remaining old t s))
    by (apply remaining_in; exists r; auto).
  destruct (In_nth_error _ _ Hrem) as [n Hn]. exists n. split; [exact Hn|].
  now rewrite (renumber_row_nth _ 0 n r (remaining_NoDup old t s Hnd) Hn).
Qed.

Lemma select_after_moveToBoard
  (t q : Z) (np : option Z) (task : row) (s : store) (j : Z) :
  t <> 0 -> q <> 0 -> select_by_id t s = Some task -> row_board_id task <> q ->
  let p := match np with
           | Some p => p
           | None => select_coalesce_max_position q s + 1
           end in
  select_by_id j (snd (TaskRepository.moveToBoard t q np s))
  = option_map (relocate_row (row_board_id task) q p t s) (select_by_id j s).
Proof.
  intros Ht Hq Hsel Hne p.
  rewrite (moveToBoard_rows t q np task s Ht Hq Hsel Hne). fold p.
  unfold select_by_id. simpl. apply find_map_keep_id.
  intros r. apply row_id_relocate_row.
Qed.

(** X13: [moveToBoard] writes the moved item and the items left behind in the
    board it came from, and nothing else: the moved item gets the target
    board and the position given or, when none is given and the largest
    position of the target is a safe integer, that position plus one (1
    for an empty target), with its id and title; every item of any other
    board, the target included, keeps its row (nothing is shifted to make
    room), and the ids of the table stay as they were. *)
Theorem moveToBoard_touches_source_only
  (t q : Z) (np : option Z) (task : row) (s : store) :
  wf_store s -> q <> 0 -> select_by_id t s = Some task ->
  row_board_id task <> q ->
  (np = None ->
   - JS.MAX_SAFE_INTEGER <= select_coalesce_max_position q s
   <= JS.MAX_SAFE_INTEGER) ->
  let p := match np with
           | Some p => p
           | None => select_coalesce_max_position q s + 1
           end in
  let s' := snd (TaskRepository.moveToBoard t q np s) in
  select_by_id t s' = Some (mkRow t (row_title task) p q) /\
  (forall j r, select_by_id j s = Some r -> j <> t ->
     row_board_id r <> row_board_id task -> select_by_id j s' = Some r) /\
  map row_id (rows s') = map row_id (rows s).
Proof.
  intros Hwf Hq Hsel Hne _ p s'.
  pose proof (wf_id_nonzero _ _ _ Hwf Hsel) as Ht.
  destruct (select_by_id_some _ _ _ Hsel) as [Hin Hid].
  destruct Hwf as [Hnd _]. subst s'. split; [|split].
  - rewrite (select_after_moveToBoard t q np task s t Ht Hq Hsel Hne), Hsel.
    simpl. f_equal. rewrite (relocate_row_moved _ _ _ _ _ Hid).
    unfold set_board_position. now rewrite Hid.
  - intros j r Hj Hjt Hb.
    rewrite (select_after_moveToBoard t q np task s j Ht Hq Hsel Hne), Hj.
    simpl. f_equal. destruct (select_by_id_some _ _ _ Hj) as [Hinr Hidr].
    apply relocate_row_elsewhere; try assumption. congruence.
  - rewrite (moveToBoard_rows t q np task s Ht Hq Hsel Hne). simpl.
    rewrite map_map. apply map_ext. intros r. apply row_id_relocate_row.
Qed.

Lemma moveToBoard_touches_source_only_witness :
  select_by_id 1 (snd (TaskRepository.moveToBoard 1 2 None abc))
  = Some (mkRow 1 "A" 1 2).
Proof.
  refine (proj1 (moveToBoard_touches_source_only 1 2 None (mkRow 1 "A" 0 1)
                   abc abc_wf _ _ _ _)).
  - lia.
  - reflexivity.
  - simpl. lia.
  - intros _. vm_compute. split; discriminate.
Defined.

(** *** Appending to a dense board that has items *)

Lemma board_relocate_row_other (old q p t : Z) (s : store) (r : row) :
  row_id r <> t ->
  row_board_id (relocate_row old q p t s r) = row_board_id r.
Proof.
  intros Hid. unfold relocate_row. apply has_id_false in Hid. rewrite Hid.
  apply board_renumber_row.
Qed.

(** X14: When the target board is dense and has items, [moveToBoard] without a
    position places the item at the number of items of the target, and
    the target is dense again with one item more, whatever becomes of the
    board left behind. *)
Theorem moveToBoard_append_keeps_target_dense
  (t q : Z) (task : row) (s : store) :
  wf_store s -> dense_board (rows s) q -> 0 < count_of q (rows s) -> q <> 0 ->
  select_by_id t s = Some task -> row_board_id task <> q ->
  let out := TaskRepository.moveToBoard t q None s in
  fst out = Ok (Task.mkTask (Some t) (row_title task) (count_of q (rows s)) q) /\
  dense_board (rows (snd out)) q /\
  count_of q (rows (snd out)) = count_of q (rows s) + 1.
Proof.
  intros Hwf Hd Hcount Hq Hsel Hne out. subst out.
  pose proof (wf_id_nonzero _ _ _ Hwf Hsel) as Ht.
  destruct (select_by_id_some _ _ _ Hsel) as [Hin Hid].
  destruct Hwf as [Hnd _].
  pose proof (append_position_dense q s Hd Hcount) as Hp.
  assert (Hpos : positions_of q (rows (snd (TaskRepository.moveToBoard t q None s)))
                 = positions_of q
                     (map (relocate_row (row_board_id task) q
                             (count_of q (rows s)) t s) (rows s))).
  { rewrite (moveToBoard_rows t q None task s Ht Hq Hsel Hne). simpl.
    now rewrite Hp. }
  destruct (split_row _ _ Hnd Hin) as [l1 [l2 [Hrows Hother]]].
  assert (Hkeep : forall l, (forall x, In x l -> In x (l1 ++ l2)) ->
            positions_of q (map (relocate_row (row_board_id task) q
                                   (count_of q (rows s)) t s) l)
            = positions_of q l).
  { intros l Hl. apply positions_of_map_same.
    - intros x Hx. apply board_relocate_row_other.
      rewrite <- Hid. apply Hother. now apply Hl.
    - intros x Hx Hxb. f_equal. apply relocate_row_elsewhere; try assumption.
      + rewrite Hrows. apply Hl in Hx. rewrite in_app_iff in *. simpl. tauto.
      + rewrite <- Hid. apply Hother. now apply Hl.
      + congruence. }
  assert (Hnew : positions_of q (rows (snd (TaskRepository.moveToBoard t q None s)))
                 = (positions_of q l1 ++ count_of q (rows s) :: positions_of q l2)%list).
  { rewrite Hpos. rewrite Hrows at 2. rewrite map_app. simpl.
    rewrite positions_of_app.
    rewrite (relocate_row_moved q _ t task s Hid).
    rewrite (positions_of_cons_in q) by reflexivity. simpl.
    rewrite (Hkeep l1) by (intros x Hx; apply in_app_iff; now left).
    rewrite (Hkeep l2) by (intros x Hx; apply in_app_iff; now right).
    reflexivity. }
  assert (Hold : positions_of q (rows s) = (positions_of q l1 ++ positions_of q l2)%list).
  { rewrite Hrows. rewrite positions_of_app.
    now rewrite (positions_of_cons_out q task l2 Hne). }
  split; [|split].
  - rewrite (moveToBoard_found t q None task s Ht Hq Hsel Hne). simpl.
    now rewrite Hp, Hid.
  - apply dense_board_list. rewrite Hnew.
    apply dense_board_list in Hd. rewrite Hold in Hd.
    rewrite <- positions_of_length, Hold. now apply dense_list_insert.
  - rewrite <- !positions_of_length, Hnew, Hold. rewrite !length_app. simpl. lia.
Qed.

Lemma moveToBoard_append_keeps_target_dense_witness :
  fst (TaskRepository.moveToBoard 3 2 None
         (mkStore [mkRow 1 "A" 0 1; mkRow 2 "B" 0 2; mkRow 3 "C" 1 1] 3))
  = Ok (Task.mkTask (Some 3) "C" 1 2).
Proof.
  refine (proj1 (moveToBoard_append_keeps_target_dense 3 2 (mkRow 3 "C" 1 1)
                   (mkStore [mkRow 1 "A" 0 1; mkRow 2 "B" 0 2; mkRow 3 "C" 1 1] 3)
                   _ _ _ _ _ _)).
  - split; simpl; repeat constructor; simpl; intuition lia.
  - apply dense_boardb_sound. reflexivity.
  - reflexivity.
  - lia.
  - reflexivity.
  - simpl. lia.
Defined.

(** *** Moving an item to another board and back *)

(** After [moveToBoard], the largest position of the board left behind is
    the number of items left there (0 when none is left). *)
Lemma source_max_after_leave
  (t q : Z) (np : option Z) (task : row) (s : store) :
  wf_store s -> q <> 0 -> select_by_id t s = Some task ->
  row_board_id task <> q ->
  select_coalesce_max_position (row_board_id task)
    (snd (TaskRepository.moveToBoard t q np s))
  = Z.of_nat (List.length (remaining (row_board_id task) t s)).
Proof.
  intros Hwf Hq Hsel Hne.
  pose proof (wf_id_nonzero _ _ _ Hwf Hsel) as Ht.
  destruct (select_by_id_some _ _ _ Hsel) as [Hin Hid].
  destruct Hwf as [Hnd _].
  set (old := row_board_id task) in *.
  set (rem := remaining old t s).
  unfold select_coalesce_max_position.
  rewrite (moveToBoard_rows t q np task s Ht Hq Hsel Hne). simpl. fold old.
  set (p := match np with
            | Some p => p
            | None => select_coalesce_max_position q s + 1
            end).
  set (G := relocate_row old q p t s).
  set (l' := filter (in_board old) (map G (rows s))).
  assert (HA : forall x, In x l' ->
                 exists n, (n < List.length rem)%nat /\
                           row_position x = Z.of_nat n + 1).
  { intros x Hx. apply filter_In in Hx. destruct Hx as [Hx Hb].
    apply in_board_true in Hb. apply in_map_iff in Hx.
    destruct Hx as [r [<- Hr]].
    destruct (Z.eq_dec (row_id r) t) as [E|N].
    - exfalso. assert (r = task) by (apply (unique_id (rows s)); congruence).
      subst r. unfold G, old in Hb.
      rewrite (relocate_row_moved q p t task s Hid) in Hb. simpl in Hb.
      now apply Hne.
    - destruct (Z.eq_dec (row_board_id r) old) as [Eb|Nb].
      + destruct (relocate_row_left_behind old q p t s r Hnd Hr N Eb)
          as [n [Hn HG]].
        exists n. split.
        * apply nth_error_Some. fold rem in Hn. now rewrite Hn.
        * unfold G. now rewrite HG.
      + exfalso. unfold G in Hb.
        rewrite (relocate_row_elsewhere old q p t s r Hnd Hr N Nb) in Hb.
        contradiction. }
  assert (HB : (0 < List.length rem)%nat ->
               In (Z.of_nat (List.length rem)) (map row_position l')).
  { intros Hk.
    destruct (nth_error rem (List.length rem - 1)) as [i|] eqn:Hi;
      [|apply nth_error_None in Hi; lia].
    pose proof (nth_error_In _ _ Hi) as Hrem. apply remaining_in in Hrem.
    destruct Hrem as [r [Hr [Hrid [Hrb Hit]]]].
    destruct (relocate_row_left_behind old q p t s r Hnd Hr
                ltac:(congruence) Hrb) as [n [Hn HG]].
    assert (n = (List.length rem - 1)%nat).
    { pose proof (remaining_NoDup old t s Hnd) as Hnodup.
      unfold rem in *. rewrite NoDup_nth_error in Hnodup. apply Hnodup.
      - apply nth_error_Some. now rewrite Hn.
      - rewrite Hn, Hi. now f_equal. }
    subst n. apply in_map_iff. exists (G r). split.
    - unfold G. rewrite HG. simpl. lia.
    - apply filter_In. split; [now apply in_map|].
      apply in_board_true. unfold G. rewrite HG. exact Hrb. }
  destruct l' as [|x0 l0] eqn:El.
  - simpl. destruct (List.length rem) as [|k] eqn:Ek; [reflexivity|].
    exfalso. apply (HB ltac:(lia)).
  - destruct (max_position_spec (x0 :: l0) ltac:(discriminate))
      as [m [Hm [Hmin Hmax]]].
    rewrite Hm. simpl.
    apply in_map_iff in Hmin. destruct Hmin as [x [Hxm Hx]].
    destruct (HA x Hx) as [n [Hn Hxn]].
    assert (Hle : Z.of_nat (List.length rem) <= m)
      by (apply Hmax; apply HB; lia).
    lia.
Qed.

(** X15: Moving an item to another board and back, without a position, brings
    it back with its id and title to the tail of the board it left: one
    past the number of items it had left behind, which keep the positions
    1, 2, ... the first move gave them. *)
Theorem moveToBoard_there_and_back
  (t q : Z) (np : option Z) (task : row) (s : store) :
  wf_store s -> q <> 0 -> row_board_id task <> 0 ->
  select_by_id t s = Some task -> row_board_id task <> q ->
  let s1 := snd (TaskRepository.moveToBoard t q np s) in
  let back := Z.of_nat (List.length (remaining (row_board_id task) t s)) + 1 in
  fst (TaskRepository.moveToBoard t (row_board_id task) None s1)
  = Ok (Task.mkTask (Some t) (row_title task) back (row_board_id task)) /\
  select_by_id t (snd (TaskRepository.moveToBoard t (row_board_id task) None s1))
  = Some (mkRow t (row_title task) back (row_board_id task)).
Proof.
  intros Hwf Hq Hold Hsel Hne s1 back.
  pose proof (wf_id_nonzero _ _ _ Hwf Hsel) as Ht.
  destruct (select_by_id_some _ _ _ Hsel) as [Hin Hid].
  pose proof (source_max_after_leave t q np task s Hwf Hq Hsel Hne) as Hmax.
  fold s1 in Hmax.
  set (p := match np with
            | Some p => p
            | None => select_coalesce_max_position q s + 1
            end).
  assert (Hsel1 : select_by_id t s1 = Some (set_board_position q p task)).
  { unfold s1.
    rewrite (select_after_moveToBoard t q np task s t Ht Hq Hsel Hne), Hsel.
    simpl. f_equal. now apply relocate_row_moved. }
  assert (Hne1 : row_board_id (set_board_position q p task) <> row_board_id task)
    by (simpl; congruence).
  split.
  - rewrite (moveToBoard_found t (row_board_id task) None _ s1 Ht Hold Hsel1 Hne1).
    simpl. rewrite Hmax. fold back. now rewrite Hid.
  - rewrite (select_after_moveToBoard t (row_board_id task) None _ s1 t
               Ht Hold Hsel1 Hne1), Hsel1.
    simpl. rewrite Hmax. fold back.
    change q with (row_board_id (set_board_position q p task)) at 1.
    rewrite relocate_row_moved by (simpl; exact Hid).
    unfold set_board_position. simpl. now rewrite Hid.
Qed.

Lemma moveToBoard_there_and_back_witness :
  fst (TaskRepository.moveToBoard 1 1 None
         (snd (TaskRepository.moveToBoard 1 2 None abc)))
  = Ok (Task.mkTask (Some 1) "A" 3 1).
Proof.
  refine (proj1 (moveToBoard_there_and_back 1 2 None (mkRow 1 "A" 0 1) abc
                   abc_wf _ _ _ _)).
  - lia.
  - simpl. lia.
  - reflexivity.
  - simpl. lia.
Defined.

End RelocateMore.

(* ------------------------------------------------------------------ *)
(** ** The ids under any call of the repository *)

Section KeysKept.

Lemma update_cases (id : Z) (data : option TaskRepository.task_data) (s : store) :
  snd (TaskRepository.update id data s) = s \/
  exists ti p b, snd (TaskRepository.update id data s) = update_task ti p b id s.
Proof.
  unfold TaskRepository.update.
  destruct data as [[[ti|] [p|] [b|]]|]; simpl; auto.
  destruct (JS.is_empty ti || (b =? 0)); simpl; auto.
  destruct (negb (Task.validate (Task.new (Some id) ti p b))); simpl; auto.
  right. exists ti, p, b. reflexivity.
Qed.

Lemma wf_update_task (ti : JS.jsstring) (p b i : Z) (s : store) :
  wf_store s -> wf_store (update_task ti p b i s).
Proof. apply wf_map_rows. intros r. destruct (has_id i r); reflexivity. Qed.

Lemma repository_call_wf (s s' : store) :
  wf_store s -> repository_call s s' -> wf_store s'.
Proof.
  intros Hwf Hcall. destruct Hcall as [data|id data|id|a b|id np|t q np].
  - destruct (create_cases data s) as [->|[ti [p [b [_ ->]]]]];
      [exact Hwf | now apply wf_insert_task].
  - destruct (update_cases id data s) as [->|[ti [p [b ->]]]];
      [exact Hwf | now apply wf_update_task].
  - now apply wf_delete_by_id.
  - unfold TaskRepository.reorder.
    destruct ((a =? 0) || (b =? 0)); [exact Hwf|].
    destruct (select_by_id a s); [|exact Hwf].
    destruct (select_by_id b s); [|exact Hwf].
    simpl. now apply wf_update_position, wf_update_position.
  - unfold TaskRepository.reorderByPosition.
    destruct np as [p|]; [|exact Hwf].
    destruct (id =? 0); [exact Hwf|].
    destruct (select_by_id id s) as [r|]; [|exact Hwf].
    destruct (row_position r =? p); [exact Hwf|].
    destruct (p <? row_position r); simpl.
    + now apply wf_update_position, wf_increment_range.
    + now apply wf_update_position, wf_decrement_range.
  - unfold TaskRepository.moveToBoard.
    destruct ((t =? 0) || (q =? 0)); [exact Hwf|].
    destruct (select_by_id t s) as [r|]; [|exact Hwf].
    destruct (row_board_id r =? q); [exact Hwf|].
    assert (Hm : forall p, wf_store (snd (TaskRepository.move_and_renumber
                                            t r q p s))).
    { intros p. unfold TaskRepository.move_and_renumber.
      destruct (select_ids_by_board (row_board_id r)
                  (update_board_position q p t s)) eqn:E; cbn [snd].
      - now apply wf_update_board_position.
      - now apply wf_forEach_renumber, wf_update_board_position. }
    destruct np; apply Hm.
Qed.

(** X16: Whatever the calls of the repository and their arguments, failing
    calls included, the ids of the table stay unique and positive: every
    table reached from a well-formed one, the empty table for instance, is
    well formed. *)
Theorem repository_keeps_ids_well_formed (s s' : store) :
  wf_store s -> repository_calls s s' -> wf_store s'.
Proof.
  intros Hwf Hcalls. induction Hcalls as [s|s s1 s2 Hcall _ IH]; [exact Hwf|].
  apply IH. exact (repository_call_wf s s1 Hwf Hcall).
Qed.

Lemma repository_keeps_ids_well_formed_witness :
  wf_store (snd (TaskRepository.delete 1
              (snd (TaskRepository.create
                      (Some (TaskRepository.mkData (Some (JS.lit "A")) (Some 0) (Some 1)))
                      (mkStore [] 0))))).
Proof.
  refine (repository_keeps_ids_well_formed (mkStore [] 0) _ _ _).
  - split; simpl; constructor.
  - refine (calls_cons _ _ _ (call_create _ _) _).
    refine (calls_cons _ _ _ (call_delete _ 1) _).
    apply calls_nil.
Defined.

End KeysKept.

(* ------------------------------------------------------------------ *)
(** ** The setters of the entity *)

Section Setters.

Lemma trimStart_snoc (x : JS.jsstring) (c : N) :
  JS.is_white_space c = false ->
  JS.trimStart (x ++ [c])%list = (JS.trimStart x ++ [c])%list.
Proof.
  intros Hc. induction x as [|a x IH]; simpl.
  - now rewrite Hc.
  - destruct (JS.is_white_space a); [exact IH | reflexivity].
Qed.

Lemma trimStart_idem (x : JS.jsstring) :
  JS.trimStart (JS.trimStart x) = JS.trimStart x.
Proof.
  induction x as [|a x IH]; simpl; [reflexivity|].
  destruct (JS.is_white_space a) eqn:E; [exact IH|]. simpl. now rewrite E.
Qed.

Lemma trimStart_head (x : JS.jsstring) :
  JS.trimStart x = [] \/
  exists c y, JS.trimStart x = c :: y /\ JS.is_white_space c = false.
Proof.
  induction x as [|a x IH]; simpl; [now left|].
  destruct (JS.is_white_space a) eqn:E; [exact IH|].
  right. exists a, x. auto.
Qed.

Lemma trim_idempotent (t : JS.jsstring) : JS.trim (JS.trim t) = JS.trim t.
Proof.
  unfold JS.trim, JS.trimEnd.
  destruct (trimStart_head t) as [E|[c [y [E Hc]]]]; rewrite E.
  - reflexivity.
  - simpl. rewrite (trimStart_snoc _ c Hc). rewrite rev_app_distr. simpl.
    rewrite Hc. simpl. rewrite rev_involutive.
    rewrite (trimStart_snoc _ c Hc), trimStart_idem.
    rewrite rev_app_distr. reflexivity.
Qed.

(** X18: A task whose three fields went through the setters is valid: when
    [setTitle], [setPosition] and [setBoardId] all return, the task passes
    [validate], holds the trimmed title (which trimming leaves unchanged),
    the position and the board given, and keeps its id; and the three
    setters all return exactly for the values with which [validate]
    holds. *)
Theorem setters_establish_validate (ti : JS.jsstring) (p b : Z) (task : Task.t) :
  (forall t1 t2 t3,
     Task.setTitle ti task = Ok t1 ->
     TaskSetters.setPosition p t1 = Ok t2 ->
     TaskSetters.setBoardId b t2 = Ok t3 ->
     Task.validate t3 = true /\
     t3 = Task.mkTask (Task._id task) (JS.trim ti) p b /\
     JS.trim (Task._title t3) = Task._title t3) /\
  ((exists t1 t2 t3,
      Task.setTitle ti task = Ok t1 /\
      TaskSetters.setPosition p t1 = Ok t2 /\
      TaskSetters.setBoardId b t2 = Ok t3)
   <-> Task.validate (Task.new (Task._id task) ti p b) = true).
Proof.
  split.
  - unfold Task.setTitle, TaskSetters.setPosition, TaskSetters.setBoardId.
    intros t1 t2 t3.
    destruct (is_empty_spec (JS.trim ti)) as [|Hti]; [discriminate|].
    intros H1. injection H1 as <-. simpl.
    destruct (Z.ltb_spec p 0) as [|Hp]; [discriminate|].
    intros H2. injection H2 as <-. simpl.
    destruct (Z.leb_spec b 0) as [|Hb]; [discriminate|].
    intros H3. injection H3 as <-. simpl.
    assert (Hti2 : JS.trim (JS.trim ti) <> []) by (now rewrite trim_idempotent).
    split; [|split; [reflexivity|]].
    + apply (validate_true (Task._id task) (JS.trim ti) p b);
        [exact Hti2|lia|lia].
    + apply trim_idempotent.
  - rewrite validate_true_iff.
    unfold Task.setTitle, TaskSetters.setPosition, TaskSetters.setBoardId.
    split.
    + intros [t1 [t2 [t3 [H1 [H2 H3]]]]].
      destruct (is_empty_spec (JS.trim ti)) as [|Hti]; [discriminate|].
      injection H1 as <-. simpl in H2.
      destruct (Z.ltb_spec p 0) as [|Hp]; [discriminate|].
      injection H2 as <-. simpl in H3.
      destruct (Z.leb_spec b 0) as [|Hb]; [discriminate|].
      repeat split; try lia; try assumption.
      now apply not_blank_not_empty.
    + intros [_ [Hti [Hp Hb]]].
      apply is_empty_false in Hti. rewrite Hti.
      eexists. eexists. eexists. split; [reflexivity|]. simpl.
      assert (E1 : (p <? 0) = false) by (apply Z.ltb_ge; lia).
      assert (E2 : (b <=? 0) = false) by (apply Z.leb_gt; lia).
      rewrite E1. split; [reflexivity|]. simpl. now rewrite E2.
Qed.

Lemma setters_establish_validate_witness :
  Task.validate (Task.mkTask None "D" 3 1) = true.
Proof.
  refine (proj1 (proj1 (setters_establish_validate " D " 3 1
                          (Task.new None "" 0 0))
                   (Task.mkTask None "D" 0 0)
                   (Task.mkTask None "D" 3 0)
                   (Task.mkTask None "D" 3 1) _ _ _)); reflexivity.
Defined.

End Setters.

(* ------------------------------------------------------------------ *)
(** ** The handlers in front of the repository *)

Section Handlers.
Import JS TaskHandlers.

Lemma integer_nonzero (v : jsval) :
  Number_isInteger v = true ->
  (truthy v = true <-> integer_value v <> 0).
Proof.
  destruct v as [| |b|q|str|]; simpl; try discriminate.
  intros Hint. apply Z.eqb_eq in Hint.
  rewrite negb_true_iff, Z.eqb_neq.
  pose proof (Z.div_mod (Qnum q) (Zpos (Qden q)) ltac:(lia)) as Hdm.
  rewrite Hint, Z.add_0_r in Hdm.
  split; intros H E.
  - apply H. rewrite Hdm, E. lia.
  - apply H. rewrite E. apply Z.div_0_l. lia.
Qed.

(** X21: [POST /reorder] answers 200 exactly when both ids of the body are
    non-zero integers that name items, and then leaves the table the
    repository's [reorder] leaves; in every other case it answers 400 and
    the table is as it was. *)
Theorem post_reorder_outcome (body : object) (s : store) :
  let taskId1 := get_field body "taskId1" in
  let taskId2 := get_field body "taskId2" in
  let out := post_reorder body s in
  (TaskController.status (fst out) = 200 <->
   Number_isInteger taskId1 = true /\ Number_isInteger taskId2 = true /\
   integer_value taskId1 <> 0 /\ integer_value taskId2 <> 0 /\
   select_by_id (integer_value taskId1) s <> None /\
   select_by_id (integer_value taskId2) s <> None) /\
  (TaskController.status (fst out) = 200 ->
   snd out = snd (TaskRepository.reorder (integer_value taskId1)
                                         (integer_value taskId2) s)) /\
  (TaskController.status (fst out) <> 200 ->
   TaskController.status (fst out) = 400 /\ snd out = s).
Proof.
  intros v1 v2 out. subst out. unfold post_reorder, reorder. fold v1 v2.
  destruct (truthy v1) eqn:T1; simpl.
  2:{ split; [split; [discriminate|]|split; [discriminate|tauto]].
      intros [H1 [_ [N1 _]]]. apply (integer_nonzero v1 H1) in N1. congruence. }
  destruct (truthy v2) eqn:T2; simpl.
  2:{ split; [split; [discriminate|]|split; [discriminate|tauto]].
      intros [_ [H2 [_ [N2 _]]]]. apply (integer_nonzero v2 H2) in N2.
      congruence. }
  destruct (Number_isInteger v1) eqn:I1; simpl.
  2:{ split; [split; [discriminate|]|split; [discriminate|tauto]].
      intros [H1 _]. discriminate. }
  destruct (Number_isInteger v2) eqn:I2; simpl.
  2:{ split; [split; [discriminate|]|split; [discriminate|tauto]].
      intros [_ [H2 _]]. discriminate. }
  apply (integer_nonzero v1 I1) in T1. apply (integer_nonzero v2 I2) in T2.
  unfold TaskRepository.reorder.
  apply Z.eqb_neq in T1 as T1'. apply Z.eqb_neq in T2 as T2'.
  rewrite T1', T2'. simpl.
  destruct (select_by_id (integer_value v1) s) as [r1|]; simpl.
  2:{ split; [split; [discriminate|]|split; [discriminate|tauto]].
      intros [_ [_ [_ [_ [H _]]]]]. exfalso. now apply H. }
  destruct (select_by_id (integer_value v2) s) as [r2|]; simpl.
  2:{ split; [split; [discriminate|]|split; [discriminate|tauto]].
      intros [_ [_ [_ [_ [_ H]]]]]. exfalso. now apply H. }
  split; [split|split].
  - intros _. repeat split; try assumption; discriminate.
  - reflexivity.
  - reflexivity.
  - intros H. now elim H.
Qed.

Lemma post_reorder_outcome_witness :
  TaskController.status
    (fst (post_reorder [("taskId1", of_integer 1); ("taskId2", of_integer 3)]
            abc)) = 200.
Proof.
  apply (proj1 (post_reorder_outcome
                  [("taskId1", of_integer 1); ("taskId2", of_integer 3)] abc)).
  repeat split; try reflexivity; vm_compute; discriminate.
Defined.

(** *** The validation of a create or update request *)

Lemma title_accepted_iff (v : jsval) :
  title_rejected v = false <-> exists ti, v = JStr ti /\ trim ti <> [].
Proof.
  unfold title_rejected. destruct v as [| |b|q|str|]; simpl;
    try (split; [discriminate | intros [ti [H _]]; discriminate]).
  - split; [|intros [ti [H _]]; discriminate].
    rewrite orb_true_r. discriminate.
  - split; [|intros [ti [H _]]; discriminate].
    rewrite orb_true_r. discriminate.
  - rewrite orb_false_r. split.
    + intros H. apply orb_false_iff in H. destruct H as [_ H].
      apply is_empty_false in H. exists str. auto.
    + intros [ti [H Hti]]. injection H as <-.
      apply orb_false_iff. split.
      * apply negb_false_iff, negb_true_iff, is_empty_false.
        now apply not_blank_not_empty.
      * now apply is_empty_false.
Qed.

Lemma position_accepted_iff (v : jsval) :
  position_rejected v = false
  <-> Number_isInteger v = true /\ 0 <= integer_value v.
Proof.
  unfold position_rejected. rewrite !orb_false_iff, negb_false_iff, Z.ltb_ge.
  split; [tauto|]. intros [H1 H2]. repeat split; try assumption.
  destruct v; try discriminate; reflexivity.
Qed.

Lemma board_id_accepted_iff (v : jsval) :
  board_id_rejected v = false <-> exists q, v = JNum q /\ 0 < Qnum q.
Proof.
  unfold board_id_rejected. destruct v as [| |b|q|str|]; simpl;
    try (split; [discriminate | intros [q' [H _]]; discriminate]).
  - split; [|intros [q' [H _]]; discriminate].
    rewrite orb_true_r. discriminate.
  - rewrite orb_false_r. split.
    + intros H. apply orb_false_iff in H. destruct H as [_ H].
      apply Z.leb_gt in H. exists q. auto.
    + intros [q' [H Hq]]. injection H as <-.
      apply orb_false_iff. split.
      * apply negb_false_iff, negb_true_iff, Z.eqb_neq. lia.
      * apply Z.leb_gt. exact Hq.
  - split; [|intros [q' [H _]]; discriminate].
    rewrite orb_true_r. discriminate.
Qed.

Lemma validateRequest_valid (o : object) :
  valid (validateRequest (Some o))
  = negb (title_rejected (get_field o "title"))
    && negb (position_rejected (get_field o "position"))
    && negb (board_id_rejected (get_field o "board_id")).
Proof.
  unfold validateRequest. simpl.
  destruct (title_rejected (get_field o "title")),
    (position_rejected (get_field o "position")),
    (board_id_rejected (get_field o "board_id")); reflexivity.
Qed.

(** X19: [validateRequest] accepts a request exactly when it has a body whose
    title is a string that is not blank, whose position is an integer
    [>= 0] and whose board id is a number [> 0], integral or not; it
    accepts exactly when it reports no message, and a request without a
    body gets the single message of the base class. *)
Theorem validateRequest_valid_iff (data : option object) :
  (valid (validateRequest data) = true <->
   exists o, data = Some o /\
     (exists ti, get_field o "title" = JStr ti /\ trim ti <> []) /\
     (Number_isInteger (get_field o "position") = true /\
      0 <= integer_value (get_field o "position")) /\
     (exists q, get_field o "board_id" = JNum q /\ 0 < Qnum q)) /\
  (valid (validateRequest data) = true <-> errors (validateRequest data) = []) /\
  (data = None -> validateRequest data
                  = mkValidation false ["Request body is required"]).
Proof.
  destruct data as [o|].
  - split; [|split; [|discriminate]].
    + rewrite validateRequest_valid, !andb_true_iff, !negb_true_iff.
      rewrite title_accepted_iff, position_accepted_iff, board_id_accepted_iff.
      split.
      * intros [[H1 H2] H3]. exists o. auto.
      * intros [o' [E [H1 [H2 H3]]]]. injection E as <-. auto.
    + unfold validateRequest. simpl.
      destruct (title_rejected (get_field o "title")),
        (position_rejected (get_field o "position")),
        (board_id_rejected (get_field o "board_id")); simpl;
        split; intros H; try reflexivity; discriminate.
  - simpl. split; [|split; [|reflexivity]].
    + split; [discriminate|]. intros [o [E _]]. discriminate.
    + split; discriminate.
Qed.

Lemma validateRequest_valid_iff_witness :
  valid (validateRequest
           (Some [("title", JStr (lit "D")); ("position", of_integer 0);
                  ("board_id", JNum (3 # 2))])) = true.
Proof.
  apply (proj1 (validateRequest_valid_iff
                  (Some [("title", JStr (lit "D")); ("position", of_integer 0);
                         ("board_id", JNum (3 # 2))]))).
  eexists. split; [reflexivity|]. split; [|split].
  - exists "D". split; [reflexivity | vm_compute; discriminate].
  - split; [reflexivity | vm_compute; discriminate].
  - exists (3 # 2). split; [reflexivity | reflexivity].
Defined.

Lemma create_typed_ok_iff (ti : JS.jsstring) (p b : Z) (s : store) :
  (exists task,
     fst (TaskRepository.create
            (Some (TaskRepository.mkData (Some ti) (Some p) (Some b))) s)
     = Ok task)
  <-> JS.trim ti <> [] /\ 0 <= p /\ 0 < b.
Proof.
  split.
  - unfold TaskRepository.create. simpl.
    destruct (JS.is_empty ti || (b =? 0)); [intros [? H]; discriminate|].
    destruct (Task.validate (Task.new None ti p b)) eqn:Ev; simpl;
      [|intros [? H]; discriminate].
    intros _. apply validate_true_iff in Ev. tauto.
  - intros [Hti [Hp Hb]]. rewrite (create_valid ti p b s Hti Hp Hb).
    eexists. reflexivity.
Qed.

(** X20: The two layers of checks agree on a body whose title is a string and
    whose position and board id are integers: the handler hands such a
    body over exactly when the repository's [create] then succeeds, and
    answers 400 otherwise, so that the repository never rejects what the
    handler let through. *)
Theorem handler_and_repository_agree
  (o : object) (ti : JS.jsstring) (p b : Z) (s : store) :
  get_field o "title" = JStr ti ->
  get_field o "position" = of_integer p ->
  get_field o "board_id" = of_integer b ->
  (create (Some o) = InvokeSuper (Some o) <->
   exists task,
     fst (TaskRepository.create
            (Some (TaskRepository.mkData (Some ti) (Some p) (Some b))) s)
     = Ok task) /\
  (create (Some o) = InvokeSuper (Some o) \/
   exists message,
     create (Some o) = RespondInvalid (TaskController.sendError 400 message)).
Proof.
  intros Ht Hp Hb.
  assert (Hv : valid (validateRequest (Some o)) = true
               <-> JS.trim ti <> [] /\ 0 <= p /\ 0 < b).
  { rewrite validateRequest_valid, !andb_true_iff, !negb_true_iff.
    rewrite title_accepted_iff, position_accepted_iff, board_id_accepted_iff.
    rewrite Ht, Hp, Hb, of_integer_is_integer, integer_value_of_integer.
    split.
    - intros [[[ti' [E Hti]] [_ Hp']] [q [Eq Hq]]].
      injection E as <-. unfold of_integer in Eq. injection Eq as <-.
      simpl in Hq. auto.
    - intros [Hti [Hp' Hb']]. repeat split; try assumption.
      + exists ti. auto.
      + exists (inject_Z b). split; [reflexivity | exact Hb']. }
  rewrite create_typed_ok_iff, <- Hv. unfold create.
  destruct (valid (validateRequest (Some o))); simpl.
  - split; [tauto | now left].
  - split; [split; discriminate|]. right. eexists. reflexivity.
Qed.

Lemma handler_and_repository_agree_witness :
  create (Some [("title", JStr (lit "D")); ("position", of_integer 3);
                ("board_id", of_integer 1)])
  = InvokeSuper (Some [("title", JStr (lit "D")); ("position", of_integer 3);
                       ("board_id", of_integer 1)]).
Proof.
  apply (proj1 (handler_and_repository_agree
                  [("title", JStr (lit "D")); ("position", of_integer 3);
                   ("board_id", of_integer 1)] "D" 3 1 abc
                  eq_refl eq_refl eq_refl)).
  eexists. reflexivity.
Defined.

(** *** The guards of the move handler *)

(** X22: The move handler hands over to the repository exactly when both ids
    are integers [> 0] and [newPosition] is undefined, null or an integer
    [>= 0]; what it hands over are the two ids and [newPosition] as it
    came, a null included. *)
Theorem move_hands_over_iff (taskId newBoardId newPosition : jsval) :
  (forall t q np,
     move taskId newBoardId newPosition = InvokeMoveToBoard t q np ->
     t = integer_value taskId /\ q = integer_value newBoardId /\
     np = newPosition) /\
  ((exists t q np,
      move taskId newBoardId newPosition = InvokeMoveToBoard t q np) <->
   Number_isInteger taskId = true /\ 0 < integer_value taskId /\
   Number_isInteger newBoardId = true /\ 0 < integer_value newBoardId /\
   (newPosition = JUndefined \/ newPosition = JNull \/
    (Number_isInteger newPosition = true /\ 0 <= integer_value newPosition))).
Proof.
  unfold move.
  destruct (truthy taskId) eqn:T1; simpl.
  2:{ split; [discriminate|]. split; [intros [? [? [? H]]]; discriminate|].
      intros [H1 [N1 _]].
      assert (truthy taskId = true) by (apply (integer_nonzero _ H1); lia).
      congruence. }
  destruct (truthy newBoardId) eqn:T2; simpl.
  2:{ split; [discriminate|]. split; [intros [? [? [? H]]]; discriminate|].
      intros [_ [_ [H2 [N2 _]]]].
      assert (truthy newBoardId = true) by (apply (integer_nonzero _ H2); lia).
      congruence. }
  destruct (Number_isInteger taskId) eqn:I1; simpl.
  2:{ split; [discriminate|]. split; [intros [? [? [? H]]]; discriminate|].
      intros [H _]. discriminate. }
  destruct (Z.leb_spec (integer_value taskId) 0) as [L1|L1]; simpl.
  { split; [discriminate|]. split; [intros [? [? [? H]]]; discriminate|].
    intros [_ [H _]]. lia. }
  destruct (Number_isInteger newBoardId) eqn:I2; simpl.
  2:{ split; [discriminate|]. split; [intros [? [? [? H]]]; discriminate|].
      intros [_ [_ [H _]]]. discriminate. }
  destruct (Z.leb_spec (integer_value newBoardId) 0) as [L2|L2]; simpl.
  { split; [discriminate|]. split; [intros [? [? [? H]]]; discriminate|].
    intros [_ [_ [_ [H _]]]]. lia. }
  destruct newPosition as [| |bo|qn|str|]; simpl.
  - split; [intros t q np H; injection H as <- <- <-; auto|].
    split; [intros _; repeat split; auto | intros _; eauto].
  - split; [intros t q np H; injection H as <- <- <-; auto|].
    split; [intros _; repeat split; auto | intros _; eauto].
  - split; [discriminate|]. split; [intros [? [? [? H]]]; discriminate|].
    intros [_ [_ [_ [_ [H|[H|[H _]]]]]]]; discriminate.
  - destruct (Qnum qn mod Z.pos (Qden qn) =? 0) eqn:I3; simpl.
    + destruct (Z.ltb_spec (Qnum qn / Z.pos (Qden qn)) 0) as [L3|L3]; simpl.
      * split; [discriminate|]. split; [intros [? [? [? H]]]; discriminate|].
        intros [_ [_ [_ [_ [H|[H|[_ H]]]]]]]; try discriminate. lia.
      * split; [intros t q np H; injection H as <- <- <-; auto|].
        split; [intros _; repeat split; auto | intros _; eauto].
    + split; [discriminate|]. split; [intros [? [? [? H]]]; discriminate|].
      intros [_ [_ [_ [_ [H|[H|[H _]]]]]]]; discriminate.
  - split; [discriminate|]. split; [intros [? [? [? H]]]; discriminate|].
    intros [_ [_ [_ [_ [H|[H|[H _]]]]]]]; discriminate.
  - split; [discriminate|]. split; [intros [? [? [? H]]]; discriminate|].
    intros [_ [_ [_ [_ [H|[H|[H _]]]]]]]; discriminate.
Qed.

Lemma move_hands_over_iff_witness :
  exists t q np,
    move (of_integer 1) (of_integer 2) JNull = InvokeMoveToBoard t q np.
Proof.
  apply (proj2 (proj2 (move_hands_over_iff (of_integer 1) (of_integer 2) JNull))).
  repeat split; try reflexivity. right. now left.
Defined.

End Handlers.

(* ------------------------------------------------------------------ *)
(** ** Creating then deleting; listing a board *)

Section CreateDeleteList.

(** X6: Creating an item and deleting it again gives back the rows of the
    table, and the id it had is not handed out again: the next insertion
    gets the id after it. *)
Theorem create_then_delete (ti : JS.jsstring) (p b : Z) (s : store) :
  JS.trim ti <> [] -> 0 <= p -> 0 < b ->
  let s1 := snd (TaskRepository.create
                   (Some (TaskRepository.mkData (Some ti) (Some p) (Some b))) s) in
  let s2 := snd (TaskRepository.delete (next_id s) s1) in
  rows s2 = rows s /\ next_id s2 = next_id s + 1.
Proof.
  intros Hti Hp Hb s1 s2. subst s2 s1.
  rewrite (create_valid ti p b s Hti Hp Hb). simpl.
  assert (Hrows : filter (fun r => negb (has_id (next_id s) r))
                    (rows s ++ [mkRow (next_id s) ti p b]) = rows s).
  { rewrite filter_app. simpl. unfold has_id at 2. simpl. rewrite Z.eqb_refl.
    simpl. rewrite app_nil_r. apply filter_all.
    intros x Hx. apply negb_true_iff, has_id_false.
    apply max_id_bound in Hx. unfold next_id. lia. }
  split; [exact Hrows|].
  unfold next_id at 1. simpl. rewrite Hrows. unfold next_id. lia.
Qed.

Lemma create_then_delete_witness :
  rows (snd (TaskRepository.delete (next_id abc)
               (snd (TaskRepository.create
                       (Some (TaskRepository.mkData (Some (JS.lit "D")) (Some 3) (Some 1)))
                       abc))))
  = rows abc.
Proof.
  refine (proj1 (create_then_delete "D" 3 1 abc _ _ _)).
  - vm_compute. discriminate.
  - lia.
  - lia.
Defined.

Lemma insert_by_position_sorted (r : row) (l : list row) :
  Sorted Z.le (map row_position l) ->
  Sorted Z.le (map row_position (insert_by_position r l)).
Proof.
  induction l as [|x l IH]; intros Hs; simpl.
  - repeat constructor.
  - destruct (Z.leb_spec (row_position r) (row_position x)) as [Hle|Hgt].
    + simpl. constructor; [exact Hs|]. constructor. exact Hle.
    + simpl. simpl in Hs. apply Sorted_inv in Hs. destruct Hs as [Hs Hhd].
      constructor; [now apply IH|].
      destruct l as [|y l]; simpl.
      * constructor. lia.
      * destruct (row_position r <=? row_position y); simpl; constructor;
          [lia|]. simpl in Hhd. now apply HdRel_inv in Hhd.
Qed.

Lemma order_by_position_sorted (l : list row) :
  Sorted Z.le (map row_position (order_by_position l)).
Proof.
  induction l as [|x l IH]; simpl; [constructor|].
  now apply insert_by_position_sorted.
Qed.

(** X17: [getByBoardId] never fails; it lists the items of the board and no
    other, each once, in ascending order of position (the empty list for
    a board without items). *)
Theorem getByBoardId_lists_board_in_order (b : Z) (s : store) :
  exists tasks,
    TaskRepository.getByBoardId b s = Ok tasks /\
    Sorted Z.le (map Task._position tasks) /\
    Permutation tasks
      (map (fun r => Task.mkTask (Some (row_id r)) (row_title r)
                       (row_position r) (row_board_id r))
           (filter (in_board b) (rows s))) /\
    (forall task, In task tasks -> Task._board_id task = b).
Proof.
  eexists. split; [reflexivity|]. split; [|split].
  - rewrite map_map. simpl. apply order_by_position_sorted.
  - apply Permutation_map. apply order_by_position_perm.
  - intros task Hin. apply in_map_iff in Hin. destruct Hin as [r [<- Hr]].
    simpl. apply (Permutation_in _ (order_by_position_perm _)) in Hr.
    apply filter_In in Hr. now apply in_board_true.
Qed.

End CreateDeleteList.
